(** * Onshape MCP wrapper: a shallow embedding of [onshapeApi.ts] and [server.ts]

    The TypeScript sources are embedded as Rocq functions.  JavaScript values
    that cross the JSON boundary are a small untyped value type [jsval];
    asynchronous handlers become functions in an exception-and-state monad
    whose state records every HTTP request handed to [fetch] and every line
    written with [console.error].  The built-ins of the JavaScript platform
    that the sources call but do not define ([JSON.stringify], [JSON.parse],
    [URL], [URLSearchParams], [encodeURIComponent], [Buffer] base64, the text
    of engine-raised [TypeError]s, the process environment) are the fields of
    the class [Runtime]; the remote Onshape service is the class [Backend].
    Texts are Rocq strings: the model is exact for ASCII text. *)

From Stdlib Require Import String Ascii List ZArith Bool Lia.
From Stdlib Require Import DecimalString.
Import ListNotations.
Local Open Scope string_scope.
Local Open Scope Z_scope.
Set Warnings "-register-all".

(** ** JavaScript values *)

(** Values as [JSON.parse] produces them, plus [undefined].  Numbers are
    integers: the sources only test numbers for truthiness, compare array
    lengths and print them.  A number with a fraction (a coordinate of a
    bounding box, say) has no counterpart here, so what is proved about the
    text of a number holds for integers only.  Objects keep their properties
    in insertion order. *)
Inductive jsval : Type :=
| JUndefined
| JNull
| JBool (b : bool)
| JNum (n : Z)
| JStr (s : string)
| JArr (items : list jsval)
| JObj (fields : list (string * jsval)).

(** A thrown [Error] object: its [name] and its [message]. *)
Record Error : Type := mkError { err_name : string; err_message : string }.

(** [new Error(msg)] *)
Definition new_Error (msg : string) : Error := mkError "Error" msg.

(** [Error.prototype.toString], used by [`${error}`]. *)
Definition Error_toString (e : Error) : string :=
  if String.eqb (err_name e) "" then err_message e
  else if String.eqb (err_message e) "" then err_name e
  else err_name e ++ ": " ++ err_message e.

(** ToBoolean *)
Definition truthy (v : jsval) : bool :=
  match v with
  | JUndefined | JNull => false
  | JBool b => b
  | JNum n => negb (n =? 0)
  | JStr s => negb (String.eqb s "")
  | JArr _ | JObj _ => true
  end.

Definition nullish (v : jsval) : bool :=
  match v with
  | JUndefined | JNull => true
  | _ => false
  end.

(** Decimal text of an integer number value: all its digits, as JavaScript
    prints an integer of magnitude below [10^21] (HTTP statuses, lengths and
    indices are of that kind).  From there on JavaScript prints an exponent,
    which is not modelled. *)
Definition Number_toString (n : Z) : string := NilZero.string_of_int (Z.to_int n).

(** ToString, as applied by template literals and by [String.prototype.replace]
    to its replacement argument. *)
Fixpoint to_string (v : jsval) : string :=
  match v with
  | JUndefined => "undefined"
  | JNull => "null"
  | JBool true => "true"
  | JBool false => "false"
  | JNum n => Number_toString n
  | JStr s => s
  | JArr items =>
      (fix join (l : list jsval) : string :=
         match l with
         | [] => ""
         | x :: rest =>
             (match x with
              | JUndefined | JNull => ""
              | _ => to_string x
              end) ++
             (match rest with
              | [] => ""
              | _ :: _ => "," ++ join rest
              end)
         end) items
  | JObj _ => "[object Object]"
  end.

(** Own-property lookup in an object literal or parsed object. *)
Fixpoint lookup (k : string) (fields : list (string * jsval)) : jsval :=
  match fields with
  | [] => JUndefined
  | (k', v) :: rest => if String.eqb k k' then v else lookup k rest
  end.

(** The own enumerable properties of an array: its elements under their
    decimal indices. *)
Fixpoint index_entries_from (i : nat) (items : list jsval) : list (string * jsval) :=
  match items with
  | [] => []
  | x :: rest => (Number_toString (Z.of_nat i), x) :: index_entries_from (S i) rest
  end.

Definition index_entries (items : list jsval) : list (string * jsval) :=
  index_entries_from 0 items.

(** The own enumerable properties of a string: its characters. *)
Fixpoint char_entries_from (i : nat) (s : string) : list (string * jsval) :=
  match s with
  | EmptyString => []
  | String c rest =>
      (Number_toString (Z.of_nat i), JStr (String c EmptyString))
      :: char_entries_from (S i) rest
  end.

Definition char_entries (s : string) : list (string * jsval) := char_entries_from 0 s.

(** [fields] with property [k] set to [v]: overwritten in place when present,
    added at the end otherwise. *)
Fixpoint set_field (k : string) (v : jsval) (fields : list (string * jsval))
  : list (string * jsval) :=
  match fields with
  | [] => [(k, v)]
  | (k', v') :: rest =>
      if String.eqb k k' then (k, v) :: rest else (k', v') :: set_field k v rest
  end.

(** The properties that [{ ...base, ...data }] copies from [data]. *)
Definition spread_entries (data : jsval) : list (string * jsval) :=
  match data with
  | JObj fields => fields
  | JArr items => index_entries items
  | JStr s => char_entries s
  | _ => []
  end.

(** The object literal [{ ...base, ...data }] for literal properties [base]. *)
Definition object_spread (base : list (string * jsval)) (data : jsval)
  : list (string * jsval) :=
  fold_left (fun acc kv => set_field (fst kv) (snd kv) acc) (spread_entries data) base.

(** [a || b] *)
Definition js_or (a b : jsval) : jsval := if truthy a then a else b.

(** [v === s] for a string literal [s] *)
Definition strict_eq_str (v : jsval) (s : string) : bool :=
  match v with
  | JStr t => String.eqb t s
  | _ => false
  end.

(** [typeof v === 'object'] *)
Definition typeof_object (v : jsval) : bool :=
  match v with
  | JNull | JArr _ | JObj _ => true
  | _ => false
  end.

(** [Array.isArray(v)] *)
Definition Array_isArray (v : jsval) : bool :=
  match v with
  | JArr _ => true
  | _ => false
  end.

(** [String.prototype.toUpperCase] on ASCII text; the sources apply it to the
    state token. *)
Definition upper_ascii (c : ascii) : ascii :=
  let n := nat_of_ascii c in
  if (Nat.leb 97 n && Nat.leb n 122)%bool then ascii_of_nat (n - 32) else c.

Fixpoint toUpperCase (s : string) : string :=
  match s with
  | EmptyString => EmptyString
  | String c rest => String (upper_ascii c) (toUpperCase rest)
  end.

(** The line feed written [\n] in the sources. *)
Definition LF : string := String (ascii_of_nat 10) EmptyString.

(** The double quote inside the sources' string and template literals. *)
Definition DQ : string := String (ascii_of_nat 34) EmptyString.

(** ** The platform and the remote service *)

(** One HTTP request as [onshapeApiRequest] hands it to [fetch]. *)
Record Request : Type := mkRequest {
  req_url : string;
  req_method : string;
  req_headers : list (string * string);
  req_body : option string
}.

(** What [onshapeApiRequest] reads off a [fetch] response: [ok], [status],
    [statusText] and the text of the body. *)
Record Response : Type := mkResponse {
  resp_ok : bool;
  resp_status : Z;
  resp_statusText : string;
  resp_text : string
}.

(** [await fetch(..)] followed by [await response.text()] either rejects or
    delivers a response with its body; both awaits sit in the same [try]
    block of [onshapeApiRequest], so a rejection of either is one case. *)
Inductive FetchOutcome : Type :=
| Rejected (e : Error)
| Responded (r : Response).

Class Runtime : Type := {
  (** [JSON.stringify(v)] and [JSON.stringify(v, null, 2)] on a defined value *)
  JSON_stringify : jsval -> string;
  JSON_stringify_indent2 : jsval -> string;
  (** [JSON.parse(text)]: a value or a thrown [SyntaxError] *)
  JSON_parse : string -> Error + jsval;
  encodeURIComponent : string -> string;
  (** [new URL(s).href]: the normalised URL or a thrown [TypeError] *)
  URL_href : string -> Error + string;
  (** [URLSearchParams.prototype.toString] on the appended pairs *)
  URLSearchParams_toString : list (string * string) -> string;
  (** [Buffer.from(s).toString('base64')] *)
  base64 : string -> string;
  (** StringToNumber restricted to integers; [None] is NaN *)
  StringToNumber : string -> option Z;
  (** the [TypeError] raised when property [k] of [undefined]/[null] is read *)
  TypeError_nullish : jsval -> string -> Error;
  (** the [TypeError] raised when a non-callable property [k] is called *)
  TypeError_not_a_function : string -> Error;
  (** the [TypeError] raised when [undefined]/[null] is destructured *)
  TypeError_destructure : jsval -> Error;
  (** the [TypeError] raised when [Object.entries] is given [undefined]/[null] *)
  TypeError_to_object : jsval -> Error;
  (** [process.env] *)
  env_ONSHAPE_API_URL : option string;
  env_ONSHAPE_ACCESS_KEY : option string;
  env_ONSHAPE_SECRET_KEY : option string
}.

(** The remote service: the outcome of a request given the requests that were
    sent before it. *)
Class Backend : Type := fetch_outcome : list Request -> Request -> FetchOutcome.

(** ** The handler monad *)

(** [locals] holds the [let] variables of a handler that its [catch] block
    reads; [sent] is the log of requests passed to [fetch], oldest first;
    [console] is the log of [console.error] lines. *)
Record State (L : Type) : Type := mkState {
  locals : L;
  sent : list Request;
  console : list string
}.
Arguments mkState {L} _ _ _.
Arguments locals {L} _.
Arguments sent {L} _.
Arguments console {L} _.

(** A computation either throws ([inl]) or returns ([inr]); state changes made
    before a throw persist. *)
Definition M (L A : Type) : Type := State L -> (Error + A) * State L.

Definition ret {L A} (a : A) : M L A := fun s => (inr a, s).

Definition throw {L A} (e : Error) : M L A := fun s => (inl e, s).

Definition bind {L A B} (c : M L A) (k : A -> M L B) : M L B :=
  fun s =>
    match c s with
    | (inl e, s') => (inl e, s')
    | (inr a, s') => k a s'
    end.

Notation "x <- c ;; k" := (bind c (fun x => k))
  (at level 61, c at next level, right associativity).
Notation "c ;;; k" := (bind c (fun _ => k))
  (at level 61, right associativity).

(** [try { body } catch (error) { handler }] *)
Definition try_catch {L A} (body : M L A) (handler : Error -> M L A) : M L A :=
  fun s =>
    match body s with
    | (inl e, s') => handler e s'
    | (inr a, s') => (inr a, s')
    end.

Definition console_error {L} (line : string) : M L unit :=
  fun s => (inr tt, mkState (locals s) (sent s) (console s ++ [line])).

Definition get_local {L} : M L L := fun s => (inr (locals s), s).

Definition set_local {L} (l : L) : M L unit :=
  fun s => (inr tt, mkState l (sent s) (console s)).

(** Lift a pure result-or-exception into the monad. *)
Definition lift {L A} (r : Error + A) : M L A :=
  match r with
  | inl e => throw e
  | inr a => ret a
  end.

(** A fold over [l] threading the accumulated text, stopping at the first
    throw: the shape of [forEach(x => { outputText += .. })]. *)
Fixpoint fold_text {L A} (l : list A) (f : A -> string -> M L string) (acc : string)
  : M L string :=
  match l with
  | [] => ret acc
  | x :: rest => acc' <- f x acc ;; fold_text rest f acc'
  end.

(** ** Dynamic operations that can throw *)

Section Dynamic.
Context {RT : Runtime}.

(** [v.k] and [v[k]] for a property name [k].  Reading a property of
    [undefined] or [null] throws; arrays and strings have [length] and their
    indices; no property name read by the sources is inherited from a
    prototype. *)
Definition get_prop (v : jsval) (k : string) : Error + jsval :=
  match v with
  | JUndefined | JNull => inl (TypeError_nullish v k)
  | JObj fields => inr (lookup k fields)
  | JArr items =>
      inr (if String.eqb k "length" then JNum (Z.of_nat (List.length items))
           else lookup k (index_entries items))
  | JStr s =>
      inr (if String.eqb k "length" then JNum (Z.of_nat (String.length s))
           else lookup k (char_entries s))
  | JBool _ | JNum _ => inr JUndefined
  end.

(** [v?.k] *)
Definition get_prop_opt (v : jsval) (k : string) : Error + jsval :=
  if nullish v then inr JUndefined else get_prop v k.

(** The receiver of an array-only method call [v.k(..)] ([find], [forEach]):
    the elements when [v] is an array, a [TypeError] otherwise. *)
Definition array_receiver (v : jsval) (k : string) : Error + list jsval :=
  match v with
  | JArr items => inr items
  | JUndefined | JNull => inl (TypeError_nullish v k)
  | _ => inl (TypeError_not_a_function k)
  end.

(** [v.toUpperCase()] *)
Definition call_toUpperCase (v : jsval) : Error + string :=
  match v with
  | JStr s => inr (toUpperCase s)
  | JUndefined | JNull => inl (TypeError_nullish v "toUpperCase")
  | _ => inl (TypeError_not_a_function "toUpperCase")
  end.

(** [v.slice(0, 5)]: arrays and strings have [slice]. *)
Definition call_slice_0_5 (v : jsval) : Error + jsval :=
  match v with
  | JArr items => inr (JArr (firstn 5 items))
  | JStr s => inr (JStr (substring 0 5 s))
  | JUndefined | JNull => inl (TypeError_nullish v "slice")
  | _ => inl (TypeError_not_a_function "slice")
  end.

(** [v.join(sep)]: only arrays have [join]; [null] and [undefined] elements
    print as the empty text. *)
Definition call_join (v : jsval) (sep : string) : Error + string :=
  match v with
  | JArr items =>
      inr (String.concat sep
             (map (fun x => if nullish x then EmptyString else to_string x) items))
  | JUndefined | JNull => inl (TypeError_nullish v "join")
  | _ => inl (TypeError_not_a_function "join")
  end.

(** [Object.entries(v)] *)
Definition Object_entries (v : jsval) : Error + list (string * jsval) :=
  match v with
  | JUndefined | JNull => inl (TypeError_to_object v)
  | _ => inr (spread_entries v)
  end.

(** [Object.keys(v)] for a value that is not [undefined] or [null] *)
Definition Object_keys (v : jsval) : list string := map fst (spread_entries v).

(** The text of [n / 2] for an array length [n]. *)
Definition half_text (n : nat) : string :=
  if Nat.even n then Number_toString (Z.of_nat (Nat.div2 n))
  else Number_toString (Z.of_nat (Nat.div2 n)) ++ ".5".

(** ToNumber on integers; [None] is NaN. *)
Definition ToNumber (v : jsval) : option Z :=
  match v with
  | JUndefined => None
  | JNull => Some 0
  | JBool b => Some (if b then 1 else 0)
  | JNum n => Some n
  | JStr s => StringToNumber s
  | JArr _ | JObj _ => StringToNumber (to_string v)
  end.

(** [v > n] for a numeric literal [n] *)
Definition js_gt (v : jsval) (n : Z) : bool :=
  match ToNumber v with
  | Some m => n <? m
  | None => false
  end.

(** The text of [v - n] for a numeric literal [n] *)
Definition js_minus_text (v : jsval) (n : Z) : string :=
  match ToNumber v with
  | Some m => Number_toString (m - n)
  | None => "NaN"
  end.

End Dynamic.

(** ** onshapeApi.ts *)

Section OnshapeApi.
Context {RT : Runtime} {BE : Backend}.

(** [process.env.ONSHAPE_API_URL || 'https://cad.onshape.com/api/v1'] *)
Definition ONSHAPE_API_URL : string :=
  match env_ONSHAPE_API_URL with
  | Some u => if String.eqb u "" then "https://cad.onshape.com/api/v1" else u
  | None => "https://cad.onshape.com/api/v1"
  end.

(** [!v] for an environment variable: unset or empty *)
Definition env_missing (v : option string) : bool :=
  match v with
  | Some s => String.eqb s ""
  | None => true
  end.

(** What the module writes with [console.error] when it is loaded: the
    warning about missing API keys, after which loading goes on. *)
Definition startup_console : list string :=
  if (env_missing env_ONSHAPE_ACCESS_KEY || env_missing env_ONSHAPE_SECRET_KEY)%bool then
    ["Onshape API keys not set. Please set ONSHAPE_ACCESS_KEY and ONSHAPE_SECRET_KEY environment variables."]
  else [].

(** [`${v}`] of an environment variable that may be unset *)
Definition env_text (v : option string) : string :=
  match v with
  | Some s => s
  | None => "undefined"
  end.

Definition authHeader : string :=
  "Basic " ++ base64 (env_text env_ONSHAPE_ACCESS_KEY ++ ":" ++ env_text env_ONSHAPE_SECRET_KEY).

(** [await fetch(url, options)] with the body text read: logs the request and
    asks the backend. *)
Definition fetch {L} (req : Request) : M L Response :=
  fun s =>
    let s' := mkState (locals s) (sent s ++ [req]) (console s) in
    match fetch_outcome (sent s) req with
    | Rejected e => (inl e, s')
    | Responded r => (inr r, s')
    end.

(** The [RequestInit] that [onshapeApiRequest] builds. *)
Definition request_options (method url : string) (body : jsval) : Request :=
  mkRequest url method
    [("accept", "application/json;charset=UTF-8; qs=0.09");
     ("Authorization", authHeader);
     ("Content-Type", "application/json;charset=UTF-8; qs=0.09")]
    (if truthy body then Some (JSON_stringify body) else None).

Definition request_url (path : string) (queryParams : option (list (string * string)))
  : string :=
  ONSHAPE_API_URL ++ path ++
  match queryParams with
  | Some q => "?" ++ URLSearchParams_toString q
  | None => ""
  end.

(** The message of the [Error] thrown for a response that is not [ok]. *)
Definition api_error_message (r : Response) : string :=
  "Onshape API Error: " ++ Number_toString (resp_status r) ++ " " ++
  resp_statusText r ++ " - " ++ resp_text r.

Definition onshapeApiRequest {L} (method path : string) (body : jsval)
    (queryParams : option (list (string * string))) : M L jsval :=
  let url := request_url path queryParams in
  let options := request_options method url body in
  try_catch
    (response <- fetch options ;;
     if negb (resp_ok response) then
       let errorBody := resp_text response in
       throw (new_Error ("Onshape API Error: " ++ Number_toString (resp_status response)
                         ++ " " ++ resp_statusText response ++ " - " ++ errorBody))
     else
       let text := resp_text response in
       if negb (String.eqb text "") then lift (JSON_parse text) else ret (JObj []))
    (fun error =>
       console_error ("Error during Onshape API request to " ++ url ++ ": "
                      ++ Error_toString error) ;;;
       throw error).

(** [arr.find(elem => elem.name === name)] on the elements of an array *)
Fixpoint find_by_name {L} (items : list jsval) (name : string) : M L jsval :=
  match items with
  | [] => ret JUndefined
  | elem :: rest =>
      n <- lift (get_prop elem "name") ;;
      if strict_eq_str n name then ret elem else find_by_name rest name
  end.

Definition getDefaultWorkspace {L} (documentId : string) : M L jsval :=
  try_catch
    (docInfo <- onshapeApiRequest "GET" ("/documents/" ++ documentId) JUndefined None ;;
     defaultWorkspace <- lift (get_prop docInfo "defaultWorkspace") ;;
     lift (get_prop_opt defaultWorkspace "id"))
    (fun error =>
       console_error ("Failed to get default workspace for document " ++ documentId
                      ++ ": " ++ Error_toString error) ;;;
       ret JUndefined).

Definition findPartStudioByName {L} (documentId workspaceId name : string) : M L jsval :=
  try_catch
    (let queryParams := [("elementType", "PARTSTUDIO")] in
     elements <- onshapeApiRequest "GET"
                   ("/documents/d/" ++ documentId ++ "/w/" ++ workspaceId ++ "/elements")
                   JUndefined (Some queryParams) ;;
     items <- lift (array_receiver elements "find") ;;
     find_by_name items name)
    (fun error =>
       console_error ("Failed to find Part Studio by name " ++ DQ ++ name ++ DQ ++ ": "
                      ++ Error_toString error) ;;;
       ret JUndefined).

Definition findAssemblyByName {L} (documentId workspaceId name : string) : M L jsval :=
  try_catch
    (let queryParams := [("elementType", "ASSEMBLY")] in
     elements <- onshapeApiRequest "GET"
                   ("/documents/d/" ++ documentId ++ "/w/" ++ workspaceId ++ "/elements")
                   JUndefined (Some queryParams) ;;
     items <- lift (array_receiver elements "find") ;;
     find_by_name items name)
    (fun error =>
       console_error ("Failed to find Assembly by name " ++ DQ ++ name ++ DQ ++ ": "
                      ++ Error_toString error) ;;;
       ret JUndefined).

End OnshapeApi.

(** ** server.ts: strings, templates and result envelopes *)

(** [s] without the prefix [p], when [s] starts with [p]. *)
Fixpoint strip_prefix (p s : string) : option string :=
  match p, s with
  | EmptyString, _ => Some s
  | String a p', String b s' => if Ascii.eqb a b then strip_prefix p' s' else None
  | String _ _, EmptyString => None
  end.

(** The text before and after the first occurrence of [pat] in [s]. *)
Fixpoint split_first (pat s : string) : option (string * string) :=
  match strip_prefix pat s with
  | Some after => Some (EmptyString, after)
  | None =>
      match s with
      | EmptyString => None
      | String c rest =>
          match split_first pat rest with
          | Some (before, after) => Some (String c before, after)
          | None => None
          end
      end
  end.

(** GetSubstitution for a string pattern (no captures): [$$], [$&], [$`] and
    [$'] are expanded in the replacement text, any other [$] is literal. *)
Fixpoint GetSubstitution (matched before after template : string) : string :=
  match template with
  | EmptyString => EmptyString
  | String a t =>
      if Ascii.eqb a "$" then
        match t with
        | EmptyString => String a EmptyString
        | String c rest =>
            if Ascii.eqb c "$" then String "$" (GetSubstitution matched before after rest)
            else if Ascii.eqb c "&" then matched ++ GetSubstitution matched before after rest
            else if Ascii.eqb c "`" then before ++ GetSubstitution matched before after rest
            else if Ascii.eqb c "'" then after ++ GetSubstitution matched before after rest
            else String a (GetSubstitution matched before after t)
        end
      else String a (GetSubstitution matched before after t)
  end.

(** [s.replace(pat, replacement)] for a string pattern: only the first
    occurrence is replaced. *)
Definition String_replace (s pat replacement : string) : string :=
  match split_first pat s with
  | Some (before, after) => before ++ GetSubstitution pat before after replacement ++ after
  | None => s
  end.

Definition ONSHAPE_SCHEME : string := "onshape".
Definition DOC_URI_TEMPLATE : string := ONSHAPE_SCHEME ++ "://document/{documentId}".
Definition WVM_URI_TEMPLATE : string :=
  ONSHAPE_SCHEME ++ "://document/{documentId}/{wvm}/{wvmid}".
Definition ELEMENT_URI_TEMPLATE : string :=
  ONSHAPE_SCHEME ++ "://document/{documentId}/{wvm}/{wvmid}/element/{elementId}".
Definition PART_URI_TEMPLATE : string :=
  ONSHAPE_SCHEME ++ "://document/{documentId}/{wvm}/{wvmid}/element/{elementId}/part/{partId}".

(** [{ type: "text", text: .. }] *)
Record TextContent : Type := mkTextContent { type_ : string; text : string }.

(** [{ uri, text, mimeType }] *)
Record ResourceContents : Type := mkResourceContents {
  rc_uri : string;
  rc_text : string;
  rc_mimeType : string
}.

(** The object a handler returns.  A tool handler returns
    [{ content: [..] }], a resource handler [{ contents: [..] }]; either may
    carry [isError]. *)
Inductive HandlerResult : Type :=
| mkToolResult (content : list TextContent) (isError : option bool)
| mkResourceResult (contents : list ResourceContents) (isError : option bool).

(** [result.content]: [None] is [undefined]. *)
Definition content (r : HandlerResult) : option (list TextContent) :=
  match r with
  | mkToolResult c _ => Some c
  | mkResourceResult _ _ => None
  end.

(** [result.contents]: [None] is [undefined]. *)
Definition contents (r : HandlerResult) : option (list ResourceContents) :=
  match r with
  | mkToolResult _ _ => None
  | mkResourceResult c _ => Some c
  end.

(** [result.isError]: [None] is [undefined]. *)
Definition isError (r : HandlerResult) : option bool :=
  match r with
  | mkToolResult _ e => e
  | mkResourceResult _ e => e
  end.

(** [{ content: [{ type: "text", text: t }] }] *)
Definition tool_ok (t : string) : HandlerResult :=
  mkToolResult [mkTextContent "text" t] None.

(** [{ content: [{ type: "text", text: t }], isError: true }] *)
Definition tool_error (t : string) : HandlerResult :=
  mkToolResult [mkTextContent "text" t] (Some true).

(** [{ contents: [{ uri, text: t, mimeType: "text/plain" }] }] *)
Definition resource_ok (uri t : string) : HandlerResult :=
  mkResourceResult [mkResourceContents uri t "text/plain"] None.

(** [{ contents: [{ uri, text: t, mimeType: "text/plain" }], isError: true }] *)
Definition resource_error (uri t : string) : HandlerResult :=
  mkResourceResult [mkResourceContents uri t "text/plain"] (Some true).

(** [z.enum(["w", "v", "m"])] *)
Inductive WVM : Type := W | V | Mv.

Definition wvm_text (x : WVM) : string :=
  match x with
  | W => "w"
  | V => "v"
  | Mv => "m"
  end.

(** The [elementType] enumeration of [listElementsSchema]. *)
Inductive ElementType : Type :=
| PARTSTUDIO | ASSEMBLY | DRAWING | FEATURESTUDIO | BLOB | APPLICATION
| TABLE | BILLOFMATERIALS | VARIABLESTUDIO | PUBLICATIONITEM.

Definition elementType_text (t : ElementType) : string :=
  match t with
  | PARTSTUDIO => "PARTSTUDIO"
  | ASSEMBLY => "ASSEMBLY"
  | DRAWING => "DRAWING"
  | FEATURESTUDIO => "FEATURESTUDIO"
  | BLOB => "BLOB"
  | APPLICATION => "APPLICATION"
  | TABLE => "TABLE"
  | BILLOFMATERIALS => "BILLOFMATERIALS"
  | VARIABLESTUDIO => "VARIABLESTUDIO"
  | PUBLICATIONITEM => "PUBLICATIONITEM"
  end.

(** [x || d] for an optional string [x] and a default [d] *)
Definition or_default (x : option string) (d : string) : string :=
  match x with
  | Some s => if String.eqb s "" then d else s
  | None => d
  end.

(** [if (x) q.append(k, x)] for an optional string [x] *)
Definition append_if (q : list (string * string)) (k : string) (x : option string)
  : list (string * string) :=
  match x with
  | Some s => if String.eqb s "" then q else q ++ [(k, s)]
  | None => q
  end.

(** [if (x !== undefined) q.append(k, x.toString())] for an optional boolean *)
Definition append_bool (q : list (string * string)) (k : string) (x : option bool)
  : list (string * string) :=
  match x with
  | Some true => q ++ [(k, "true")]
  | Some false => q ++ [(k, "false")]
  | None => q
  end.

(** ** server.ts: the resource handlers *)

Section Resources.
Context {RT : Runtime} {BE : Backend}.

(** [v.k] inside a handler *)
Definition get {L} (v : jsval) (k : string) : M L jsval := lift (get_prop v k).

(** [v?.k] inside a handler *)
Definition get_opt {L} (v : jsval) (k : string) : M L jsval := lift (get_prop_opt v k).

(** [const { .. } = v]: destructuring [undefined] or [null] throws. *)
Definition destructurable {L} (v : jsval) : M L unit :=
  if nullish v then throw (TypeError_destructure v) else ret tt.

(** [a && a.length > 0] for a value [a] that was just read *)
Definition nonempty {L} (a : jsval) : M L bool :=
  if truthy a then
    len <- get a "length" ;;
    ret (js_gt len 0)
  else ret false.

(** [new URL(WVM_URI_TEMPLATE.replace("{documentId}", d).replace("{wvm}", w)
    .replace("{wvmid}", i)).href] *)
Definition wvm_uri (documentId wvm wvmid : string) : Error + string :=
  URL_href
    (String_replace
       (String_replace (String_replace WVM_URI_TEMPLATE "{documentId}" documentId)
          "{wvm}" wvm)
       "{wvmid}" wvmid).

(** [new URL(DOC_URI_TEMPLATE.replace("{documentId}", d)).href] *)
Definition doc_uri (documentId : string) : Error + string :=
  URL_href (String_replace DOC_URI_TEMPLATE "{documentId}" documentId).

(** [new URL(ELEMENT_URI_TEMPLATE.replace("{documentId}", d).replace("{wvm}", w)
    .replace("{wvmid}", i).replace("{elementId}", e)).href] *)
Definition element_uri (documentId wvm wvmid elementId : string) : Error + string :=
  URL_href
    (String_replace
       (String_replace
          (String_replace (String_replace ELEMENT_URI_TEMPLATE "{documentId}" documentId)
             "{wvm}" wvm)
          "{wvmid}" wvmid)
       "{elementId}" elementId).

Definition document_resource_try {L} (uri : string) (context : jsval) : M L HandlerResult :=
  params <- get context "params" ;;
  documentId <- get params "documentId" ;;
  docInfo <- onshapeApiRequest "GET" ("/documents/" ++ to_string documentId) JUndefined None ;;
  name <- get docInfo "name" ;;
  let contentText := "Onshape Document: " ++ to_string name ++ LF in
  id <- get docInfo "id" ;;
  let contentText := contentText ++ "ID: " ++ to_string id ++ LF in
  description <- get docInfo "description" ;;
  let contentText :=
    contentText ++ "Description: " ++ to_string (js_or description (JStr "N/A")) ++ LF in
  owner <- get docInfo "owner" ;;
  ownerName <- get_opt owner "name" ;;
  let contentText :=
    contentText ++ "Owner: " ++ to_string (js_or ownerName (JStr "N/A")) ++ LF in
  modifiedAt <- get docInfo "modifiedAt" ;;
  let contentText := contentText ++ "Modified At: " ++ to_string modifiedAt ++ LF in
  createdAt <- get docInfo "createdAt" ;;
  let contentText := contentText ++ "Created At: " ++ to_string createdAt ++ LF in
  defaultWorkspace <- get docInfo "defaultWorkspace" ;;
  defaultWorkspaceId <- get_opt defaultWorkspace "id" ;;
  contentText <-
    (if truthy defaultWorkspaceId then
       href <- lift (wvm_uri (to_string id) "w" (to_string defaultWorkspaceId)) ;;
       defaultWorkspaceName <- get defaultWorkspace "name" ;;
       ret (contentText ++ "Default Workspace: " ++ to_string defaultWorkspaceName
              ++ " (ID: " ++ to_string defaultWorkspaceId ++ ") - @wvm(" ++ href ++ ")" ++ LF)
     else ret contentText) ;;
  ret (resource_ok uri contentText).

Definition document_resource_catch {L} (uri : string) (context : jsval) (error : Error)
  : M L HandlerResult :=
  console_error ("Failed to read document resource " ++ uri ++ ": " ++ err_message error) ;;;
  ret (resource_error uri ("Error reading document: " ++ err_message error)).

Definition document_resource {L} (uri : string) (context : jsval) : M L HandlerResult :=
  try_catch (document_resource_try uri context) (document_resource_catch uri context).

Definition wvm_resource_try {L} (uri : string) (context : jsval) : M L HandlerResult :=
  params <- get context "params" ;;
  destructurable params ;;;
  documentId <- get params "documentId" ;;
  wvm <- get params "wvm" ;;
  wvmid <- get params "wvmid" ;;
  upper <- lift (call_toUpperCase wvm) ;;
  let contentText :=
    "Onshape Document " ++ to_string documentId ++ " - " ++ upper ++ ": "
    ++ to_string wvmid ++ LF in
  contentText <-
    (if strict_eq_str wvm "w" then
       wvmInfo <- onshapeApiRequest "GET"
                    ("/documents/d/" ++ to_string documentId ++ "/workspaces/"
                     ++ to_string wvmid) JUndefined None ;;
       name <- get wvmInfo "name" ;;
       id <- get wvmInfo "id" ;;
       microversion <- get wvmInfo "microversion" ;;
       modifiedAt <- get wvmInfo "modifiedAt" ;;
       ret (contentText ++ "Workspace: " ++ DQ ++ to_string name ++ DQ ++ " (ID: "
              ++ to_string id ++ ")" ++ LF
              ++ "Microversion: " ++ to_string microversion ++ LF
              ++ "Modified At: " ++ to_string modifiedAt ++ LF)
     else if strict_eq_str wvm "v" then
       wvmInfo <- onshapeApiRequest "GET"
                    ("/documents/d/" ++ to_string documentId ++ "/versions/"
                     ++ to_string wvmid) JUndefined None ;;
       name <- get wvmInfo "name" ;;
       id <- get wvmInfo "id" ;;
       microversion <- get wvmInfo "microversion" ;;
       createdAt <- get wvmInfo "createdAt" ;;
       ret (contentText ++ "Version: " ++ DQ ++ to_string name ++ DQ ++ " (ID: "
              ++ to_string id ++ ")" ++ LF
              ++ "Microversion: " ++ to_string microversion ++ LF
              ++ "Created At: " ++ to_string createdAt ++ LF)
     else if strict_eq_str wvm "m" then
       wvmInfo <- onshapeApiRequest "GET"
                    ("/documents/d/" ++ to_string documentId ++ "/" ++ to_string wvm ++ "/"
                     ++ to_string wvmid ++ "/currentmicroversion") JUndefined None ;;
       microversion <- get wvmInfo "microversion" ;;
       ret (contentText ++ "Microversion ID: " ++ to_string microversion ++ LF)
     else throw (new_Error ("Invalid WVM type: " ++ to_string wvm))) ;;
  let contentText :=
    contentText ++ LF
    ++ "Use the 'list_elements' tool with these parameters to see its contents." in
  ret (resource_ok uri contentText).

Definition wvm_resource_catch {L} (uri : string) (context : jsval) (error : Error)
  : M L HandlerResult :=
  console_error ("Failed to read WVM resource " ++ uri ++ ": " ++ err_message error) ;;;
  ret (resource_error uri ("Error reading WVM: " ++ err_message error)).

Definition wvm_resource {L} (uri : string) (context : jsval) : M L HandlerResult :=
  try_catch (wvm_resource_try uri context) (wvm_resource_catch uri context).

(** The hints that the element resource appends for a Part Studio. *)
Definition part_studio_tools_hint : string :=
  LF ++ "Available Tools for Part Studio:" ++ LF
  ++ "- get_part_studio_features" ++ LF
  ++ "- list_part_studio_feature_specs" ++ LF
  ++ "- add_part_studio_feature (Workspace only)" ++ LF
  ++ "- update_part_studio_feature (Workspace only)" ++ LF
  ++ "- delete_part_studio_feature (Workspace only)" ++ LF
  ++ "- get_part_bounding_box (requires partId)" ++ LF
  ++ "- get_part_studio_bounding_box" ++ LF
  ++ "- list_part_studio_sketches" ++ LF.

(** The hints that the element resource appends for an Assembly. *)
Definition assembly_tools_hint : string :=
  LF ++ "Available Tools for Assembly:" ++ LF
  ++ "- get_assembly_definition" ++ LF
  ++ "- add_assembly_instance (Workspace only)" ++ LF
  ++ "- transform_assembly_instance (Workspace only)" ++ LF
  ++ "- get_part_bounding_box (requires partId)" ++ LF
  ++ "- get_assembly_bounding_boxes" ++ LF.

Definition element_resource_try {L} (uri : string) (context : jsval) : M L HandlerResult :=
  params <- get context "params" ;;
  destructurable params ;;;
  documentId <- get params "documentId" ;;
  wvm <- get params "wvm" ;;
  wvmid <- get params "wvmid" ;;
  elementId <- get params "elementId" ;;
  elementInfo <- onshapeApiRequest "GET"
                   ("/documents/d/" ++ to_string documentId ++ "/" ++ to_string wvm ++ "/"
                    ++ to_string wvmid ++ "/elements/" ++ to_string elementId)
                   JUndefined None ;;
  name <- get elementInfo "name" ;;
  let contentText := "Onshape Element: " ++ DQ ++ to_string name ++ DQ ++ LF in
  prettyType <- get elementInfo "prettyType" ;;
  let contentText := contentText ++ "Type: " ++ to_string prettyType ++ LF in
  let contentText := contentText ++ "ID: " ++ to_string elementId ++ LF in
  let contentText := contentText ++ "Document ID: " ++ to_string documentId ++ LF in
  upper <- lift (call_toUpperCase wvm) ;;
  let contentText := contentText ++ upper ++ " ID: " ++ to_string wvmid ++ LF in
  microversionId <- get elementInfo "microversionId" ;;
  let contentText :=
    if truthy microversionId then
      contentText ++ "Microversion ID: " ++ to_string microversionId ++ LF
    else contentText in
  configuration <- get elementInfo "configuration" ;;
  let contentText :=
    if truthy configuration then
      contentText ++ "Configuration: " ++ to_string configuration ++ LF
    else contentText in
  elementType <- get elementInfo "elementType" ;;
  let contentText :=
    if strict_eq_str elementType "PARTSTUDIO" then contentText ++ part_studio_tools_hint
    else if strict_eq_str elementType "ASSEMBLY" then contentText ++ assembly_tools_hint
    else contentText in
  ret (resource_ok uri contentText).

Definition element_resource_catch {L} (uri : string) (context : jsval) (error : Error)
  : M L HandlerResult :=
  console_error ("Failed to read element resource " ++ uri ++ ": " ++ err_message error) ;;;
  ret (resource_error uri ("Error reading element: " ++ err_message error)).

Definition element_resource {L} (uri : string) (context : jsval) : M L HandlerResult :=
  try_catch (element_resource_try uri context) (element_resource_catch uri context).

(** One round of [propertiesToList.forEach(propName => ..)] in the part
    resource. *)
Definition append_part_property {L} (properties : jsval) (propName contentText : string)
  : M L string :=
  items <- lift (array_receiver properties "find") ;;
  prop <- find_by_name items propName ;;
  if truthy prop then
    value <- get prop "value" ;;
    let value :=
      if typeof_object value then JSON_stringify value else to_string value in
    ret (contentText ++ propName ++ ": " ++ value ++ LF)
  else ret contentText.

Definition part_resource_try {L} (uri : string) (context : jsval) : M L HandlerResult :=
  params <- get context "params" ;;
  destructurable params ;;;
  documentId <- get params "documentId" ;;
  wvm <- get params "wvm" ;;
  wvmid <- get params "wvmid" ;;
  elementId <- get params "elementId" ;;
  partId <- get params "partId" ;;
  partMetadata <- onshapeApiRequest "GET"
                    ("/metadata/d/" ++ to_string documentId ++ "/" ++ to_string wvm ++ "/"
                     ++ to_string wvmid ++ "/e/" ++ to_string elementId ++ "/pi/"
                     ++ to_string partId) JUndefined None ;;
  let contentText := "Onshape Part (Identity: " ++ to_string partId ++ ")" ++ LF in
  let contentText := contentText ++ "From Element ID: " ++ to_string elementId ++ LF in
  let contentText := contentText ++ "From Document ID: " ++ to_string documentId ++ LF in
  upper <- lift (call_toUpperCase wvm) ;;
  let contentText := contentText ++ "From " ++ upper ++ " ID: " ++ to_string wvmid ++ LF in
  let propertiesToList := ["Name"; "Part Number"; "Revision"; "Material"; "State"] in
  properties <- get partMetadata "properties" ;;
  contentText <-
    (if (truthy properties && Array_isArray properties)%bool then
       fold_text propertiesToList (append_part_property properties) contentText
     else ret (contentText ++ "Could not retrieve detailed properties." ++ LF)) ;;
  ret (resource_ok uri contentText).

Definition part_resource_catch {L} (uri : string) (context : jsval) (error : Error)
  : M L HandlerResult :=
  console_error ("Failed to read part resource " ++ uri ++ ": " ++ err_message error) ;;;
  ret (resource_error uri ("Error reading part: " ++ err_message error)).

Definition part_resource {L} (uri : string) (context : jsval) : M L HandlerResult :=
  try_catch (part_resource_try uri context) (part_resource_catch uri context).

(** [arr.forEach(x => { outputText += .. })] *)
Definition for_each_text {L} (arr : jsval) (f : jsval -> string -> M L string)
    (outputText : string) : M L string :=
  items <- lift (array_receiver arr "forEach") ;;
  fold_text items f outputText.

End Resources.

(** ** server.ts: the tool handlers *)

Section Tools.
Context {RT : Runtime} {BE : Backend}.

(** *** list_documents *)

Definition list_documents_try {L} : M L HandlerResult :=
  documents <- onshapeApiRequest "GET" "/documents?filter=0&limit=20" JUndefined None ;;
  let outputText := "Recent Documents (owned by you):" ++ LF in
  items <- get documents "items" ;;
  some <- nonempty items ;;
  outputText <-
    (if some then
       for_each_text items
         (fun doc acc =>
            id <- get doc "id" ;;
            href <- lift (doc_uri (to_string id)) ;;
            name <- get doc "name" ;;
            ret (acc ++ "- " ++ DQ ++ to_string name ++ DQ ++ " (ID: " ++ to_string id
                     ++ ") - @document(" ++ href ++ ")" ++ LF))
         outputText
     else ret (outputText ++ "No documents found." ++ LF)) ;;
  ret (tool_ok outputText).

Definition list_documents_catch {L} (error : Error) : M L HandlerResult :=
  console_error ("Error listing documents: " ++ err_message error) ;;;
  ret (tool_error ("Error listing documents: " ++ err_message error)).

Definition list_documents {L} : M L HandlerResult :=
  try_catch list_documents_try list_documents_catch.

(** *** list_elements *)

Record ListElementsParams : Type := {
  le_documentId : string;
  le_wvm : WVM;
  le_wvmid : string;
  le_elementType : option ElementType
}.

(** The query of [list_elements]:
    [queryParams.append('elementType', params.elementType || 'PARTSTUDIO,ASSEMBLY')] *)
Definition list_elements_query (params : ListElementsParams) : list (string * string) :=
  [] ++ [("elementType",
          or_default (option_map elementType_text (le_elementType params))
                     "PARTSTUDIO,ASSEMBLY")].

Definition list_elements_path (params : ListElementsParams) : string :=
  "/documents/d/" ++ le_documentId params ++ "/" ++ wvm_text (le_wvm params) ++ "/"
  ++ le_wvmid params ++ "/elements".

Definition list_elements_try {L} (params : ListElementsParams) : M L HandlerResult :=
  let queryParams := list_elements_query params in
  elements <- onshapeApiRequest "GET" (list_elements_path params) JUndefined
                (Some queryParams) ;;
  let outputText :=
    "Elements in document " ++ DQ ++ le_documentId params ++ DQ ++ " ("
    ++ toUpperCase (wvm_text (le_wvm params)) ++ ": " ++ le_wvmid params ++ ")"
    ++ match option_map elementType_text (le_elementType params) with
       | Some t => if String.eqb t "" then "" else " (Type: " ++ t ++ ")"
       | None => ""
       end
    ++ ":" ++ LF in
  some <- nonempty elements ;;
  outputText <-
    (if some then
       for_each_text elements
         (fun elem acc =>
            id <- get elem "id" ;;
            href <- lift (element_uri (le_documentId params) (wvm_text (le_wvm params))
                            (le_wvmid params) (to_string id)) ;;
            name <- get elem "name" ;;
            prettyType <- get elem "prettyType" ;;
            ret (acc ++ "- " ++ DQ ++ to_string name ++ DQ ++ " (ID: " ++ to_string id
                     ++ ", Type: " ++ to_string prettyType ++ ") - @element(" ++ href
                     ++ ")" ++ LF))
         outputText
     else ret (outputText ++ "No elements found matching the criteria in this state."
                          ++ LF)) ;;
  ret (tool_ok outputText).

Definition list_elements_catch {L} (params : ListElementsParams) (error : Error)
  : M L HandlerResult :=
  console_error ("Error listing elements: " ++ err_message error) ;;;
  ret (tool_error ("Error listing elements: " ++ err_message error)).

Definition list_elements {L} (params : ListElementsParams) : M L HandlerResult :=
  try_catch (list_elements_try params) (list_elements_catch params).

(** *** create_document, create_part_studio, create_assembly *)

Definition create_document_try {L} (name : string) : M L HandlerResult :=
  newDoc <- onshapeApiRequest "POST" "/documents" (JObj [("name", JStr name)]) None ;;
  id <- get newDoc "id" ;;
  href <- lift (doc_uri (to_string id)) ;;
  name <- get newDoc "name" ;;
  let outputText :=
    "Created document " ++ DQ ++ to_string name ++ DQ ++ " (ID: " ++ to_string id
    ++ ") - @document(" ++ href ++ ")" in
  ret (tool_ok (JSON_stringify_indent2 newDoc)).

Definition create_document_catch {L} (name : string) (error : Error) : M L HandlerResult :=
  console_error ("Error creating document: " ++ err_message error) ;;;
  ret (tool_error ("Error creating document: " ++ err_message error)).


Record CreateElementParams : Type := {
  ce_documentId : string;
  ce_workspaceId : string;
  ce_name : string
}.

Definition create_part_studio_try {L} (params : CreateElementParams) : M L HandlerResult :=
  newElement <- onshapeApiRequest "POST"
                  ("/partstudios/d/" ++ ce_documentId params ++ "/w/" ++ ce_workspaceId params)
                  (JObj [("name", JStr (ce_name params))]) None ;;
  id <- get newElement "id" ;;
  href <- lift (element_uri (ce_documentId params) "w" (ce_workspaceId params)
                  (to_string id)) ;;
  name <- get newElement "name" ;;
  ret (tool_ok ("Created Part Studio " ++ DQ ++ to_string name ++ DQ ++ " (ID: "
                ++ to_string id ++ ") in document " ++ ce_documentId params ++ "/"
                ++ ce_workspaceId params ++ " - @element(" ++ href ++ ")")).

Definition create_part_studio_catch {L} (params : CreateElementParams) (error : Error)
  : M L HandlerResult :=
  console_error ("Error creating Part Studio: " ++ err_message error) ;;;
  ret (tool_error ("Error creating Part Studio: " ++ err_message error)).


Definition create_assembly_try {L} (params : CreateElementParams) : M L HandlerResult :=
  newElement <- onshapeApiRequest "POST"
                  ("/assemblies/d/" ++ ce_documentId params ++ "/w/" ++ ce_workspaceId params)
                  (JObj [("name", JStr (ce_name params))]) None ;;
  id <- get newElement "id" ;;
  href <- lift (element_uri (ce_documentId params) "w" (ce_workspaceId params)
                  (to_string id)) ;;
  name <- get newElement "name" ;;
  ret (tool_ok ("Created Assembly " ++ DQ ++ to_string name ++ DQ ++ " (ID: "
                ++ to_string id ++ ") in document " ++ ce_documentId params ++ "/"
                ++ ce_workspaceId params ++ " - @element(" ++ href ++ ")")).

Definition create_assembly_catch {L} (params : CreateElementParams) (error : Error)
  : M L HandlerResult :=
  console_error ("Error creating Assembly: " ++ err_message error) ;;;
  ret (tool_error ("Error creating Assembly: " ++ err_message error)).


(** *** list_part_studio_feature_specs, get_part_studio_features *)

Record FeatureSpecsParams : Type := {
  fs_documentId : string;
  fs_wvm : WVM;
  fs_wvmid : string;
  fs_elementId : string
}.

Definition list_part_studio_feature_specs_try {L} (params : FeatureSpecsParams)
  : M L HandlerResult :=
  featureSpecs <- onshapeApiRequest "GET"
                    ("/partstudios/d/" ++ fs_documentId params ++ "/"
                     ++ wvm_text (fs_wvm params) ++ "/" ++ fs_wvmid params ++ "/e/"
                     ++ fs_elementId params ++ "/featurespecs") JUndefined None ;;
  let outputText :=
    "Available Feature Specs for Part Studio " ++ DQ ++ fs_elementId params ++ DQ ++ ":"
    ++ LF in
  specs <- get featureSpecs "featureSpecs" ;;
  some <- nonempty specs ;;
  outputText <-
    (if some then
       outputText <-
         for_each_text specs
           (fun spec acc =>
              featureTypeName <- get spec "featureTypeName" ;;
              featureType <- get spec "featureType" ;;
              namespace <- get spec "namespace" ;;
              ret (acc ++ "- " ++ DQ ++ to_string featureTypeName ++ DQ ++ " (Type: "
                       ++ to_string featureType ++ ", Namespace: " ++ to_string namespace
                       ++ ")" ++ LF))
           outputText ;;
       ret (outputText ++ LF
              ++ "To use a feature, call 'add_part_studio_feature' or 'update_part_studio_feature' with the correct JSON payload. Refer to Onshape's FeatureScript and REST API documentation for required parameters.")
     else ret (outputText ++ "No feature specs found for this Part Studio." ++ LF)) ;;
  ret (tool_ok outputText).

Definition list_part_studio_feature_specs_catch {L} (params : FeatureSpecsParams)
    (error : Error) : M L HandlerResult :=
  console_error ("Error listing feature specs: " ++ err_message error) ;;;
  ret (tool_error ("Error listing feature specs: " ++ err_message error)).

Definition list_part_studio_feature_specs {L} (params : FeatureSpecsParams)
  : M L HandlerResult :=
  try_catch (list_part_studio_feature_specs_try params)
    (list_part_studio_feature_specs_catch params).

(** The parameters shared by [getPartStudioFeaturesSchema],
    [getElementBoundingBoxSchema] and [listPartStudioSketchesSchema]. *)
Record ElementQueryParams : Type := {
  eq_documentId : string;
  eq_wvm : WVM;
  eq_wvmid : string;
  eq_elementId : string;
  eq_configuration : option string;
  eq_linkDocumentId : option string
}.

(** [configuration] and [linkDocumentId] appended when given *)
Definition element_query (params : ElementQueryParams) : list (string * string) :=
  append_if (append_if [] "configuration" (eq_configuration params))
    "linkDocumentId" (eq_linkDocumentId params).

Definition get_part_studio_features_try {L} (params : ElementQueryParams)
  : M L HandlerResult :=
  let queryParams := element_query params in
  features <- onshapeApiRequest "GET"
                ("/partstudios/d/" ++ eq_documentId params ++ "/"
                 ++ wvm_text (eq_wvm params) ++ "/" ++ eq_wvmid params ++ "/e/"
                 ++ eq_elementId params ++ "/features") JUndefined (Some queryParams) ;;
  let outputText :=
    "Features in Part Studio " ++ DQ ++ eq_elementId params ++ DQ ++ " ("
    ++ toUpperCase (wvm_text (eq_wvm params)) ++ ": " ++ eq_wvmid params ++ "):" ++ LF in
  list <- get features "features" ;;
  some <- nonempty list ;;
  outputText <-
    (if some then
       outputText <-
         for_each_text list
           (fun feature acc =>
              name <- get feature "name" ;;
              featureId <- get feature "featureId" ;;
              featureType <- get feature "featureType" ;;
              btType <- get feature "btType" ;;
              suppressed <- get feature "suppressed" ;;
              ret (acc ++ "- " ++ DQ ++ to_string name ++ DQ ++ " (ID: "
                       ++ to_string featureId ++ ", Type: "
                       ++ to_string (js_or featureType btType) ++ ") - "
                       ++ (if truthy suppressed then "Suppressed" else "Active") ++ LF))
           outputText ;;
       sourceMicroversion <- get features "sourceMicroversion" ;;
       ret (outputText ++ LF ++ "Source Microversion for edits: "
              ++ to_string sourceMicroversion ++ LF)
     else ret (outputText ++ "No features found in this Part Studio." ++ LF)) ;;
  ret (tool_ok outputText).

Definition get_part_studio_features_catch {L} (params : ElementQueryParams) (error : Error)
  : M L HandlerResult :=
  console_error ("Error getting Part Studio features: " ++ err_message error) ;;;
  ret (tool_error ("Error getting Part Studio features: " ++ err_message error)).

Definition get_part_studio_features {L} (params : ElementQueryParams) : M L HandlerResult :=
  try_catch (get_part_studio_features_try params) (get_part_studio_features_catch params).

(** *** add, update and delete of a Part Studio feature *)

(** [notices.forEach(notice => { outputText += `- [${notice.level}] ${notice.message}\n` })] *)
Definition append_notices {L} (notices : jsval) (outputText : string) : M L string :=
  for_each_text notices
    (fun notice acc =>
       level <- get notice "level" ;;
       message <- get notice "message" ;;
       ret (acc ++ "- [" ++ to_string level ++ "] " ++ to_string message ++ LF))
    outputText.

Record AddPartStudioFeatureParams : Type := {
  apf_documentId : string;
  apf_workspaceId : string;
  apf_elementId : string;
  apf_feature : jsval
}.

Record UpdatePartStudioFeatureParams : Type := {
  upf_documentId : string;
  upf_workspaceId : string;
  upf_elementId : string;
  upf_featureId : string;
  upf_feature : jsval
}.

Record DeletePartStudioFeatureParams : Type := {
  dpf_documentId : string;
  dpf_workspaceId : string;
  dpf_elementId : string;
  dpf_featureId : string
}.

(** [`/partstudios/d/${documentId}/w/${workspaceId}/e/${elementId}/features`] *)
Definition features_path (documentId workspaceId elementId : string) : string :=
  "/partstudios/d/" ++ documentId ++ "/w/" ++ workspaceId ++ "/e/" ++ elementId
  ++ "/features".

(** [`/partstudios/d/${documentId}/w/${workspaceId}/e/${elementId}/features/featureid/${encodeURIComponent(featureId)}`] *)
Definition feature_path (documentId workspaceId elementId featureId : string) : string :=
  "/partstudios/d/" ++ documentId ++ "/w/" ++ workspaceId ++ "/e/" ++ elementId
  ++ "/features/featureid/" ++ encodeURIComponent featureId.

(** [!cf || !cf.serializationVersion || !cf.libraryVersion || !cf.sourceMicroversion] *)
Definition metadata_missing {L} (currentFeatures : jsval) : M L bool :=
  if negb (truthy currentFeatures) then ret true
  else
    serializationVersion <- get currentFeatures "serializationVersion" ;;
    if negb (truthy serializationVersion) then ret true
    else
      libraryVersion <- get currentFeatures "libraryVersion" ;;
      if negb (truthy libraryVersion) then ret true
      else
        sourceMicroversion <- get currentFeatures "sourceMicroversion" ;;
        ret (negb (truthy sourceMicroversion)).

(** The object literal [{ feature, serializationVersion, sourceMicroversion,
    libraryVersion }] built from the caller's feature and the snapshot just
    read. *)
Definition build_featureDefinitionCall {L} (feature currentFeatures : jsval) : M L jsval :=
  serializationVersion <- get currentFeatures "serializationVersion" ;;
  sourceMicroversion <- get currentFeatures "sourceMicroversion" ;;
  libraryVersion <- get currentFeatures "libraryVersion" ;;
  ret (JObj [("feature", feature);
             ("serializationVersion", serializationVersion);
             ("sourceMicroversion", sourceMicroversion);
             ("libraryVersion", libraryVersion)]).

(** [response.featureState && response.featureState.featureStatus === 'ERROR'] *)
Definition feature_in_error {L} (response : jsval) : M L bool :=
  featureState <- get response "featureState" ;;
  if truthy featureState then
    featureStatus <- get featureState "featureStatus" ;;
    ret (strict_eq_str featureStatus "ERROR")
  else ret false.

(** The report shared by the add and update handlers after
    [New Microversion]: the error-state warning, or else the notices. *)
Definition append_feature_state {L} (response : jsval) (warning outputText : string)
  : M L string :=
  in_error <- feature_in_error response ;;
  if in_error then
    let outputText := outputText ++ warning in
    featureState <- get response "featureState" ;;
    errorMessage <- get featureState "errorMessage" ;;
    if truthy errorMessage then
      ret (outputText ++ "Error Message: " ++ to_string errorMessage ++ LF)
    else ret outputText
  else
    notices <- get response "notices" ;;
    some <- nonempty notices ;;
    if some then append_notices notices (outputText ++ "FeatureScript Notices:" ++ LF)
    else ret outputText.

(** [`${JSON.stringify(featureDefinitionCall, null, 2)}`] in the [catch] block
    of the add handler, where the variable may still be unassigned. *)
Definition stringify_local (featureDefinitionCall : option jsval) : string :=
  match featureDefinitionCall with
  | Some v => JSON_stringify_indent2 v
  | None => "undefined"
  end.

(** The [try] block of [add_part_studio_feature].  The handler's local
    [featureDefinitionCall] is declared before the [try] and read in the
    [catch]: it is the handler's local state, [None] until assigned. *)
Definition add_part_studio_feature_try (params : AddPartStudioFeatureParams)
  : M (option jsval) HandlerResult :=
  currentFeatures <- onshapeApiRequest "GET"
     (features_path (apf_documentId params) (apf_workspaceId params)
        (apf_elementId params)) JUndefined None ;;
  missing <- metadata_missing currentFeatures ;;
  (if missing then
     throw (new_Error "Failed to fetch necessary Part Studio metadata for adding feature.")
   else ret tt) ;;;
  featureDefinitionCall <- build_featureDefinitionCall (apf_feature params) currentFeatures ;;
  set_local (Some featureDefinitionCall) ;;;
  response <- onshapeApiRequest "POST"
     (features_path (apf_documentId params) (apf_workspaceId params)
        (apf_elementId params)) featureDefinitionCall None ;;
  let outputText :=
    "Feature added successfully." ++ LF ++ " Input: " ++ LF
    ++ JSON_stringify featureDefinitionCall ++ LF ++ " Output: " ++ LF
    ++ JSON_stringify response in
  feature <- get response "feature" ;;
  outputText <-
    (if truthy feature then
       name <- get feature "name" ;;
       if truthy name then ret (outputText ++ " Name: " ++ DQ ++ to_string name ++ DQ)
       else ret outputText
     else ret outputText) ;;
  outputText <-
    (if truthy feature then
       featureId <- get feature "featureId" ;;
       if truthy featureId then
         ret (outputText ++ " (ID: " ++ to_string featureId ++ ")" ++ LF)
       else ret (outputText ++ LF)
     else ret (outputText ++ LF)) ;;
  sourceMicroversion <- get response "sourceMicroversion" ;;
  let outputText :=
    outputText ++ "New Microversion: " ++ to_string sourceMicroversion ++ LF in
  outputText <- append_feature_state response
                  ("Warning: The added feature resulted in an error state." ++ LF)
                  outputText ;;
  ret (tool_ok outputText).

Definition add_part_studio_feature_catch (params : AddPartStudioFeatureParams)
    (error : Error) : M (option jsval) HandlerResult :=
  console_error ("Error adding feature: " ++ err_message error) ;;;
  featureDefinitionCall <- get_local ;;
  ret (tool_error ("Error adding feature: " ++ err_message error ++ "  + "
                   ++ stringify_local featureDefinitionCall)).

Definition add_part_studio_feature (params : AddPartStudioFeatureParams)
  : M (option jsval) HandlerResult :=
  try_catch (add_part_studio_feature_try params) (add_part_studio_feature_catch params).

Definition update_part_studio_feature_try {L} (params : UpdatePartStudioFeatureParams)
  : M L HandlerResult :=
  currentFeatures <- onshapeApiRequest "GET"
     (features_path (upf_documentId params) (upf_workspaceId params)
        (upf_elementId params)) JUndefined None ;;
  missing <- metadata_missing currentFeatures ;;
  (if missing then
     throw (new_Error "Failed to fetch necessary Part Studio metadata for updating feature.")
   else ret tt) ;;;
  featureDefinitionCall <- build_featureDefinitionCall (upf_feature params) currentFeatures ;;
  response <- onshapeApiRequest "POST"
     (feature_path (upf_documentId params) (upf_workspaceId params)
        (upf_elementId params) (upf_featureId params)) featureDefinitionCall None ;;
  let outputText :=
    "Feature " ++ DQ ++ upf_featureId params ++ DQ ++ " updated successfully." ++ LF in
  sourceMicroversion <- get response "sourceMicroversion" ;;
  let outputText :=
    outputText ++ "New Microversion: " ++ to_string sourceMicroversion ++ LF in
  outputText <- append_feature_state response
                  ("Warning: The updated feature resulted in an error state." ++ LF)
                  outputText ;;
  ret (tool_ok outputText).

Definition update_part_studio_feature_catch {L} (params : UpdatePartStudioFeatureParams)
    (error : Error) : M L HandlerResult :=
  console_error ("Error updating feature " ++ upf_featureId params ++ ": "
                 ++ err_message error) ;;;
  ret (tool_error ("Error updating feature " ++ upf_featureId params ++ ": "
                   ++ err_message error)).

Definition update_part_studio_feature {L} (params : UpdatePartStudioFeatureParams)
  : M L HandlerResult :=
  try_catch (update_part_studio_feature_try params)
    (update_part_studio_feature_catch params).

Definition delete_part_studio_feature_try {L} (params : DeletePartStudioFeatureParams)
  : M L HandlerResult :=
  response <- onshapeApiRequest "DELETE"
     (feature_path (dpf_documentId params) (dpf_workspaceId params)
        (dpf_elementId params) (dpf_featureId params)) JUndefined None ;;
  let outputText :=
    "Feature " ++ DQ ++ dpf_featureId params ++ DQ ++ " deleted successfully." ++ LF in
  microversionSkew <- get response "microversionSkew" ;;
  let outputText :=
    if truthy microversionSkew then
      outputText ++ "Warning: Microversion skew detected during deletion." ++ LF
    else outputText in
  notices <- get response "notices" ;;
  some <- nonempty notices ;;
  outputText <-
    (if some then append_notices notices (outputText ++ "Notices during deletion:" ++ LF)
     else ret outputText) ;;
  ret (tool_ok outputText).

Definition delete_part_studio_feature_catch {L} (params : DeletePartStudioFeatureParams)
    (error : Error) : M L HandlerResult :=
  console_error ("Error deleting feature " ++ dpf_featureId params ++ ": "
                 ++ err_message error) ;;;
  ret (tool_error ("Error deleting feature " ++ dpf_featureId params ++ ": "
                   ++ err_message error)).

Definition delete_part_studio_feature {L} (params : DeletePartStudioFeatureParams)
  : M L HandlerResult :=
  try_catch (delete_part_studio_feature_try params)
    (delete_part_studio_feature_catch params).

(** *** get_assembly_definition *)

Record AssemblyDefinitionParams : Type := {
  ad_documentId : string;
  ad_wvm : WVM;
  ad_wvmid : string;
  ad_elementId : string;
  ad_configuration : option string;
  ad_explodedViewId : option string;
  ad_includeMateFeatures : option bool;
  ad_includeNonSolids : option bool;
  ad_includeMateConnectors : option bool;
  ad_excludeSuppressed : option bool
}.

Definition assembly_definition_query (params : AssemblyDefinitionParams)
  : list (string * string) :=
  append_bool
    (append_bool
       (append_bool
          (append_bool
             (append_if (append_if [] "configuration" (ad_configuration params))
                "explodedViewId" (ad_explodedViewId params))
             "includeMateFeatures" (ad_includeMateFeatures params))
          "includeNonSolids" (ad_includeNonSolids params))
       "includeMateConnectors" (ad_includeMateConnectors params))
    "excludeSuppressed" (ad_excludeSuppressed params).

(** [`${a?.length || 0}`] *)
Definition length_or_zero {L} (a : jsval) : M L string :=
  len <- get_opt a "length" ;;
  ret (to_string (js_or len (JNum 0))).

(** The report on [rootAssembly.instances] when it is non-empty. *)
Definition append_example_instances {L} (instances : jsval) (outputText : string)
  : M L string :=
  let outputText := outputText ++ "  Example Instances:" ++ LF in
  first5 <- lift (call_slice_0_5 instances) ;;
  outputText <-
    for_each_text first5
      (fun inst acc =>
         name <- get inst "name" ;;
         id <- get inst "id" ;;
         type <- get inst "type" ;;
         partId <- get inst "partId" ;;
         ret (acc ++ "    - " ++ DQ ++ to_string name ++ DQ ++ " (ID: " ++ to_string id
                  ++ ", Type: " ++ to_string type ++ ", Part ID: "
                  ++ to_string (js_or partId (JStr "N/A")) ++ ")" ++ LF))
      outputText ;;
  len <- get instances "length" ;;
  if js_gt len 5 then
    ret (outputText ++ "    (..." ++ js_minus_text len 5 ++ " more instances)" ++ LF)
  else ret outputText.

(** The report on [parts] when it is non-empty. *)
Definition append_example_parts {L} (parts : jsval) (outputText : string) : M L string :=
  len <- get parts "length" ;;
  let outputText := outputText ++ "Parts (Instances): " ++ to_string len ++ LF in
  if js_gt len 0 then
    let outputText := outputText ++ "  Example Parts:" ++ LF in
    first5 <- lift (call_slice_0_5 parts) ;;
    outputText <-
      for_each_text first5
        (fun part acc =>
           bodyType <- get part "bodyType" ;;
           documentId <- get part "documentId" ;;
           elementId <- get part "elementId" ;;
           partId <- get part "partId" ;;
           ret (acc ++ "    - Type: " ++ to_string bodyType ++ ", Doc ID: "
                    ++ to_string documentId ++ ", Elem ID: " ++ to_string elementId
                    ++ ", Part ID: " ++ to_string partId ++ LF))
        outputText ;;
    len <- get parts "length" ;;
    if js_gt len 5 then
      ret (outputText ++ "    (..." ++ js_minus_text len 5 ++ " more parts)" ++ LF)
    else ret outputText
  else ret outputText.

Definition get_assembly_definition_try {L} (params : AssemblyDefinitionParams)
  : M L HandlerResult :=
  let queryParams := assembly_definition_query params in
  assemblyDefinition <- onshapeApiRequest "GET"
      ("/assemblies/d/" ++ ad_documentId params ++ "/" ++ wvm_text (ad_wvm params) ++ "/"
       ++ ad_wvmid params ++ "/e/" ++ ad_elementId params) JUndefined (Some queryParams) ;;
  let outputText :=
    "Assembly Definition for " ++ DQ ++ ad_elementId params ++ DQ ++ " ("
    ++ toUpperCase (wvm_text (ad_wvm params)) ++ ": " ++ ad_wvmid params ++ "):" ++ LF in
  rootAssembly <- get assemblyDefinition "rootAssembly" ;;
  outputText <-
    (if truthy rootAssembly then
       let outputText := outputText ++ "Root Assembly:" ++ LF in
       instances <- get rootAssembly "instances" ;;
       instanceCount <- length_or_zero instances ;;
       let outputText := outputText ++ "  Instances: " ++ instanceCount ++ LF in
       features <- get rootAssembly "features" ;;
       featureCount <- length_or_zero features ;;
       let outputText := outputText ++ "  Features: " ++ featureCount ++ LF in
       some <- nonempty instances ;;
       if some then append_example_instances instances outputText else ret outputText
     else ret outputText) ;;
  subAssemblies <- get assemblyDefinition "subAssemblies" ;;
  some <- nonempty subAssemblies ;;
  outputText <-
    (if some then
       len <- get subAssemblies "length" ;;
       ret (outputText ++ "Sub-Assemblies: " ++ to_string len ++ LF)
     else ret outputText) ;;
  parts <- get assemblyDefinition "parts" ;;
  some <- nonempty parts ;;
  outputText <- (if some then append_example_parts parts outputText else ret outputText) ;;
  ret (tool_ok outputText).

Definition get_assembly_definition_catch {L} (params : AssemblyDefinitionParams)
    (error : Error) : M L HandlerResult :=
  console_error ("Error getting assembly definition: " ++ err_message error) ;;;
  ret (tool_error ("Error getting assembly definition: " ++ err_message error)).

Definition get_assembly_definition {L} (params : AssemblyDefinitionParams)
  : M L HandlerResult :=
  try_catch (get_assembly_definition_try params) (get_assembly_definition_catch params).

(** *** add_assembly_instance, transform_assembly_instances *)

Record AddAssemblyInstanceParams : Type := {
  aai_documentId : string;
  aai_workspaceId : string;
  aai_assemblyElementId : string;
  aai_sourceDocumentId : string;
  aai_sourceElementId : string;
  aai_sourceVersionId : option string;
  aai_sourceMicroversionId : option string;
  aai_sourcePartId : option string;
  aai_sourceConfiguration : option string;
  aai_transform : option (list Z)
}.

(** [if (x) requestBody.k = x] for an optional string [x] *)
Definition assign_if (fields : list (string * jsval)) (k : string) (x : option string)
  : list (string * jsval) :=
  match x with
  | Some s => if String.eqb s "" then fields else set_field k (JStr s) fields
  | None => fields
  end.

Definition add_assembly_instance_body (params : AddAssemblyInstanceParams) : jsval :=
  let requestBody :=
    [("documentId", JStr (aai_sourceDocumentId params));
     ("elementId", JStr (aai_sourceElementId params))] in
  let requestBody := assign_if requestBody "versionId" (aai_sourceVersionId params) in
  let requestBody := assign_if requestBody "microversionId" (aai_sourceMicroversionId params) in
  let requestBody := assign_if requestBody "partId" (aai_sourcePartId params) in
  let requestBody := assign_if requestBody "configuration" (aai_sourceConfiguration params) in
  let requestBody :=
    match aai_transform params with
    | Some t => set_field "transform" (JArr (map JNum t)) requestBody
    | None => requestBody
    end in
  JObj requestBody.

Definition add_assembly_instance_try {L} (params : AddAssemblyInstanceParams)
  : M L HandlerResult :=
  let endpoint :=
    "/assemblies/d/" ++ aai_documentId params ++ "/w/" ++ aai_workspaceId params ++ "/e/"
    ++ aai_assemblyElementId params ++ "/instances" in
  response <- onshapeApiRequest "POST" endpoint (add_assembly_instance_body params) None ;;
  let outputText := "Assembly instance added successfully." ++ LF in
  name <- get response "name" ;;
  let outputText :=
    if truthy name then
      outputText ++ "Instance name: " ++ DQ ++ to_string name ++ DQ ++ LF
    else outputText in
  id <- get response "id" ;;
  let outputText :=
    if truthy id then outputText ++ "Instance ID: " ++ to_string id ++ LF
    else outputText in
  ret (tool_ok outputText).

Definition add_assembly_instance_catch {L} (params : AddAssemblyInstanceParams)
    (error : Error) : M L HandlerResult :=
  console_error ("Error adding assembly instance: " ++ err_message error) ;;;
  ret (tool_error ("Error adding assembly instance: " ++ err_message error)).


Record TransformAssemblyInstancesParams : Type := {
  tai_documentId : string;
  tai_workspaceId : string;
  tai_assemblyElementId : string;
  tai_occurrences : list jsval;
  tai_transform : list Z;
  tai_isRelative : option bool
}.

Definition transform_assembly_instances_body (params : TransformAssemblyInstancesParams)
  : jsval :=
  let requestBody :=
    [("occurrences", JArr (tai_occurrences params));
     ("transform", JArr (map JNum (tai_transform params)))] in
  let requestBody :=
    match tai_isRelative params with
    | Some b => set_field "isRelative" (JBool b) requestBody
    | None => requestBody
    end in
  JObj requestBody.

Definition transform_assembly_instances_try {L} (params : TransformAssemblyInstancesParams)
  : M L HandlerResult :=
  let endpoint :=
    "/assemblies/d/" ++ tai_documentId params ++ "/w/" ++ tai_workspaceId params ++ "/e/"
    ++ tai_assemblyElementId params ++ "/transformoccurrences" in
  response <- onshapeApiRequest "POST" endpoint (transform_assembly_instances_body params)
                None ;;
  let outputText := "Assembly instances transformed successfully." ++ LF in
  ret (tool_ok outputText).

Definition transform_assembly_instances_catch {L}
    (params : TransformAssemblyInstancesParams) (error : Error) : M L HandlerResult :=
  console_error ("Error transforming assembly instances: " ++ err_message error) ;;;
  ret (tool_error ("Error transforming assembly instances: " ++ err_message error)).


(** *** get_part_bounding_box, get_element_bounding_box *)

Record PartBoundingBoxParams : Type := {
  pbb_documentId : string;
  pbb_wvm : WVM;
  pbb_wvmid : string;
  pbb_elementId : string;
  pbb_partId : string;
  pbb_configuration : option string;
  pbb_linkDocumentId : option string
}.

(** The report on a bounding-box response, appended to [outputText]:
    [if (bboxResponse && bboxResponse.lowX !== undefined) .. else ..] *)
Definition append_bounding_box {L} (bboxResponse : jsval) (outputText : string)
  : M L string :=
  known <-
    (if truthy bboxResponse then
       lowX <- get bboxResponse "lowX" ;;
       ret (match lowX with JUndefined => false | _ => true end)
     else ret false) ;;
  if known then
    lowX <- get bboxResponse "lowX" ;;
    lowY <- get bboxResponse "lowY" ;;
    lowZ <- get bboxResponse "lowZ" ;;
    highX <- get bboxResponse "highX" ;;
    highY <- get bboxResponse "highY" ;;
    highZ <- get bboxResponse "highZ" ;;
    ret (outputText
           ++ "  Low Corner: [" ++ to_string lowX ++ ", " ++ to_string lowY ++ ", "
           ++ to_string lowZ ++ "]" ++ LF
           ++ "  High Corner: [" ++ to_string highX ++ ", " ++ to_string highY ++ ", "
           ++ to_string highZ ++ "]" ++ LF
           ++ "(Coordinates in meters)")
  else ret (outputText ++ "Could not retrieve bounding box." ++ LF).

Definition get_part_bounding_box_try {L} (params : PartBoundingBoxParams)
  : M L HandlerResult :=
  let queryParams :=
    append_if (append_if [] "configuration" (pbb_configuration params))
      "linkDocumentId" (pbb_linkDocumentId params) in
  bboxResponse <- onshapeApiRequest "GET"
      ("/parts/d/" ++ pbb_documentId params ++ "/" ++ wvm_text (pbb_wvm params) ++ "/"
       ++ pbb_wvmid params ++ "/e/" ++ pbb_elementId params ++ "/partid/"
       ++ pbb_partId params ++ "/boundingboxes") JUndefined (Some queryParams) ;;
  let outputText := "Bounding Box for Part " ++ pbb_partId params ++ ":" ++ LF in
  outputText <- append_bounding_box bboxResponse outputText ;;
  ret (tool_ok outputText).

Definition get_part_bounding_box_catch {L} (params : PartBoundingBoxParams) (error : Error)
  : M L HandlerResult :=
  console_error ("Error getting part bounding box " ++ pbb_partId params ++ ": "
                 ++ err_message error) ;;;
  ret (tool_error ("Error getting part bounding box " ++ pbb_partId params ++ ": "
                   ++ err_message error)).

Definition get_part_bounding_box {L} (params : PartBoundingBoxParams) : M L HandlerResult :=
  try_catch (get_part_bounding_box_try params) (get_part_bounding_box_catch params).

Definition get_element_bounding_box_try {L} (params : ElementQueryParams)
  : M L HandlerResult :=
  elementInfo <- onshapeApiRequest "GET"
      ("/documents/d/" ++ eq_documentId params ++ "/" ++ wvm_text (eq_wvm params) ++ "/"
       ++ eq_wvmid params ++ "/elements/" ++ eq_elementId params) JUndefined None ;;
  elementType <- get elementInfo "elementType" ;;
  let continue (endpointPath : string) : M L HandlerResult :=
    let queryParams := element_query params in
    bboxResponse <- onshapeApiRequest "GET" endpointPath JUndefined (Some queryParams) ;;
    name <- get elementInfo "name" ;;
    let outputText :=
      "Bounding Box for Element " ++ DQ ++ to_string name ++ DQ ++ " (ID: "
      ++ eq_elementId params ++ "):" ++ LF in
    outputText <- append_bounding_box bboxResponse outputText ;;
    ret (tool_ok outputText) in
  if strict_eq_str elementType "PARTSTUDIO" then
    continue ("/partstudios/d/" ++ eq_documentId params ++ "/" ++ wvm_text (eq_wvm params)
              ++ "/" ++ eq_wvmid params ++ "/e/" ++ eq_elementId params ++ "/boundingboxes")
  else if strict_eq_str elementType "ASSEMBLY" then
    continue ("/assemblies/d/" ++ eq_documentId params ++ "/" ++ wvm_text (eq_wvm params)
              ++ "/" ++ eq_wvmid params ++ "/e/" ++ eq_elementId params ++ "/boundingboxes")
  else
    prettyType <- get elementInfo "prettyType" ;;
    ret (tool_error
           ("Error: Bounding box is only supported for Part Studio or Assembly elements (Type: "
            ++ to_string prettyType ++ ").")).

Definition get_element_bounding_box_catch {L} (params : ElementQueryParams) (error : Error)
  : M L HandlerResult :=
  console_error ("Error getting element bounding box " ++ eq_elementId params ++ ": "
                 ++ err_message error) ;;;
  ret (tool_error ("Error getting element bounding box " ++ eq_elementId params ++ ": "
                   ++ err_message error)).


(** *** get_element_configuration_definition *)

Record ConfigurationDefinitionParams : Type := {
  cd_documentId : string;
  cd_wvm : WVM;
  cd_wvmid : string;
  cd_elementId : string;
  cd_linkDocumentId : option string
}.

(** One round of [configurationParameters.forEach(param => ..)] *)
Definition append_configuration_parameter {L} (param : jsval) (outputText : string)
  : M L string :=
  parameterName <- get param "parameterName" ;;
  parameterId <- get param "parameterId" ;;
  parameterType <- get param "parameterType" ;;
  let outputText :=
    outputText ++ "- " ++ DQ ++ to_string parameterName ++ DQ ++ " (ID: "
    ++ to_string parameterId ++ ", Type: " ++ to_string parameterType ++ ")" ++ LF in
  description <- get param "description" ;;
  let outputText :=
    if truthy description then
      outputText ++ "  Description: " ++ to_string description ++ LF
    else outputText in
  options <- get param "options" ;;
  some <- nonempty options ;;
  if some then
    joined <- lift (call_join options ", ") ;;
    ret (outputText ++ "  Options: " ++ joined ++ LF)
  else ret outputText.

Definition get_element_configuration_definition_try {L}
    (params : ConfigurationDefinitionParams) : M L HandlerResult :=
  let queryParams := append_if [] "linkDocumentId" (cd_linkDocumentId params) in
  configDefinition <- onshapeApiRequest "GET"
      ("/elements/d/" ++ cd_documentId params ++ "/" ++ wvm_text (cd_wvm params) ++ "/"
       ++ cd_wvmid params ++ "/e/" ++ cd_elementId params ++ "/configuration")
      JUndefined (Some queryParams) ;;
  let outputText :=
    "Configuration Definition for Element " ++ DQ ++ cd_elementId params ++ DQ ++ ":" ++ LF in
  configurationParameters <- get configDefinition "configurationParameters" ;;
  some <- nonempty configurationParameters ;;
  outputText <-
    (if some then
       let outputText := outputText ++ "Parameters:" ++ LF in
       outputText <- for_each_text configurationParameters append_configuration_parameter
                       outputText ;;
       sourceMicroversion <- get configDefinition "sourceMicroversion" ;;
       ret (outputText ++ LF ++ "Source Microversion: " ++ to_string sourceMicroversion ++ LF)
     else ret (outputText ++ "This element has no configuration parameters." ++ LF)) ;;
  ret (tool_ok outputText).

Definition get_element_configuration_definition_catch {L}
    (params : ConfigurationDefinitionParams) (error : Error) : M L HandlerResult :=
  console_error ("Error getting element configuration definition: " ++ err_message error) ;;;
  ret (tool_error ("Error getting element configuration definition: "
                   ++ err_message error)).

Definition get_element_configuration_definition {L} (params : ConfigurationDefinitionParams)
  : M L HandlerResult :=
  try_catch (get_element_configuration_definition_try params)
    (get_element_configuration_definition_catch params).

(** *** list_part_studio_sketches *)

(** [.filter(s => s.entities && s.entities.length > 0)] *)
Fixpoint filter_with_entities {L} (sketches : list jsval) : M L (list jsval) :=
  match sketches with
  | [] => ret []
  | s :: rest =>
      entities <- get s "entities" ;;
      keep <- nonempty entities ;;
      kept <- filter_with_entities rest ;;
      ret (if keep then s :: kept else kept)
  end.

Definition list_part_studio_sketches_try {L} (params : ElementQueryParams)
  : M L HandlerResult :=
  let queryParams := element_query params in
  sketchInfo <- onshapeApiRequest "GET"
      ("/partstudios/d/" ++ eq_documentId params ++ "/" ++ wvm_text (eq_wvm params) ++ "/"
       ++ eq_wvmid params ++ "/e/" ++ eq_elementId params ++ "/sketches")
      JUndefined (Some queryParams) ;;
  let outputText :=
    "Sketches in Part Studio " ++ DQ ++ eq_elementId params ++ DQ ++ " ("
    ++ toUpperCase (wvm_text (eq_wvm params)) ++ ": " ++ eq_wvmid params ++ "):" ++ LF in
  entries <- lift (Object_entries sketchInfo) ;;
  let mapped :=
    map (fun entry => JObj (object_spread [("featureId", JStr (fst entry))] (snd entry)))
      entries in
  sketchFeatures <- filter_with_entities mapped ;;
  outputText <-
    (if (0 <? Z.of_nat (List.length sketchFeatures)) then
       fold_text sketchFeatures
         (fun sketch acc =>
            featureId <- get sketch "featureId" ;;
            entities <- get sketch "entities" ;;
            len <- get entities "length" ;;
            ret (acc ++ "- Feature ID: " ++ to_string featureId ++ ", Entities: "
                     ++ to_string len ++ LF))
         outputText
     else ret (outputText ++ "No sketches found in this Part Studio." ++ LF)) ;;
  ret (tool_ok outputText).

Definition list_part_studio_sketches_catch {L} (params : ElementQueryParams) (error : Error)
  : M L HandlerResult :=
  console_error ("Error listing Part Studio sketches: " ++ err_message error) ;;;
  ret (tool_error ("Error listing Part Studio sketches: " ++ err_message error)).

Definition list_part_studio_sketches {L} (params : ElementQueryParams) : M L HandlerResult :=
  try_catch (list_part_studio_sketches_try params) (list_part_studio_sketches_catch params).

(** *** get_sketch_tessellation *)

Record SketchTessellationParams : Type := {
  st_documentId : string;
  st_wvm : WVM;
  st_wvmid : string;
  st_partStudioElementId : string;
  st_sketchFeatureId : string;
  st_entityId : option string;
  st_configuration : option string;
  st_linkDocumentId : option string;
  st_angleTolerance : option Z;
  st_chordTolerance : option Z
}.

(** [if (x !== undefined) q.append(k, x.toString())] for an optional number *)
Definition append_number (q : list (string * string)) (k : string) (x : option Z)
  : list (string * string) :=
  match x with
  | Some n => q ++ [(k, Number_toString n)]
  | None => q
  end.

Definition sketch_tessellation_query (params : SketchTessellationParams)
  : list (string * string) :=
  append_number
    (append_number
       (append_if
          (append_if (append_if [] "entityId" (st_entityId params))
             "configuration" (st_configuration params))
          "linkDocumentId" (st_linkDocumentId params))
       "angleTolerance" (st_angleTolerance params))
    "chordTolerance" (st_chordTolerance params).

(** [p && Array.isArray(p)] as the length of the array, when it holds *)
Definition truthy_array (p : jsval) : option nat :=
  match p with
  | JArr items => Some (List.length items)
  | _ => None
  end.

(** The line describing the first entity of the tessellation data. *)
Definition describe_first_entity {L} (tessellationData : jsval) (firstEntityId : string)
    (outputText : string) : M L string :=
  entityData <- get tessellationData firstEntityId ;;
  lines <- (if truthy entityData then get entityData "lines" else ret JUndefined) ;;
  match (if truthy lines then truthy_array lines else None) with
  | Some n =>
      ret (outputText ++ "  Example Entity (" ++ firstEntityId ++ "): has "
             ++ Number_toString (Z.of_nat n) ++ " line segments." ++ LF)
  | None =>
      points <- (if truthy entityData then get entityData "points" else ret JUndefined) ;;
      match (if truthy points then truthy_array points else None) with
      | Some n =>
          ret (outputText ++ "  Example Entity (" ++ firstEntityId ++ "): has "
                 ++ half_text n ++ " points." ++ LF)
      | None =>
          ret (outputText ++ "  Example Entity (" ++ firstEntityId
                 ++ "): structure unknown." ++ LF)
      end
  end.

Definition get_sketch_tessellation_try {L} (params : SketchTessellationParams)
  : M L HandlerResult :=
  let queryParams := sketch_tessellation_query params in
  tessellationData <- onshapeApiRequest "GET"
      ("/partstudios/d/" ++ st_documentId params ++ "/" ++ wvm_text (st_wvm params) ++ "/"
       ++ st_wvmid params ++ "/e/" ++ st_partStudioElementId params ++ "/sketches/"
       ++ st_sketchFeatureId params ++ "/tessellatedentities")
      JUndefined (Some queryParams) ;;
  let outputText :=
    "Tessellation Data for Sketch " ++ st_sketchFeatureId params
    ++ match st_entityId params with
       | Some e => if String.eqb e "" then "" else " Entity " ++ e
       | None => ""
       end
    ++ ":" ++ LF in
  outputText <-
    (if (truthy tessellationData && typeof_object tessellationData)%bool then
       let numEntities := List.length (Object_keys tessellationData) in
       let outputText :=
         outputText ++ "  Contains data for " ++ Number_toString (Z.of_nat numEntities)
         ++ " entities." ++ LF in
       match Object_keys tessellationData with
       | firstEntityId :: _ =>
           if negb (String.eqb firstEntityId "") then
             describe_first_entity tessellationData firstEntityId outputText
           else ret outputText
       | [] => ret outputText
       end
     else ret (outputText ++ "Could not retrieve tessellation data." ++ LF)) ;;
  ret (tool_ok outputText).

Definition get_sketch_tessellation_catch {L} (params : SketchTessellationParams)
    (error : Error) : M L HandlerResult :=
  console_error ("Error getting sketch tessellation: " ++ err_message error) ;;;
  ret (tool_error ("Error getting sketch tessellation: " ++ err_message error)).

Definition get_sketch_tessellation {L} (params : SketchTessellationParams)
  : M L HandlerResult :=
  try_catch (get_sketch_tessellation_try params) (get_sketch_tessellation_catch params).

End Tools.

(** ** server.ts: the registrations of [startServer] *)

Inductive Kind : Type := Resource | Tool.

(** One [server.resource(name, template, handler)] or
    [server.tool(name, schema, handler)] registration.  Every handler of the
    sources is one [try { .. } catch (error) { .. }]: [h_try] is the [try]
    block, [h_catch] the [catch] block, [h_init] the value of the locals
    declared before the [try]. *)
Record Handler : Type := mkHandler {
  h_name : string;
  h_kind : Kind;
  h_args : Type;
  h_locals : Type;
  h_init : h_locals;
  h_try : h_args -> M h_locals HandlerResult;
  h_catch : h_args -> Error -> M h_locals HandlerResult
}.

(** The handler as registered. *)
Definition h_run (h : Handler) (args : h_args h) : M (h_locals h) HandlerResult :=
  try_catch (h_try h args) (h_catch h args).

Section Registry.
Context {RT : Runtime} {BE : Backend}.

(** A resource handler takes the URL (its [href]) and the context. *)
Definition resource_handler (name : string)
    (try_ : string -> jsval -> M unit HandlerResult)
    (catch_ : string -> jsval -> Error -> M unit HandlerResult) : Handler :=
  mkHandler name Resource (string * jsval) unit tt
    (fun a => try_ (fst a) (snd a)) (fun a => catch_ (fst a) (snd a)).

(** A tool handler without locals takes its validated parameters. *)
Definition tool_handler (name : string) (P : Type)
    (try_ : P -> M unit HandlerResult) (catch_ : P -> Error -> M unit HandlerResult)
  : Handler :=
  mkHandler name Tool P unit tt try_ catch_.

Definition registry : list Handler :=
  [ resource_handler "document" document_resource_try document_resource_catch;
    resource_handler "wvm" wvm_resource_try wvm_resource_catch;
    resource_handler "element" element_resource_try element_resource_catch;
    resource_handler "part" part_resource_try part_resource_catch;
    tool_handler "list_documents" unit
      (fun _ => list_documents_try) (fun _ => list_documents_catch);
    tool_handler "list_elements" ListElementsParams list_elements_try list_elements_catch;
    tool_handler "create_document" string create_document_try create_document_catch;
    tool_handler "create_part_studio" CreateElementParams
      create_part_studio_try create_part_studio_catch;
    tool_handler "create_assembly" CreateElementParams
      create_assembly_try create_assembly_catch;
    tool_handler "list_part_studio_feature_specs" FeatureSpecsParams
      list_part_studio_feature_specs_try list_part_studio_feature_specs_catch;
    tool_handler "get_part_studio_features" ElementQueryParams
      get_part_studio_features_try get_part_studio_features_catch;
    mkHandler "add_part_studio_feature" Tool AddPartStudioFeatureParams (option jsval) None
      add_part_studio_feature_try add_part_studio_feature_catch;
    tool_handler "update_part_studio_feature" UpdatePartStudioFeatureParams
      update_part_studio_feature_try update_part_studio_feature_catch;
    tool_handler "delete_part_studio_feature" DeletePartStudioFeatureParams
      delete_part_studio_feature_try delete_part_studio_feature_catch;
    tool_handler "get_assembly_definition" AssemblyDefinitionParams
      get_assembly_definition_try get_assembly_definition_catch;
    tool_handler "add_assembly_instance" AddAssemblyInstanceParams
      add_assembly_instance_try add_assembly_instance_catch;
    tool_handler "transform_assembly_instances" TransformAssemblyInstancesParams
      transform_assembly_instances_try transform_assembly_instances_catch;
    tool_handler "get_part_bounding_box" PartBoundingBoxParams
      get_part_bounding_box_try get_part_bounding_box_catch;
    tool_handler "get_element_bounding_box" ElementQueryParams
      get_element_bounding_box_try get_element_bounding_box_catch;
    tool_handler "get_element_configuration_definition" ConfigurationDefinitionParams
      get_element_configuration_definition_try get_element_configuration_definition_catch;
    tool_handler "list_part_studio_sketches" ElementQueryParams
      list_part_studio_sketches_try list_part_studio_sketches_catch;
    tool_handler "get_sketch_tessellation" SketchTessellationParams
      get_sketch_tessellation_try get_sketch_tessellation_catch ].

End Registry.

(** * A reference platform

    A concrete [Runtime] and [Backend] on which the handlers can be run. *)

(** Compact JSON text; adequate for strings without characters to escape.
    An [undefined] property is skipped and an [undefined] element prints as
    [null]. *)
Fixpoint ref_stringify (v : jsval) : string :=
  match v with
  | JUndefined | JNull => "null"
  | JBool true => "true"
  | JBool false => "false"
  | JNum n => Number_toString n
  | JStr s => DQ ++ s ++ DQ
  | JArr items =>
      "[" ++
      (fix elems (l : list jsval) : string :=
         match l with
         | [] => ""
         | x :: rest =>
             ref_stringify x ++
             match rest with
             | [] => ""
             | _ :: _ => "," ++ elems rest
             end
         end) items ++ "]"
  | JObj fields =>
      "{" ++
      (fix props (l : list (string * jsval)) (first : bool) : string :=
         match l with
         | [] => ""
         | (k, x) :: rest =>
             match x with
             | JUndefined => props rest first
             | _ => (if first then "" else ",") ++ DQ ++ k ++ DQ ++ ":"
                    ++ ref_stringify x ++ props rest false
             end
         end) fields true ++ "}"
  end.

(** [JSON.parse] as the inverse of [ref_stringify] on a finite universe of
    documents; any other text is a [SyntaxError]. *)
Definition ref_parse (universe : list jsval) (t : string) : Error + jsval :=
  match find (fun v => String.eqb (ref_stringify v) t) universe with
  | Some v => inr v
  | None => inl (mkError "SyntaxError" "Unexpected token in JSON")
  end.

Definition ref_runtime (universe : list jsval) : Runtime := {|
  JSON_stringify := ref_stringify;
  JSON_stringify_indent2 := ref_stringify;
  JSON_parse := ref_parse universe;
  encodeURIComponent := fun s => s;
  URL_href := fun s => inr s;
  URLSearchParams_toString :=
    fun q => String.concat "&" (map (fun kv => fst kv ++ "=" ++ snd kv) q);
  base64 := fun s => s;
  StringToNumber := fun _ => None;
  TypeError_nullish :=
    fun _ k => mkError "TypeError" ("Cannot read properties of undefined (reading '" ++ k ++ "')");
  TypeError_not_a_function := fun k => mkError "TypeError" (k ++ " is not a function");
  TypeError_destructure :=
    fun _ => mkError "TypeError" "Cannot destructure a property of undefined";
  TypeError_to_object :=
    fun _ => mkError "TypeError" "Cannot convert undefined or null to object";
  env_ONSHAPE_API_URL := None;
  env_ONSHAPE_ACCESS_KEY := Some "key";
  env_ONSHAPE_SECRET_KEY := Some "secret"
|}.

(** A backend that answers the [n]-th request with the [n]-th scripted
    outcome and rejects every later one. *)
Definition scripted (outcomes : list FetchOutcome) : Backend :=
  fun history _ =>
    nth (List.length history) outcomes (Rejected (mkError "FetchError" "network unreachable")).

(** A successful response carrying the JSON text of [v]. *)
Definition ok_json (v : jsval) : FetchOutcome :=
  Responded (mkResponse true 200 "OK" (ref_stringify v)).

(** A feature-list snapshot with all three stamps. *)
Definition snapshot_full : jsval :=
  JObj [("serializationVersion", JStr "1.2.4");
        ("libraryVersion", JNum 2411);
        ("sourceMicroversion", JStr "mv1");
        ("features", JArr [])].

(** The same snapshot without [libraryVersion]. *)
Definition snapshot_no_library : jsval :=
  JObj [("serializationVersion", JStr "1.2.4");
        ("sourceMicroversion", JStr "mv1");
        ("features", JArr [])].

(** A write response that reports microversion skew. *)
Definition response_skew : jsval :=
  JObj [("sourceMicroversion", JStr "mv2"); ("microversionSkew", JBool true)].

(** A write response whose feature evaluated to an error. *)
Definition response_feature_error : jsval :=
  JObj [("sourceMicroversion", JStr "mv2");
        ("featureState", JObj [("featureStatus", JStr "ERROR")])].

Definition ref_universe : list jsval :=
  [snapshot_full; snapshot_no_library; response_skew; response_feature_error].

Definition sample_feature : jsval := JObj [("name", JStr "Sketch 1")].

Definition sample_add : AddPartStudioFeatureParams :=
  {| apf_documentId := "D1"; apf_workspaceId := "W1"; apf_elementId := "E1";
     apf_feature := sample_feature |}.

Definition sample_update : UpdatePartStudioFeatureParams :=
  {| upf_documentId := "D1"; upf_workspaceId := "W1"; upf_elementId := "E1";
     upf_featureId := "F1"; upf_feature := sample_feature |}.

Definition sample_delete : DeletePartStudioFeatureParams :=
  {| dpf_documentId := "D1"; dpf_workspaceId := "W1"; dpf_elementId := "E1";
     dpf_featureId := "F1" |}.

(** The reference runtime over the sample documents. *)
Definition rt : Runtime := ref_runtime ref_universe.

(** The read answers with a snapshot that lacks [libraryVersion]. *)
Definition be_missing : Backend := scripted [ok_json snapshot_no_library].


(** The read answers with a full snapshot, the write reports skew. *)
Definition be_skew : Backend := scripted [ok_json snapshot_full; ok_json response_skew].

(** The single request of a delete is answered with a skew report. *)
Definition be_delete_skew : Backend := scripted [ok_json response_skew].

(** The backend is unreachable: every request is rejected. *)
Definition be_down : Backend := scripted [].

(** The context that the document resource is read with. *)
Definition sample_context : jsval :=
  JObj [("params", JObj [("documentId", JStr "D1")])].

(** The backend answers with [503 Service Unavailable] and a body. *)
Definition be_unavailable : Backend :=
  scripted [Responded (mkResponse false 503 "Service Unavailable" "try later")].

(** The backend answers with a success and an empty body. *)
Definition be_empty : Backend := scripted [Responded (mkResponse true 200 "OK" "")].

(** The backend answers with a success whose body is not JSON. *)
Definition be_garbage : Backend := scripted [Responded (mkResponse true 200 "OK" "<html>")].

(** The state a handler starts in: its locals unassigned, nothing sent yet
    beyond [reqs], nothing logged beyond [out]. *)
Definition start {L} (l : L) (reqs : list Request) (out : list string) : State L :=
  mkState l reqs out.

(** * The resource locator of the specification *)

(** Modelled from the spec: the [StateSelector] of section 3, a tagged choice
    of workspace, version or microversion, each with its identifier.  The
    sources have no such type: they pass the token ["w"], ["v"] or ["m"] and
    the identifier as two strings. *)
Inductive StateSelector : Type :=
| Workspace (id : string)
| Version (id : string)
| Microversion (id : string).

Definition selector_token (sel : StateSelector) : string :=
  match sel with
  | Workspace _ => "w"
  | Version _ => "v"
  | Microversion _ => "m"
  end.

Definition selector_id (sel : StateSelector) : string :=
  match sel with
  | Workspace id | Version id | Microversion id => id
  end.

(** Modelled from the spec: the [Address] of section 3 in its four shapes
    (document; document and state; with element; with part).  The shapes
    carry the invariant that a part needs an element and an element needs a
    state.  The sources have no such type. *)
Inductive Address : Type :=
| AtDocument (documentId : string)
| AtState (documentId : string) (state : StateSelector)
| AtElement (documentId : string) (state : StateSelector) (elementId : string)
| AtPart (documentId : string) (state : StateSelector) (elementId partId : string).

(** Modelled from the spec: the segments of a URI path, the pieces of [s]
    between its ["/"] characters, which the templates of section 6 separate
    their variables with. *)
Fixpoint segments (s : string) : list string :=
  match s with
  | EmptyString => [EmptyString]
  | String c rest =>
      if Ascii.eqb c "/" then EmptyString :: segments rest
      else
        match segments rest with
        | seg :: more => String c seg :: more
        | [] => [String c EmptyString]
        end
  end.

(** Modelled from the spec: the state token of a URI, one of [w], [v], [m];
    any other token is an [AddressError] ([None]). *)
Definition parse_selector (token id : string) : option StateSelector :=
  if String.eqb token "w" then Some (Workspace id)
  else if String.eqb token "v" then Some (Version id)
  else if String.eqb token "m" then Some (Microversion id)
  else None.

(** Modelled from the spec: a required component is present when it is not
    empty. *)
Definition present (s : string) : bool := negb (String.eqb s "").

(** Modelled from the spec: the parser of the resource locator (section 4.1),
    which the sources leave to the protocol library.  A URI is matched against
    the four nested templates of section 6, segment by segment; a missing
    component or an unknown state token is an [AddressError] ([None]). *)
Definition parse_uri (uri : string) : option Address :=
  match strip_prefix "onshape://document/" uri with
  | None => None
  | Some path =>
      match segments path with
      | [d] => if present d then Some (AtDocument d) else None
      | [d; w; i] =>
          if (present d && present i)%bool then
            option_map (AtState d) (parse_selector w i)
          else None
      | [d; w; i; k; e] =>
          if (present d && present i && String.eqb k "element" && present e)%bool then
            option_map (fun sel => AtElement d sel e) (parse_selector w i)
          else None
      | [d; w; i; k; e; k'; p] =>
          if (present d && present i && String.eqb k "element" && present e
              && String.eqb k' "part" && present p)%bool then
            option_map (fun sel => AtPart d sel e p) (parse_selector w i)
          else None
      | _ => None
      end
  end.

Section Locator.
Context {RT : Runtime}.

(** Modelled from the spec: the URI of a part.  The sources register
    [PART_URI_TEMPLATE] but never fill it in; it is filled in the way the
    sources fill in the other three templates. *)
Definition part_uri (documentId wvm wvmid elementId partId : string) : Error + string :=
  URL_href
    (String_replace
       (String_replace
          (String_replace
             (String_replace (String_replace PART_URI_TEMPLATE "{documentId}" documentId)
                "{wvm}" wvm)
             "{wvmid}" wvmid)
          "{elementId}" elementId)
       "{partId}" partId).

(** The URI of an address, built as the sources build it: [doc_uri],
    [wvm_uri] and [element_uri] are the template substitutions of the
    handlers. *)
Definition build_uri (a : Address) : Error + string :=
  match a with
  | AtDocument d => doc_uri d
  | AtState d sel => wvm_uri d (selector_token sel) (selector_id sel)
  | AtElement d sel e => element_uri d (selector_token sel) (selector_id sel) e
  | AtPart d sel e p => part_uri d (selector_token sel) (selector_id sel) e p
  end.

(** [parse(build(a))] *)
Definition parse_build (a : Address) : option Address :=
  match build_uri a with
  | inr uri => parse_uri uri
  | inl _ => None
  end.

End Locator.

(** The characters of identifiers that a URI carries unchanged: letters,
    digits, [-] and [_]. *)
Definition id_char (c : ascii) : bool :=
  let n := nat_of_ascii c in
  ((Nat.leb 48 n && Nat.leb n 57) || (Nat.leb 65 n && Nat.leb n 90)
   || (Nat.leb 97 n && Nat.leb n 122) || Nat.eqb n 45 || Nat.eqb n 95)%bool.

(** Every character of [s] satisfies [p]. *)
Fixpoint all_chars (p : ascii -> bool) (s : string) : bool :=
  match s with
  | EmptyString => true
  | String c rest => (p c && all_chars p rest)%bool
  end.

(** A character other than the brace that opens a template variable. *)
Definition not_brace (c : ascii) : bool := negb (Ascii.eqb c "{").

(** [x] behind the texts [pres], in order. *)
Definition prepend (pres : list string) (x : string) : string := fold_right append x pres.

(** A non-empty identifier of [id_char]s. *)
Definition plain_id (s : string) : bool := (present s && all_chars id_char s)%bool.

(** Every identifier of the address is plain. *)
Definition plain_address (a : Address) : bool :=
  match a with
  | AtDocument d => plain_id d
  | AtState d sel => (plain_id d && plain_id (selector_id sel))%bool
  | AtElement d sel e => (plain_id d && plain_id (selector_id sel) && plain_id e)%bool
  | AtPart d sel e p =>
      (plain_id d && plain_id (selector_id sel) && plain_id e && plain_id p)%bool
  end.

(** [new URL(s).href] returns a URI of the scheme unchanged when its path is
    made of [id_char]s and ["/"]: nothing in it is percent-encoded or
    normalised away. *)
Definition keeps_plain_uris (RT : Runtime) : Prop :=
  forall path,
    all_chars (fun c => (id_char c || Ascii.eqb c "/")%bool) path = true ->
    URL_href ("onshape://document/" ++ path) = inr ("onshape://document/" ++ path).

(** * Specification vocabulary *)

Section Vocabulary.
Context {RT : Runtime} {BE : Backend}.

(** What [onshapeApiRequest] makes of a fetch outcome. *)
Definition outcome_value (o : FetchOutcome) : Error + jsval :=
  match o with
  | Rejected e => inl e
  | Responded r =>
      if resp_ok r then
        if String.eqb (resp_text r) "" then inr (JObj []) else JSON_parse (resp_text r)
      else inl (new_Error (api_error_message r))
  end.

(** The console line that the [catch] of [onshapeApiRequest] writes. *)
Definition outcome_log (url : string) (o : FetchOutcome) : list string :=
  match outcome_value o with
  | inl e => ["Error during Onshape API request to " ++ url ++ ": " ++ Error_toString e]
  | inr _ => []
  end.

(** [v.k] as a total function: the property when [v] can be read, [undefined]
    otherwise. *)
Definition prop (v : jsval) (k : string) : jsval :=
  match get_prop v k with
  | inr x => x
  | inl _ => JUndefined
  end.

(** The snapshot [cf] carries all three version stamps (and is itself a
    value): the negation of the handlers' metadata test. *)
Definition stamps_present (cf : jsval) : bool :=
  truthy cf && truthy (prop cf "serializationVersion")
  && truthy (prop cf "libraryVersion") && truthy (prop cf "sourceMicroversion").

(** The snapshot read that opens the add and update handlers. *)
Definition read_request (documentId workspaceId elementId : string) : Request :=
  request_options "GET" (request_url (features_path documentId workspaceId elementId) None)
    JUndefined.

(** The write request of the add handler for a payload. *)
Definition add_write_request (params : AddPartStudioFeatureParams) (payload : jsval)
  : Request :=
  request_options "POST"
    (request_url (features_path (apf_documentId params) (apf_workspaceId params)
                    (apf_elementId params)) None)
    payload.

(** The write request of the update handler for a payload. *)
Definition update_write_request (params : UpdatePartStudioFeatureParams) (payload : jsval)
  : Request :=
  request_options "POST"
    (request_url (feature_path (upf_documentId params) (upf_workspaceId params)
                    (upf_elementId params) (upf_featureId params)) None)
    payload.

(** The write payload: the caller's feature and the three stamps of [cf]. *)
Definition stamped_payload (feature cf : jsval) : jsval :=
  JObj [("feature", feature);
        ("serializationVersion", prop cf "serializationVersion");
        ("sourceMicroversion", prop cf "sourceMicroversion");
        ("libraryVersion", prop cf "libraryVersion")].

End Vocabulary.

(** A computation that sends nothing: the request log is the same after it,
    whether it returns or throws. *)
Definition keeps_sent {L A} (c : M L A) : Prop :=
  forall s, sent (snd (c s)) = sent s.

(** The text [t] contains the text [msg]. *)
Definition mentions (t msg : string) : Prop :=
  exists pre post, t = pre ++ msg ++ post.

(** The in-band failure answer of a handler of kind [k] reporting [msg]:
    [{ content: [{ type: "text", text }], isError: true }] for a tool,
    [{ contents: [{ uri, text, mimeType: "text/plain" }], isError: true }] for
    a resource. *)
Definition error_envelope (k : Kind) (r : HandlerResult) (msg : string) : Prop :=
  match k with
  | Tool =>
      exists t, r = mkToolResult [mkTextContent "text" t] (Some true) /\ mentions t msg
  | Resource =>
      exists uri t,
        r = mkResourceResult [mkResourceContents uri t "text/plain"] (Some true)
        /\ mentions t msg
  end.

(** A computation that never throws. *)
Definition never_throws {L A} (c : M L A) : Prop :=
  forall s, exists a s', c s = (inr a, s').

(** * Vocabulary of the further properties *)

(** ** Properties of computations *)

(** A computation that sends at most [n] requests, each satisfying [P], and
    otherwise only adds to the request log. *)
Definition sends {L A} (P : Request -> Prop) (n : nat) (c : M L A) : Prop :=
  forall s,
    exists rest,
      sent (snd (c s)) = (sent s ++ rest)%list
      /\ (List.length rest <= n)%nat
      /\ Forall P rest.

(** A computation that neither reads nor changes the state: it has one
    result, and leaves every state as it found it. *)
Definition stateless {L A} (c : M L A) : Prop :=
  exists r, forall s, c s = (r, s).

(** A computation that writes nothing to the console when it returns. *)
Definition quiet {L A} (c : M L A) : Prop :=
  forall s a s', c s = (inr a, s') -> console s' = console s.

(** The result is a success answer of a tool whose text ends in [tail]. *)
Definition answers_ending (r : Error + HandlerResult) (tail : string) : Prop :=
  exists head, r = inr (tool_ok (head ++ tail)).

(** The next request, whatever it is, is answered with a success and an
    empty body. *)
Definition answers_empty {BE : Backend} (reqs : list Request) : Prop :=
  forall rq, exists r,
    fetch_outcome reqs rq = Responded r /\ resp_ok r = true /\ resp_text r = "".

(** ** Properties of requests *)

(** The request uses one of the HTTP methods [methods]. *)
Definition uses_method (methods : list string) (r : Request) : Prop :=
  In (req_method r) methods.

(** A request as the transport builds it: its URL is the configured base URL,
    then [/], then the rest of the path and the query; it carries the three
    fixed headers. *)
Definition from_transport {RT : Runtime} (r : Request) : Prop :=
  (exists path, req_url r = ONSHAPE_API_URL ++ "/" ++ path)
  /\ req_headers r
     = [("accept", "application/json;charset=UTF-8; qs=0.09");
        ("Authorization",
         "Basic " ++ base64 (env_text env_ONSHAPE_ACCESS_KEY ++ ":"
                             ++ env_text env_ONSHAPE_SECRET_KEY));
        ("Content-Type", "application/json;charset=UTF-8; qs=0.09")].

(** ** The handlers at a glance *)

(** The HTTP methods that the handler registered under [name] calls
    [onshapeApiRequest] with, read off its source. *)
Definition methods_of (name : string) : list string :=
  if String.eqb name "add_part_studio_feature" then ["GET"; "POST"]
  else if String.eqb name "update_part_studio_feature" then ["GET"; "POST"]
  else if String.eqb name "delete_part_studio_feature" then ["DELETE"]
  else if String.eqb name "create_document" then ["POST"]
  else if String.eqb name "create_part_studio" then ["POST"]
  else if String.eqb name "create_assembly" then ["POST"]
  else if String.eqb name "add_assembly_instance" then ["POST"]
  else if String.eqb name "transform_assembly_instances" then ["POST"]
  else ["GET"].

(** The number of [onshapeApiRequest] calls on the longest path through the
    handler registered under [name], read off its source. *)
Definition requests_of (name : string) : nat :=
  if String.eqb name "add_part_studio_feature" then 2
  else if String.eqb name "update_part_studio_feature" then 2
  else if String.eqb name "get_element_bounding_box" then 2
  else 1.

(** The tools whose handlers call [onshapeApiRequest] with a method other
    than [GET]. *)
Definition write_tools : list string :=
  ["create_document"; "create_part_studio"; "create_assembly";
   "add_part_studio_feature"; "update_part_studio_feature"; "delete_part_studio_feature";
   "add_assembly_instance"; "transform_assembly_instances"].

(** The five properties that the part resource lists, in its order. *)
Definition listed_properties : list string :=
  ["Name"; "Part Number"; "Revision"; "Material"; "State"].

(** ** The requests of the handlers *)

(** A request of the resource handlers: a [GET] of [path] without query. *)
Definition get_request {RT : Runtime} (path : string) : Request :=
  request_options "GET" (request_url path None) JUndefined.

(** [`${v}`] of the template variable [k] of the parameters [params]. *)
Definition variable {RT : Runtime} (params : jsval) (k : string) : string :=
  to_string (prop params k).

(** The request of the part resource. *)
Definition part_request {RT : Runtime} (params : jsval) : Request :=
  get_request ("/metadata/d/" ++ variable params "documentId" ++ "/" ++ variable params "wvm"
               ++ "/" ++ variable params "wvmid" ++ "/e/" ++ variable params "elementId"
               ++ "/pi/" ++ variable params "partId").


(** The request of the two finders: the elements of the workspace, filtered
    by [kind]. *)
Definition elements_request {RT : Runtime} (documentId workspaceId kind : string) : Request :=
  request_options "GET"
    (request_url ("/documents/d/" ++ documentId ++ "/w/" ++ workspaceId ++ "/elements")
       (Some [("elementType", kind)]))
    JUndefined.



(** The one request of a delete. *)
Definition delete_request {RT : Runtime} (params : DeletePartStudioFeatureParams) : Request :=
  request_options "DELETE"
    (request_url (feature_path (dpf_documentId params) (dpf_workspaceId params)
                    (dpf_elementId params) (dpf_featureId params)) None)
    JUndefined.







(** ** The tests that the handlers make on a response *)





(** ** The two finders of [onshapeApi.ts] *)

(** [findPartStudioByName] and [findAssemblyByName] differ in the element
    type they ask for and in the words of their console line only; a
    property of both is stated for either of them. *)
Inductive Finder : Type := PartStudioFinder | AssemblyFinder.

Definition finder_run {RT : Runtime} {BE : Backend} {L : Type} (f : Finder)
  : string -> string -> string -> M L jsval :=
  match f with
  | PartStudioFinder => findPartStudioByName
  | AssemblyFinder => findAssemblyByName
  end.

(** The element type that the finder filters by. *)
Definition finder_kind (f : Finder) : string :=
  match f with
  | PartStudioFinder => "PARTSTUDIO"
  | AssemblyFinder => "ASSEMBLY"
  end.

(** The words by which the finder names its elements in the console. *)
Definition finder_label (f : Finder) : string :=
  match f with
  | PartStudioFinder => "Part Studio"
  | AssemblyFinder => "Assembly"
  end.

(** ** The texts of the answers *)



(** [elem.name === name] on an element that can be read. *)
Definition named {RT : Runtime} (name : string) (elem : jsval) : bool :=
  strict_eq_str (prop elem "name") name.

(** The first element of [items] named [name], [undefined] when there is
    none. *)
Definition first_named {RT : Runtime} (name : string) (items : list jsval) : jsval :=
  match find (named name) items with
  | Some elem => elem
  | None => JUndefined
  end.

(** The line of the part resource for the property [propName]: taken from the
    first property of that name, nothing when there is none or it is falsy. *)
Definition property_line {RT : Runtime} (properties : list jsval) (propName : string)
  : string :=
  let found := first_named propName properties in
  if truthy found then
    propName ++ ": "
    ++ (if typeof_object (prop found "value") then JSON_stringify (prop found "value")
        else to_string (prop found "value"))
    ++ LF
  else "".

(** Every name of [names] is the name of one of [items]. *)
Definition all_named {RT : Runtime} (names : list string) (items : list jsval) : bool :=
  forallb (fun name => existsb (named name) items) names.

(** The four lines that open the text of the part resource, for the template
    variables [params] and the selector token [selector]. *)
Definition part_heading {RT : Runtime} (params : jsval) (selector : string) : string :=
  "Onshape Part (Identity: " ++ variable params "partId" ++ ")" ++ LF
  ++ "From Element ID: " ++ variable params "elementId" ++ LF
  ++ "From Document ID: " ++ variable params "documentId" ++ LF
  ++ "From " ++ toUpperCase selector ++ " ID: " ++ variable params "wvmid" ++ LF.





(** ** Further sample documents, platforms and arguments *)

(** [base] with its two API keys unset. *)
Definition without_keys (base : Runtime) : Runtime := {|
  JSON_stringify := @JSON_stringify base;
  JSON_stringify_indent2 := @JSON_stringify_indent2 base;
  JSON_parse := @JSON_parse base;
  encodeURIComponent := @encodeURIComponent base;
  URL_href := @URL_href base;
  URLSearchParams_toString := @URLSearchParams_toString base;
  base64 := @base64 base;
  StringToNumber := @StringToNumber base;
  TypeError_nullish := @TypeError_nullish base;
  TypeError_not_a_function := @TypeError_not_a_function base;
  TypeError_destructure := @TypeError_destructure base;
  TypeError_to_object := @TypeError_to_object base;
  env_ONSHAPE_API_URL := @env_ONSHAPE_API_URL base;
  env_ONSHAPE_ACCESS_KEY := None;
  env_ONSHAPE_SECRET_KEY := None
|}.


(** The reference runtime started without API keys. *)
Definition rt_no_keys : Runtime := without_keys rt.

(** The read answers with a full snapshot; the write is rejected. *)
Definition be_write_down : Backend := scripted [ok_json snapshot_full].

(** The write of an update answers without skew. *)
Definition response_plain : jsval := JObj [("sourceMicroversion", JStr "mv2")].

(** The reference runtime over the sample documents and [response_plain]. *)
Definition rt_plain : Runtime := ref_runtime (ref_universe ++ [response_plain]).

(** The read answers with a full snapshot, the write without skew. *)
Definition be_plain : Backend := scripted [ok_json snapshot_full; ok_json response_plain].










Definition sample_element_query : ElementQueryParams :=
  {| eq_documentId := "D1"; eq_wvm := W; eq_wvmid := "W1"; eq_elementId := "E1";
     eq_configuration := None; eq_linkDocumentId := None |}.

Definition sample_feature_specs : FeatureSpecsParams :=
  {| fs_documentId := "D1"; fs_wvm := W; fs_wvmid := "W1"; fs_elementId := "E1" |}.

(** A context whose selector token is not one of [w], [v], [m]. *)
Definition context_bad_selector : jsval :=
  JObj [("params", JObj [("documentId", JStr "D1"); ("wvm", JStr "x");
                         ("wvmid", JStr "W1")])].

(** The template variables handed over directly, without a [params] field. *)
Definition context_without_params : jsval :=
  JObj [("documentId", JStr "D1"); ("wvm", JStr "w"); ("wvmid", JStr "W1")].

(** Two Part Studios of the same name, behind one of another name. *)
Definition sample_elements : jsval :=
  JArr [JObj [("id", JStr "E0"); ("name", JStr "Base")];
        JObj [("id", JStr "E1"); ("name", JStr "Bracket")];
        JObj [("id", JStr "E2"); ("name", JStr "Bracket")]].

Definition rt_elements : Runtime := ref_runtime [sample_elements].

Definition be_elements : Backend := scripted [ok_json sample_elements].

(** A [null] in front of the Part Studio searched for. *)
Definition sample_elements_null : jsval :=
  JArr [JNull; JObj [("id", JStr "E1"); ("name", JStr "Bracket")]].

Definition rt_elements_null : Runtime := ref_runtime [sample_elements_null].

Definition be_elements_null : Backend := scripted [ok_json sample_elements_null].

(** A document with a default workspace. *)
Definition sample_document : jsval :=
  JObj [("id", JStr "D1"); ("name", JStr "Bracket");
        ("defaultWorkspace", JObj [("id", JStr "W1"); ("name", JStr "Main")])].

Definition rt_document : Runtime := ref_runtime [sample_document].

Definition be_document : Backend := scripted [ok_json sample_document].
















(** The metadata of a part: its properties out of order, one of them twice,
    one with an object value. *)
Definition sample_metadata : jsval :=
  JObj [("properties",
         JArr [JObj [("name", JStr "Material"); ("value", JObj [("id", JStr "steel")])];
               JObj [("name", JStr "Name"); ("value", JStr "Bracket")];
               JObj [("name", JStr "Name"); ("value", JStr "Other")];
               JObj [("name", JStr "Mass"); ("value", JNum 3)]])].

Definition rt_metadata : Runtime := ref_runtime [sample_metadata].

Definition be_metadata : Backend := scripted [ok_json sample_metadata].

(** The metadata of a part whose properties end in a [null]. *)
Definition sample_metadata_null : jsval :=
  JObj [("properties", JArr [JObj [("name", JStr "Name"); ("value", JStr "Bracket")];
                             JNull])].

Definition rt_metadata_null : Runtime := ref_runtime [sample_metadata_null].

Definition be_metadata_null : Backend := scripted [ok_json sample_metadata_null].

Definition context_part : jsval :=
  JObj [("params", JObj [("documentId", JStr "D1"); ("wvm", JStr "w"); ("wvmid", JStr "W1");
                         ("elementId", JStr "E1"); ("partId", JStr "P1")])].
(** * Properties *)

(** ** Strings *)

Lemma append_assoc (a b c : string) : ((a ++ b) ++ c = a ++ (b ++ c))%string.
Proof. induction a as [| x a IH]; cbn; [reflexivity | now rewrite IH]. Qed.

Lemma append_nil_r (a : string) : (a ++ "" = a)%string.
Proof. induction a as [| x a IH]; cbn; [reflexivity | now rewrite IH]. Qed.

(** ** The transport: [onshapeApiRequest] *)

Section TransportFacts.
Context {RT : Runtime} {BE : Backend}.

(** One call sends exactly one request, leaves the locals alone, and returns
    what the outcome of that request determines. *)
Lemma onshapeApiRequest_run {L} (method path : string) (body : jsval)
    (q : option (list (string * string))) (s : State L) :
  let req := request_options method (request_url path q) body in
  let o := fetch_outcome (sent s) req in
  onshapeApiRequest method path body q s =
    (outcome_value o,
     mkState (locals s) (sent s ++ [req]) (console s ++ outcome_log (request_url path q) o)).
Proof.
  cbv zeta. unfold onshapeApiRequest, try_catch, bind, fetch, outcome_log, outcome_value.
  destruct (fetch_outcome (sent s) _) as [e | r]; cbn.
  - reflexivity.
  - destruct (resp_ok r); cbn.
    + destruct (String.eqb (resp_text r) ""); cbn.
      * now rewrite app_nil_r.
      * unfold lift. destruct (JSON_parse (resp_text r)); cbn;
          [reflexivity | now rewrite app_nil_r].
    + reflexivity.
Qed.

Lemma onshapeApiRequest_returns {L} (method path : string) (body : jsval)
    (q : option (list (string * string))) (s : State L) (v : jsval) :
  outcome_value (fetch_outcome (sent s) (request_options method (request_url path q) body))
  = inr v ->
  onshapeApiRequest method path body q s =
    (inr v,
     mkState (locals s) (sent s ++ [request_options method (request_url path q) body])
       (console s)).
Proof.
  intros H. rewrite onshapeApiRequest_run. cbv zeta. unfold outcome_log.
  rewrite H. now rewrite app_nil_r.
Qed.

Lemma onshapeApiRequest_throws {L} (method path : string) (body : jsval)
    (q : option (list (string * string))) (s : State L) (e : Error) :
  outcome_value (fetch_outcome (sent s) (request_options method (request_url path q) body))
  = inl e ->
  onshapeApiRequest method path body q s =
    (inl e,
     mkState (locals s) (sent s ++ [request_options method (request_url path q) body])
       (console s ++ ["Error during Onshape API request to " ++ request_url path q ++ ": "
                      ++ Error_toString e])).
Proof.
  intros H. rewrite onshapeApiRequest_run. cbv zeta. unfold outcome_log.
  now rewrite H.
Qed.

End TransportFacts.

(** ** Bookkeeping of the request log *)

Section LogFacts.
Context {RT : Runtime} {BE : Backend} {L : Type}.

Lemma keeps_ret {A} (a : A) : keeps_sent (@ret L A a).
Proof. intro s; reflexivity. Qed.

Lemma keeps_throw {A} (e : Error) : keeps_sent (@throw L A e).
Proof. intro s; reflexivity. Qed.

Lemma keeps_lift {A} (r : Error + A) : keeps_sent (@lift L A r).
Proof. destruct r; intro s; reflexivity. Qed.

Lemma keeps_get (v : jsval) (k : string) : keeps_sent (@get RT L v k).
Proof. apply keeps_lift. Qed.

Lemma keeps_console (line : string) : keeps_sent (@console_error L line).
Proof. intro s; reflexivity. Qed.

Lemma keeps_get_local : keeps_sent (@get_local L).
Proof. intro s; reflexivity. Qed.

Lemma keeps_set_local (l : L) : keeps_sent (set_local l).
Proof. intro s; reflexivity. Qed.

Lemma keeps_bind {A B} (c : M L A) (k : A -> M L B) :
  keeps_sent c -> (forall a, keeps_sent (k a)) -> keeps_sent (bind c k).
Proof.
  intros Hc Hk s. unfold bind. specialize (Hc s).
  destruct (c s) as [[e | a] s1]; cbn in *; [assumption |].
  rewrite Hk. assumption.
Qed.

Lemma keeps_try_catch {A} (body : M L A) (handler : Error -> M L A) :
  keeps_sent body -> (forall e, keeps_sent (handler e)) -> keeps_sent (try_catch body handler).
Proof.
  intros Hb Hh s. unfold try_catch. specialize (Hb s).
  destruct (body s) as [[e | a] s1]; cbn in *; [| assumption].
  rewrite Hh. assumption.
Qed.

Lemma keeps_if {A} (b : bool) (c1 c2 : M L A) :
  keeps_sent c1 -> keeps_sent c2 -> keeps_sent (if b then c1 else c2).
Proof. destruct b; auto. Qed.

Lemma keeps_fold_text {A} (l : list A) (f : A -> string -> M L string) :
  (forall x acc, keeps_sent (f x acc)) -> forall acc, keeps_sent (fold_text l f acc).
Proof.
  intros Hf. induction l as [| x rest IH]; intro acc; cbn.
  - apply keeps_ret.
  - apply keeps_bind; auto.
Qed.

(** After a first computation [c], a continuation that sends nothing leaves
    the log as [c] left it. *)
Lemma sent_after_bind {A B} (c : M L A) (k : A -> M L B) (s : State L) :
  (forall a, keeps_sent (k a)) -> sent (snd (bind c k s)) = sent (snd (c s)).
Proof.
  intros Hk. unfold bind. destruct (c s) as [[e | a] s1]; cbn; [reflexivity | apply Hk].
Qed.

Lemma sent_after_try {A} (body : M L A) (handler : Error -> M L A) (s : State L) :
  (forall e, keeps_sent (handler e)) ->
  sent (snd (try_catch body handler s)) = sent (snd (body s)).
Proof.
  intros Hh. unfold try_catch. destruct (body s) as [[e | a] s1]; cbn;
    [apply Hh | reflexivity].
Qed.

Lemma sent_onshapeApiRequest (method path : string) (body : jsval)
    (q : option (list (string * string))) (s : State L) :
  sent (snd (onshapeApiRequest method path body q s))
  = (sent s ++ [request_options method (request_url path q) body])%list.
Proof. rewrite onshapeApiRequest_run. reflexivity. Qed.

End LogFacts.

(** Decide [keeps_sent] goals for handler code that performs no request. *)
Ltac keeps :=
  repeat first
    [ apply keeps_ret | apply keeps_throw | apply keeps_get | apply keeps_lift
    | apply keeps_console | apply keeps_get_local | apply keeps_set_local
    | apply keeps_fold_text; intros
    | apply keeps_bind; [| intros]
    | apply keeps_try_catch; [| intros]
    | apply keeps_if
    | match goal with
      | |- keeps_sent (if ?b then _ else _) => destruct b
      | |- keeps_sent (match ?x with _ => _ end) => destruct x
      | |- keeps_sent (let _ := _ in _) => cbv zeta
      end ].

(** ** The transport's three outcomes *)

(** C8.  Whenever the backend answers a call of [onshapeApiRequest] with a
    response [r]: if [r] is not a success the call fails with an [Error]
    whose message carries the status, the status text and the raw body; if
    [r] is a success with an empty body the call returns the empty object
    [{}]; if [r] is a success with a non-empty body the call returns exactly
    what [JSON.parse] makes of that body, so a parsed value is returned and a
    parse failure is thrown, which the empty-body case never is. *)
Theorem onshapeApiRequest_outcomes {RT : Runtime} {BE : Backend} {L : Type}
    (method path : string) (body : jsval) (q : option (list (string * string)))
    (s : State L) (r : Response) :
  fetch_outcome (sent s) (request_options method (request_url path q) body) = Responded r ->
  (resp_ok r = false ->
   fst (onshapeApiRequest method path body q s)
   = inl (new_Error ("Onshape API Error: " ++ Number_toString (resp_status r) ++ " "
                     ++ resp_statusText r ++ " - " ++ resp_text r)))
  /\ (resp_ok r = true -> resp_text r = "" ->
      fst (onshapeApiRequest method path body q s) = inr (JObj []))
  /\ (resp_ok r = true -> resp_text r <> "" ->
      fst (onshapeApiRequest method path body q s) = JSON_parse (resp_text r)
      /\ forall v, JSON_parse (resp_text r) = inr v ->
                   fst (onshapeApiRequest method path body q s) = inr v).
Proof.
  intros Hr. rewrite onshapeApiRequest_run. cbn [fst]. rewrite Hr. cbn.
  split; [| split].
  - intros ->. reflexivity.
  - intros -> ->. reflexivity.
  - intros -> Hne. apply String.eqb_neq in Hne. rewrite Hne.
    split; [reflexivity | intros v Hv; exact Hv].
Qed.

(** ** The helpers of [onshapeApi.ts] *)

Section HelperFacts.
Context {RT : Runtime} {BE : Backend} {L : Type}.

(** A [try] whose [catch] block returns cannot throw. *)
Lemma try_catch_never_throws {A} (body : M L A) (handler : Error -> M L A) :
  (forall e, never_throws (handler e)) -> never_throws (try_catch body handler).
Proof.
  intros Hh s. unfold try_catch.
  destruct (body s) as [[e | a] s1]; [apply Hh | eauto].
Qed.

(** A [catch] block that logs one line and returns [v]. *)
Lemma log_and_return_never_throws {A} (line : string) (v : A) :
  never_throws (@console_error L line ;;; ret v).
Proof. intro s. unfold bind, console_error, ret. eexists; eexists; reflexivity. Qed.

(** When the first step of the [try] body throws, the result is what the
    [catch] block returns. *)
Lemma try_catch_first_throws {A B} (c : M L A) (k : A -> M L B)
    (handler : Error -> M L B) (s s1 : State L) (e : Error) :
  c s = (inl e, s1) -> try_catch (bind c k) handler s = handler e s1.
Proof. intros H. unfold try_catch, bind. now rewrite H. Qed.

End HelperFacts.

(** C9.  [getDefaultWorkspace], [findPartStudioByName] and
    [findAssemblyByName] never raise: for every input and every state they
    return a value, and the value is [undefined] whenever their API request
    fails. *)
Theorem helpers_return_undefined_on_failure {RT : Runtime} {BE : Backend} {L : Type}
    (documentId workspaceId name : string) (s : State L) :
  ((exists v s', getDefaultWorkspace documentId s = (inr v, s'))
   /\ (forall e s1,
         onshapeApiRequest "GET" ("/documents/" ++ documentId) JUndefined None s = (inl e, s1) ->
         fst (getDefaultWorkspace documentId s) = inr JUndefined))
  /\ ((exists v s', findPartStudioByName documentId workspaceId name s = (inr v, s'))
      /\ (forall e s1,
            onshapeApiRequest "GET"
              ("/documents/d/" ++ documentId ++ "/w/" ++ workspaceId ++ "/elements")
              JUndefined (Some [("elementType", "PARTSTUDIO")]) s = (inl e, s1) ->
            fst (findPartStudioByName documentId workspaceId name s) = inr JUndefined))
  /\ ((exists v s', findAssemblyByName documentId workspaceId name s = (inr v, s'))
      /\ (forall e s1,
            onshapeApiRequest "GET"
              ("/documents/d/" ++ documentId ++ "/w/" ++ workspaceId ++ "/elements")
              JUndefined (Some [("elementType", "ASSEMBLY")]) s = (inl e, s1) ->
            fst (findAssemblyByName documentId workspaceId name s) = inr JUndefined)).
Proof.
  repeat split.
  - apply try_catch_never_throws. intro e. apply log_and_return_never_throws.
  - intros e s1 H. unfold getDefaultWorkspace.
    rewrite (try_catch_first_throws _ _ _ _ _ _ H). reflexivity.
  - apply try_catch_never_throws. intro e. apply log_and_return_never_throws.
  - intros e s1 H. unfold findPartStudioByName. cbv zeta.
    rewrite (try_catch_first_throws _ _ _ _ _ _ H). reflexivity.
  - apply try_catch_never_throws. intro e. apply log_and_return_never_throws.
  - intros e s1 H. unfold findAssemblyByName. cbv zeta.
    rewrite (try_catch_first_throws _ _ _ _ _ _ H). reflexivity.
Qed.

Lemma helpers_return_undefined_on_failure_witness :
  fst (@getDefaultWorkspace rt be_down unit "D1" (start tt [] [])) = inr JUndefined
  /\ fst (@findPartStudioByName rt be_down unit "D1" "W1" "Part Studio 1" (start tt [] []))
     = inr JUndefined
  /\ fst (@findAssemblyByName rt be_down unit "D1" "W1" "Assembly 1" (start tt [] []))
     = inr JUndefined.
Proof.
  destruct (@helpers_return_undefined_on_failure rt be_down unit "D1" "W1" "Part Studio 1"
              (start tt [] [])) as ((_ & Hws) & (_ & Hps) & _).
  destruct (@helpers_return_undefined_on_failure rt be_down unit "D1" "W1" "Assembly 1"
              (start tt [] [])) as (_ & _ & (_ & Hasm)).
  split; [| split].
  - exact (Hws (mkError "FetchError" "network unreachable") _ eq_refl).
  - exact (Hps (mkError "FetchError" "network unreachable") _ eq_refl).
  - exact (Hasm (mkError "FetchError" "network unreachable") _ eq_refl).
Defined.

(** ** [list_elements] *)

Section ListElementsFacts.
Context {RT : Runtime} {BE : Backend} {L : Type}.

Lemma keeps_nonempty (a : jsval) : keeps_sent (@nonempty RT L a).
Proof. unfold nonempty. keeps. Qed.

Lemma keeps_append_notices (notices : jsval) (acc : string) :
  keeps_sent (@append_notices RT L notices acc).
Proof. unfold append_notices, for_each_text. keeps. Qed.

(** [list_elements] sends exactly one request. *)
Lemma sent_list_elements (params : ListElementsParams) (s : State L) :
  sent (snd (list_elements params s))
  = (sent s ++ [request_options "GET"
                  (request_url (list_elements_path params) (Some (list_elements_query params)))
                  JUndefined])%list.
Proof.
  unfold list_elements, list_elements_try, list_elements_catch. cbv zeta.
  rewrite sent_after_try by (intros; keeps).
  rewrite sent_after_bind.
  - apply sent_onshapeApiRequest.
  - intros elements. unfold for_each_text. keeps; apply keeps_nonempty.
Qed.

End ListElementsFacts.

(** C10.  The one request that [list_elements] sends carries the query
    [elementType=PARTSTUDIO,ASSEMBLY] (before URL encoding) when the optional
    [elementType] argument is omitted, and [elementType=t] for exactly the
    supplied [t] otherwise. *)
Theorem list_elements_element_type_filter {RT : Runtime} {BE : Backend} {L : Type}
    (params : ListElementsParams) (s : State L) :
  sent (snd (list_elements params s))
  = (sent s ++
     [request_options "GET"
        (ONSHAPE_API_URL ++ "/documents/d/" ++ le_documentId params ++ "/"
         ++ wvm_text (le_wvm params) ++ "/" ++ le_wvmid params ++ "/elements" ++ "?"
         ++ URLSearchParams_toString
              [("elementType",
                match le_elementType params with
                | None => "PARTSTUDIO,ASSEMBLY"
                | Some t => elementType_text t
                end)])
        JUndefined])%list.
Proof.
  rewrite sent_list_elements. unfold request_url, list_elements_path, list_elements_query.
  destruct (le_elementType params) as [t |]; [destruct t |]; cbn [option_map or_default];
    cbn [elementType_text String.eqb Ascii.eqb Bool.eqb app];
    repeat rewrite append_assoc; reflexivity.
Qed.

(** ** Running the mutation handlers step by step *)

Section MutationFacts.
Context {RT : Runtime} {BE : Backend}.

Lemma bind_inr {L A B} (c : M L A) (k : A -> M L B) (s s1 : State L) (a : A) :
  c s = (inr a, s1) -> bind c k s = k a s1.
Proof. intros H. unfold bind. now rewrite H. Qed.

Lemma bind_inl {L A B} (c : M L A) (k : A -> M L B) (s s1 : State L) (e : Error) :
  c s = (inl e, s1) -> bind c k s = (inl e, s1).
Proof. intros H. unfold bind. now rewrite H. Qed.


Lemma get_prop_defined (v : jsval) (k : string) :
  nullish v = false -> get_prop v k = inr (prop v k).
Proof. unfold prop. destruct v; cbn; intros H; try discriminate; reflexivity. Qed.

Lemma truthy_not_nullish (v : jsval) : truthy v = true -> nullish v = false.
Proof. destruct v; cbn; intros H; try discriminate; reflexivity. Qed.

Lemma get_truthy {L} (v : jsval) (k : string) (s : State L) :
  truthy v = true -> get v k s = (inr (prop v k), s).
Proof.
  intros H. unfold get. rewrite get_prop_defined by now apply truthy_not_nullish.
  reflexivity.
Qed.

Lemma get_defined {L} (v : jsval) (k : string) (s : State L) :
  nullish v = false -> get v k s = (inr (prop v k), s).
Proof. intros H. unfold get. rewrite get_prop_defined by assumption. reflexivity. Qed.

(** The metadata test is exactly the absence of a stamp; it changes nothing. *)
Lemma metadata_missing_run {L} (cf : jsval) (s : State L) :
  metadata_missing cf s = (inr (negb (stamps_present cf)), s).
Proof.
  unfold metadata_missing, stamps_present.
  destruct (truthy cf) eqn:Hcf; cbn [negb andb]; [| reflexivity].
  rewrite (bind_inr _ _ _ _ _ (get_truthy cf "serializationVersion" s Hcf)).
  destruct (truthy (prop cf "serializationVersion")); cbn [negb andb]; [| reflexivity].
  rewrite (bind_inr _ _ _ _ _ (get_truthy cf "libraryVersion" s Hcf)).
  destruct (truthy (prop cf "libraryVersion")); cbn [negb andb]; [| reflexivity].
  rewrite (bind_inr _ _ _ _ _ (get_truthy cf "sourceMicroversion" s Hcf)).
  reflexivity.
Qed.

Lemma stamps_present_truthy (cf : jsval) : stamps_present cf = true -> truthy cf = true.
Proof.
  unfold stamps_present. intros H.
  repeat (apply andb_true_iff in H; destruct H as [H ?]). assumption.
Qed.

(** With a readable snapshot the payload is the caller's feature plus the
    three stamps as read. *)
Lemma build_featureDefinitionCall_run {L} (feature cf : jsval) (s : State L) :
  truthy cf = true ->
  build_featureDefinitionCall feature cf s = (inr (stamped_payload feature cf), s).
Proof.
  intros Hcf. unfold build_featureDefinitionCall.
  rewrite (bind_inr _ _ _ _ _ (get_truthy cf "serializationVersion" s Hcf)).
  rewrite (bind_inr _ _ _ _ _ (get_truthy cf "sourceMicroversion" s Hcf)).
  rewrite (bind_inr _ _ _ _ _ (get_truthy cf "libraryVersion" s Hcf)).
  reflexivity.
Qed.

Lemma keeps_feature_in_error {L} (response : jsval) :
  keeps_sent (@feature_in_error RT L response).
Proof. unfold feature_in_error. keeps. Qed.

Lemma keeps_append_feature_state {L} (response : jsval) (warning acc : string) :
  keeps_sent (@append_feature_state RT L response warning acc).
Proof.
  unfold append_feature_state.
  keeps; try apply keeps_feature_in_error; try apply keeps_nonempty;
    try apply keeps_append_notices.
Qed.

End MutationFacts.

Section MutationRuns.
Context {RT : Runtime} {BE : Backend}.

Lemma read_returns {L} (d w e : string) (l : L) (reqs : list Request) (out : list string)
    (cf : jsval) :
  outcome_value (fetch_outcome reqs (read_request d w e)) = inr cf ->
  onshapeApiRequest "GET" (features_path d w e) JUndefined None (mkState l reqs out)
  = (inr cf, mkState l (reqs ++ [read_request d w e]) out).
Proof.
  intros H.
  exact (onshapeApiRequest_returns "GET" (features_path d w e) JUndefined None
           (mkState l reqs out) cf H).
Qed.

Lemma missing_stamp_not_present (cf : jsval) :
  prop cf "serializationVersion" = JUndefined
  \/ prop cf "libraryVersion" = JUndefined
  \/ prop cf "sourceMicroversion" = JUndefined ->
  stamps_present cf = false.
Proof.
  unfold stamps_present. intros [H | [H | H]]; rewrite H; cbn;
    repeat rewrite andb_false_r; reflexivity.
Qed.

(** The add handler up to its write: with a stamped snapshot [cf] the handler
    continues from the state in which the read is logged and the local
    [featureDefinitionCall] is assigned. *)
Lemma add_sent_after_read (pa : AddPartStudioFeatureParams) (reqs : list Request)
    (out : list string) (cf : jsval) :
  outcome_value (fetch_outcome reqs
     (read_request (apf_documentId pa) (apf_workspaceId pa) (apf_elementId pa))) = inr cf ->
  stamps_present cf = true ->
  sent (snd (add_part_studio_feature pa (start None reqs out)))
  = (reqs ++ [read_request (apf_documentId pa) (apf_workspaceId pa) (apf_elementId pa);
              add_write_request pa (stamped_payload (apf_feature pa) cf)])%list.
Proof.
  intros Hread Hst. unfold add_part_studio_feature, add_part_studio_feature_try, add_part_studio_feature_catch, start.
  rewrite sent_after_try by (intros; keeps).
  rewrite (bind_inr _ _ _ _ _ (read_returns _ _ _ _ _ _ _ Hread)).
  rewrite (bind_inr _ _ _ _ _ (metadata_missing_run _ _)).
  rewrite Hst. cbn [negb].
  rewrite (bind_inr _ _ _ _ _ (eq_refl : ret tt _ = (inr tt, _))).
  rewrite (bind_inr _ _ _ _ _
             (build_featureDefinitionCall_run _ _ _ (stamps_present_truthy _ Hst))).
  rewrite (bind_inr _ _ _ _ _ (eq_refl : set_local _ _ = (inr tt, _))).
  rewrite sent_after_bind.
  - rewrite sent_onshapeApiRequest. cbn [sent]. rewrite <- app_assoc. reflexivity.
  - intros response. cbv zeta. keeps; apply keeps_append_feature_state.
Qed.

Lemma update_sent_after_read {L} (pu : UpdatePartStudioFeatureParams) (l : L)
    (reqs : list Request) (out : list string) (cf : jsval) :
  outcome_value (fetch_outcome reqs
     (read_request (upf_documentId pu) (upf_workspaceId pu) (upf_elementId pu))) = inr cf ->
  stamps_present cf = true ->
  sent (snd (update_part_studio_feature pu (start l reqs out)))
  = (reqs ++ [read_request (upf_documentId pu) (upf_workspaceId pu) (upf_elementId pu);
              update_write_request pu (stamped_payload (upf_feature pu) cf)])%list.
Proof.
  intros Hread Hst. unfold update_part_studio_feature, update_part_studio_feature_try, update_part_studio_feature_catch, start.
  rewrite sent_after_try by (intros; keeps).
  rewrite (bind_inr _ _ _ _ _ (read_returns _ _ _ _ _ _ _ Hread)).
  rewrite (bind_inr _ _ _ _ _ (metadata_missing_run _ _)).
  rewrite Hst. cbn [negb].
  rewrite (bind_inr _ _ _ _ _ (eq_refl : ret tt _ = (inr tt, _))).
  rewrite (bind_inr _ _ _ _ _
             (build_featureDefinitionCall_run _ _ _ (stamps_present_truthy _ Hst))).
  rewrite sent_after_bind.
  - rewrite sent_onshapeApiRequest. cbn [sent]. rewrite <- app_assoc. reflexivity.
  - intros response. cbv zeta. keeps; apply keeps_append_feature_state.
Qed.

End MutationRuns.

(** C2.  When the snapshot [cf] returned by the read that opens an add or an
    update lacks [serializationVersion], [libraryVersion] or
    [sourceMicroversion], the handler fails in-band with the precondition
    error (the "Failed to fetch necessary Part Studio metadata" [Error]) and
    the only request it has sent is that read, a [GET]: no write is issued. *)
Theorem missing_stamp_fails_before_write {RT : Runtime} {BE : Backend} {L : Type}
    (pa : AddPartStudioFeatureParams) (pu : UpdatePartStudioFeatureParams) (l : L)
    (reqs : list Request) (out : list string) (cf : jsval) :
  prop cf "serializationVersion" = JUndefined
  \/ prop cf "libraryVersion" = JUndefined
  \/ prop cf "sourceMicroversion" = JUndefined ->
  (let rd := read_request (apf_documentId pa) (apf_workspaceId pa) (apf_elementId pa) in
   outcome_value (fetch_outcome reqs rd) = inr cf ->
   add_part_studio_feature pa (start None reqs out)
   = (inr (tool_error
             ("Error adding feature: "
              ++ "Failed to fetch necessary Part Studio metadata for adding feature."
              ++ "  + " ++ "undefined")),
      mkState None (reqs ++ [rd])
        (out ++ ["Error adding feature: "
                 ++ "Failed to fetch necessary Part Studio metadata for adding feature."]))
   /\ req_method rd = "GET")
  /\ (let rd := read_request (upf_documentId pu) (upf_workspaceId pu) (upf_elementId pu) in
      outcome_value (fetch_outcome reqs rd) = inr cf ->
      update_part_studio_feature pu (start l reqs out)
      = (inr (tool_error
                ("Error updating feature " ++ upf_featureId pu ++ ": "
                 ++ "Failed to fetch necessary Part Studio metadata for updating feature.")),
         mkState l (reqs ++ [rd])
           (out ++ ["Error updating feature " ++ upf_featureId pu ++ ": "
                    ++ "Failed to fetch necessary Part Studio metadata for updating feature."]))
      /\ req_method rd = "GET").
Proof.
  intros Hmiss. apply missing_stamp_not_present in Hmiss.
  split; cbv zeta; intros Hread; (split; [| reflexivity]).
  - unfold add_part_studio_feature, add_part_studio_feature_try, add_part_studio_feature_catch, try_catch, start.
    rewrite (bind_inr _ _ _ _ _ (read_returns _ _ _ _ _ _ _ Hread)).
    rewrite (bind_inr _ _ _ _ _ (metadata_missing_run _ _)).
    rewrite Hmiss. reflexivity.
  - unfold update_part_studio_feature, update_part_studio_feature_try, update_part_studio_feature_catch, try_catch, start.
    rewrite (bind_inr _ _ _ _ _ (read_returns _ _ _ _ _ _ _ Hread)).
    rewrite (bind_inr _ _ _ _ _ (metadata_missing_run _ _)).
    rewrite Hmiss. reflexivity.
Qed.

(** C5.  When the read that opens an add or an update returns a snapshot [cf]
    with all three stamps, the handler sends exactly one more request, a
    [POST] right after that read, whose body is the JSON text of the object
    made of the caller's [feature], unmodified, and exactly the three stamps
    [serializationVersion], [sourceMicroversion] and [libraryVersion] as they
    were read from [cf]. *)
Theorem write_payload_is_feature_and_stamps {RT : Runtime} {BE : Backend} {L : Type}
    (pa : AddPartStudioFeatureParams) (pu : UpdatePartStudioFeatureParams) (l : L)
    (reqs : list Request) (out : list string) (cf : jsval) :
  stamps_present cf = true ->
  (let rd := read_request (apf_documentId pa) (apf_workspaceId pa) (apf_elementId pa) in
   outcome_value (fetch_outcome reqs rd) = inr cf ->
   exists wr,
     sent (snd (add_part_studio_feature pa (start None reqs out))) = (reqs ++ [rd; wr])%list
     /\ req_method wr = "POST"
     /\ req_body wr
        = Some (JSON_stringify
                  (JObj [("feature", apf_feature pa);
                         ("serializationVersion", prop cf "serializationVersion");
                         ("sourceMicroversion", prop cf "sourceMicroversion");
                         ("libraryVersion", prop cf "libraryVersion")])))
  /\ (let rd := read_request (upf_documentId pu) (upf_workspaceId pu) (upf_elementId pu) in
      outcome_value (fetch_outcome reqs rd) = inr cf ->
      exists wr,
        sent (snd (update_part_studio_feature pu (start l reqs out))) = (reqs ++ [rd; wr])%list
        /\ req_method wr = "POST"
        /\ req_body wr
           = Some (JSON_stringify
                     (JObj [("feature", upf_feature pu);
                            ("serializationVersion", prop cf "serializationVersion");
                            ("sourceMicroversion", prop cf "sourceMicroversion");
                            ("libraryVersion", prop cf "libraryVersion")]))).
Proof.
  intros Hst. split; cbv zeta; intros Hread.
  - exists (add_write_request pa (stamped_payload (apf_feature pa) cf)).
    split; [now apply add_sent_after_read | split; reflexivity].
  - exists (update_write_request pu (stamped_payload (upf_feature pu) cf)).
    split; [now apply update_sent_after_read | split; reflexivity].
Qed.

(** ** A feature that evaluates to an error *)

Section FeatureErrorFacts.
Context {RT : Runtime} {BE : Backend}.



Lemma write_returns {L} (path : string) (payload : jsval) (l : L) (reqs : list Request)
    (out : list string) (v : jsval) :
  outcome_value (fetch_outcome reqs (request_options "POST" (request_url path None) payload))
  = inr v ->
  onshapeApiRequest "POST" path payload None (mkState l reqs out)
  = (inr v,
     mkState l (reqs ++ [request_options "POST" (request_url path None) payload]) out).
Proof.
  intros H.
  exact (onshapeApiRequest_returns "POST" path payload None (mkState l reqs out) v H).
Qed.


Lemma update_write_returns {L} (pu : UpdatePartStudioFeatureParams) (payload : jsval) (l : L)
    (reqs : list Request) (out : list string) (v : jsval) :
  outcome_value (fetch_outcome reqs (update_write_request pu payload)) = inr v ->
  onshapeApiRequest "POST"
    (feature_path (upf_documentId pu) (upf_workspaceId pu) (upf_elementId pu)
       (upf_featureId pu))
    payload None (mkState l reqs out)
  = (inr v, mkState l (reqs ++ [update_write_request pu payload]) out).
Proof. apply write_returns. Qed.

End FeatureErrorFacts.


(** ** The properties at the sample documents *)

Lemma onshapeApiRequest_outcomes_witness :
  fst (@onshapeApiRequest rt be_unavailable unit "GET" "/documents/D1" JUndefined None
         (start tt [] []))
  = inl (new_Error "Onshape API Error: 503 Service Unavailable - try later")
  /\ fst (@onshapeApiRequest rt be_empty unit "GET" "/documents/D1" JUndefined None
            (start tt [] []))
     = inr (JObj [])
  /\ fst (@onshapeApiRequest rt be_missing unit "GET" "/documents/D1" JUndefined None
            (start tt [] []))
     = inr snapshot_no_library
  /\ fst (@onshapeApiRequest rt be_garbage unit "GET" "/documents/D1" JUndefined None
            (start tt [] []))
     = inl (mkError "SyntaxError" "Unexpected token in JSON").
Proof.
  split; [| split; [| split]].
  - destruct (@onshapeApiRequest_outcomes rt be_unavailable unit "GET" "/documents/D1"
                JUndefined None (start tt [] [])
                (mkResponse false 503 "Service Unavailable" "try later") eq_refl)
      as (Hfail & _ & _).
    apply Hfail. reflexivity.
  - destruct (@onshapeApiRequest_outcomes rt be_empty unit "GET" "/documents/D1"
                JUndefined None (start tt [] []) (mkResponse true 200 "OK" "") eq_refl)
      as (_ & Hempty & _).
    apply Hempty; reflexivity.
  - destruct (@onshapeApiRequest_outcomes rt be_missing unit "GET" "/documents/D1"
                JUndefined None (start tt [] [])
                (mkResponse true 200 "OK" (ref_stringify snapshot_no_library)) eq_refl)
      as (_ & _ & Hparsed).
    apply Hparsed; [reflexivity | discriminate | reflexivity].
  - destruct (@onshapeApiRequest_outcomes rt be_garbage unit "GET" "/documents/D1"
                JUndefined None (start tt [] []) (mkResponse true 200 "OK" "<html>") eq_refl)
      as (_ & _ & Hparsed).
    apply Hparsed; [reflexivity | discriminate].
Defined.

Lemma missing_stamp_fails_before_write_witness :
  @add_part_studio_feature rt be_missing sample_add (start None [] [])
  = (inr (tool_error
            ("Error adding feature: "
             ++ "Failed to fetch necessary Part Studio metadata for adding feature."
             ++ "  + " ++ "undefined")),
     mkState None [@read_request rt "D1" "W1" "E1"]
       ["Error adding feature: "
        ++ "Failed to fetch necessary Part Studio metadata for adding feature."])
  /\ @update_part_studio_feature rt be_missing unit sample_update (start tt [] [])
     = (inr (tool_error
               ("Error updating feature F1: "
                ++ "Failed to fetch necessary Part Studio metadata for updating feature.")),
        mkState tt [@read_request rt "D1" "W1" "E1"]
          ["Error updating feature F1: "
           ++ "Failed to fetch necessary Part Studio metadata for updating feature."]).
Proof.
  destruct (@missing_stamp_fails_before_write rt be_missing unit sample_add sample_update
              tt [] [] snapshot_no_library (or_intror (or_introl eq_refl)))
    as [Hadd Hupdate].
  split.
  - apply Hadd. reflexivity.
  - apply Hupdate. reflexivity.
Defined.

Lemma write_payload_is_feature_and_stamps_witness :
  (exists wr,
     sent (snd (@add_part_studio_feature rt be_skew sample_add (start None [] [])))
     = [@read_request rt "D1" "W1" "E1"; wr]
     /\ req_method wr = "POST"
     /\ req_body wr
        = Some (ref_stringify
                  (JObj [("feature", sample_feature);
                         ("serializationVersion", JStr "1.2.4");
                         ("sourceMicroversion", JStr "mv1");
                         ("libraryVersion", JNum 2411)])))
  /\ (exists wr,
        sent (snd (@update_part_studio_feature rt be_skew unit sample_update (start tt [] [])))
        = [@read_request rt "D1" "W1" "E1"; wr]
        /\ req_method wr = "POST"
        /\ req_body wr
           = Some (ref_stringify
                     (JObj [("feature", sample_feature);
                            ("serializationVersion", JStr "1.2.4");
                            ("sourceMicroversion", JStr "mv1");
                            ("libraryVersion", JNum 2411)]))).
Proof.
  destruct (@write_payload_is_feature_and_stamps rt be_skew unit sample_add sample_update
              tt [] [] snapshot_full eq_refl) as [Hadd Hupdate].
  split.
  - apply Hadd. reflexivity.
  - apply Hupdate. reflexivity.
Defined.


(** ** Version skew *)

(** C1 at the sample documents.  The write of the update and of the add is
    answered with [microversionSkew: true].  Both handlers return a success
    with the new microversion [mv2] and send the read and one write, but
    neither result says anything about skew beyond the add's raw echo of the
    response; the delete handler, given the same response, does attach the
    skew warning. *)
Theorem skew_reported_only_by_delete :
  @update_part_studio_feature rt be_skew unit sample_update (start tt [] [])
  = (inr (tool_ok ("Feature " ++ DQ ++ "F1" ++ DQ ++ " updated successfully." ++ LF
                   ++ "New Microversion: mv2" ++ LF)),
     mkState tt
       [@read_request rt "D1" "W1" "E1";
        @update_write_request rt sample_update (@stamped_payload rt sample_feature snapshot_full)]
       [])
  /\ fst (@add_part_studio_feature rt be_skew sample_add (start None [] []))
     = inr (tool_ok ("Feature added successfully." ++ LF ++ " Input: " ++ LF
                     ++ ref_stringify (@stamped_payload rt sample_feature snapshot_full) ++ LF
                     ++ " Output: " ++ LF ++ ref_stringify response_skew ++ LF
                     ++ "New Microversion: mv2" ++ LF))
  /\ fst (@delete_part_studio_feature rt be_delete_skew unit sample_delete (start tt [] []))
     = inr (tool_ok ("Feature " ++ DQ ++ "F1" ++ DQ ++ " deleted successfully." ++ LF
                     ++ "Warning: Microversion skew detected during deletion." ++ LF)).
Proof. repeat split; vm_compute; reflexivity. Qed.

(** ** Every handler answers in band *)

Section EnvelopeFacts.
Context {RT : Runtime} {BE : Backend}.

Lemma mentions_end (msg : string) : mentions msg msg.
Proof. exists "", "". cbn. now rewrite append_nil_r. Qed.

Lemma mentions_here (msg post : string) : mentions (msg ++ post) msg.
Proof. exists "", post. reflexivity. Qed.

Lemma mentions_prefix (a t msg : string) : mentions t msg -> mentions (a ++ t) msg.
Proof.
  intros (pre & post & ->). exists (a ++ pre), post. now rewrite append_assoc.
Qed.

(** The [catch] block of every tool but the add: one console line, then the
    error envelope. *)
Lemma tool_catch_envelope {L} (line t msg : string) (s : State L) :
  mentions t msg ->
  exists r s',
    (console_error line ;;; ret (tool_error t)) s = (inr r, s')
    /\ error_envelope Tool r msg.
Proof.
  intros Hm. eexists; eexists. split; [reflexivity |].
  exists t. split; [reflexivity | assumption].
Qed.

Lemma resource_catch_envelope {L} (line uri t msg : string) (s : State L) :
  mentions t msg ->
  exists r s',
    (console_error line ;;; ret (resource_error uri t)) s = (inr r, s')
    /\ error_envelope Resource r msg.
Proof.
  intros Hm. eexists; eexists. split; [reflexivity |].
  exists uri, t. split; [reflexivity | assumption].
Qed.

(** The [catch] block of the add also prints its local. *)
Lemma add_catch_envelope (params : AddPartStudioFeatureParams) (e : Error)
    (s : State (option jsval)) :
  exists r s',
    add_part_studio_feature_catch params e s = (inr r, s')
    /\ error_envelope Tool r (err_message e).
Proof.
  eexists; eexists. split; [reflexivity |].
  eexists. split; [reflexivity |]. apply mentions_prefix, mentions_here.
Qed.

(** What a handler returns once its [try] block has thrown. *)
Lemma h_run_after_throw (h : Handler) (args : h_args h) (s s1 : State (h_locals h))
    (e : Error) :
  h_try h args s = (inl e, s1) -> h_run h args s = h_catch h args e s1.
Proof. intros H. unfold h_run, try_catch. now rewrite H. Qed.

(** A handler whose [catch] block always answers with the envelope never
    throws, and answers with the envelope whenever its [try] block throws. *)
Lemma caught_in_band (h : Handler) :
  (forall args e s,
     exists r s', h_catch h args e s = (inr r, s')
                  /\ error_envelope (h_kind h) r (err_message e)) ->
  forall args s,
    (exists r s', h_run h args s = (inr r, s'))
    /\ (forall e s1,
          h_try h args s = (inl e, s1) ->
          exists r s', h_run h args s = (inr r, s')
                       /\ error_envelope (h_kind h) r (err_message e)).
Proof.
  intros Hc args s. split.
  - unfold h_run, try_catch. destruct (h_try h args s) as [[e | r] s1].
    + destruct (Hc args e s1) as (r & s' & Hr & _). eauto.
    + eauto.
  - intros e s1 H. rewrite (h_run_after_throw h args s s1 e H). apply Hc.
Qed.

End EnvelopeFacts.

(** Close a goal [mentions t msg] for a text built with [++]. *)
Ltac mentions :=
  repeat first [ apply mentions_end | apply mentions_here | apply mentions_prefix ].

(** C7, as the code has it.  Every registered handler answers in band: it
    never throws, and whenever its [try] block throws an error the handler
    returns the failure envelope reporting the error's message, which is
    [{ content: [{ type: "text", text }], isError: true }] for a tool and
    [{ contents: [{ uri, text, mimeType: "text/plain" }], isError: true }]
    for a resource. *)
Theorem every_handler_answers_in_band {RT : Runtime} {BE : Backend} (h : Handler) :
  In h registry ->
  forall (args : h_args h) (s : State (h_locals h)),
    (exists r s', h_run h args s = (inr r, s'))
    /\ (forall e s1,
          h_try h args s = (inl e, s1) ->
          exists r s', h_run h args s = (inr r, s')
                       /\ error_envelope (h_kind h) r (err_message e)).
Proof.
  intros Hin. apply caught_in_band.
  unfold registry in Hin.
  repeat (destruct Hin as [<- | Hin];
          [ intros args e s; cbn [h_catch h_kind resource_handler tool_handler];
            first [ apply add_catch_envelope
                  | apply tool_catch_envelope; mentions
                  | apply resource_catch_envelope; mentions ]
          | ]).
  destruct Hin.
Qed.

Lemma every_handler_answers_in_band_witness :
  exists r s',
    @add_part_studio_feature rt be_down sample_add (start None [] []) = (inr r, s')
    /\ @error_envelope Tool r "network unreachable".
Proof.
  destruct (@every_handler_answers_in_band rt be_down
              (mkHandler "add_part_studio_feature" Tool AddPartStudioFeatureParams
                 (option jsval) None
                 (@add_part_studio_feature_try rt be_down)
                 (@add_part_studio_feature_catch rt))
              ltac:(unfold registry; cbn; do 11 right; left; reflexivity)
              sample_add (start None [] [])) as [_ Hthrown].
  exact (Hthrown (mkError "FetchError" "network unreachable") _ eq_refl).
Defined.

(** C7, as stated, fails for the resource handlers: when the backend is down
    the document resource answers in band with [isError: true], but the
    answer has [contents], not [content]. *)
Lemma resource_failure_has_no_content :
  exists r s',
    @document_resource rt be_down unit "onshape://document/D1" sample_context
      (start tt [] []) = (inr r, s')
    /\ isError r = Some true
    /\ content r = None
    /\ contents r
       = Some [mkResourceContents "onshape://document/D1"
                 "Error reading document: network unreachable" "text/plain"].
Proof. eexists; eexists. vm_compute. repeat split. Qed.

(** ** The resource locator *)

Lemma all_chars_app (p : ascii -> bool) (a b : string) :
  all_chars p (a ++ b) = (all_chars p a && all_chars p b)%bool.
Proof. induction a as [| c a IH]; cbn; [reflexivity | now rewrite IH, andb_assoc]. Qed.

Lemma all_chars_weaken (p q : ascii -> bool) (s : string) :
  (forall c, p c = true -> q c = true) -> all_chars p s = true -> all_chars q s = true.
Proof.
  intros Hpq. induction s as [| c s IH]; cbn; [reflexivity |].
  intros H. apply andb_true_iff in H as [Hc Hs]. now rewrite (Hpq c Hc), IH.
Qed.

Lemma id_char_not_brace (c : ascii) : id_char c = true -> not_brace c = true.
Proof.
  unfold not_brace. destruct (Ascii.eqb_spec c "{") as [-> | _]; [discriminate | reflexivity].
Qed.

Lemma id_char_not_dollar (c : ascii) : id_char c = true -> Ascii.eqb c "$" = false.
Proof. destruct (Ascii.eqb_spec c "$") as [-> | _]; [discriminate | reflexivity]. Qed.

Lemma id_char_not_slash (c : ascii) : id_char c = true -> Ascii.eqb c "/" = false.
Proof. destruct (Ascii.eqb_spec c "/") as [-> | _]; [discriminate | reflexivity]. Qed.

Lemma strip_prefix_app (p s : string) : strip_prefix p (p ++ s) = Some s.
Proof.
  induction p as [| c p IH]; cbn; [now destruct s |]. now rewrite Ascii.eqb_refl.
Qed.

Lemma GetSubstitution_plain (m b a r : string) :
  all_chars id_char r = true -> GetSubstitution m b a r = r.
Proof.
  induction r as [| c r IH]; cbn; [reflexivity |].
  intros H. apply andb_true_iff in H as [Hc Hr].
  rewrite (id_char_not_dollar c Hc). now rewrite IH.
Qed.

Lemma split_first_skip (t pre rest : string) :
  all_chars not_brace pre = true ->
  split_first (String "{" t) (pre ++ rest)
  = match split_first (String "{" t) rest with
    | Some (b, a) => Some (pre ++ b, a)
    | None => None
    end.
Proof.
  induction pre as [| c pre IH]; intros H.
  - cbn [append]. destruct (split_first (String "{" t) rest) as [[b a] |]; reflexivity.
  - cbn in H. apply andb_true_iff in H as [Hc Hp].
    change (String c pre ++ rest) with (String c (pre ++ rest)).
    cbn [split_first strip_prefix].
    unfold not_brace in Hc. apply negb_true_iff in Hc.
    rewrite Ascii.eqb_sym, Hc. rewrite (IH Hp).
    destruct (split_first (String "{" t) rest) as [[b a] |]; reflexivity.
Qed.

Lemma split_first_here (pat rest : string) :
  split_first pat (pat ++ rest) = Some ("", rest).
Proof.
  destruct pat as [| c pat].
  - cbn [append]. destruct rest; reflexivity.
  - change (String c pat ++ rest) with (String c (pat ++ rest)).
    cbn [split_first]. change (String c (pat ++ rest)) with (String c pat ++ rest).
    now rewrite strip_prefix_app.
Qed.

Lemma plain_no_brace (s : string) : all_chars id_char s = true -> all_chars not_brace s = true.
Proof. apply all_chars_weaken, id_char_not_brace. Qed.

Ltac no_brace := first [ reflexivity | apply plain_no_brace; assumption ].


Lemma replace_step (t : string) (pres : list string) (post r : string) :
  Forall (fun p => all_chars not_brace p = true) pres ->
  all_chars id_char r = true ->
  String_replace (prepend pres (String "{" t ++ post)) (String "{" t) r
  = prepend pres (r ++ post).
Proof.
  intros Hpres Hr. unfold String_replace.
  assert (Hs : split_first (String "{" t) (prepend pres (String "{" t ++ post))
               = Some (prepend pres "", post)).
  { induction Hpres as [| p pres Hp _ IH]; cbn [prepend fold_right].
    - apply split_first_here.
    - rewrite (split_first_skip _ _ _ Hp). fold (prepend pres (String "{" t ++ post)).
      now rewrite IH. }
  rewrite Hs. rewrite GetSubstitution_plain by assumption.
  clear Hs. induction pres as [| p pres IH]; cbn [prepend fold_right].
  - reflexivity.
  - rewrite append_assoc. f_equal. apply IH. now inversion Hpres.
Qed.

Ltac fill t pres post r :=
  let H := fresh "Hfill" in
  pose proof (replace_step t pres post r) as H;
  cbn [prepend fold_right] in H;
  rewrite H by
    first [ assumption | reflexivity
          | repeat (apply Forall_cons; [no_brace |]); apply Forall_nil ];
  clear H.


Lemma doc_raw (d : string) :
  all_chars id_char d = true ->
  String_replace DOC_URI_TEMPLATE "{documentId}" d = "onshape://document/" ++ d.
Proof.
  intros Hd.
  change DOC_URI_TEMPLATE with ("onshape://document/" ++ ("{documentId}" ++ "")).
  fill "documentId}" ["onshape://document/"] "" d.
  now rewrite append_nil_r.
Qed.

Lemma wvm_raw (d w i : string) :
  all_chars id_char d = true -> all_chars id_char w = true ->
  all_chars id_char i = true ->
  String_replace (String_replace (String_replace WVM_URI_TEMPLATE "{documentId}" d) "{wvm}" w)
    "{wvmid}" i
  = "onshape://document/" ++ (d ++ ("/" ++ (w ++ ("/" ++ i)))).
Proof.
  intros Hd Hw Hi.
  change WVM_URI_TEMPLATE
    with ("onshape://document/"
          ++ ("{documentId}" ++ ("/" ++ ("{wvm}" ++ ("/" ++ ("{wvmid}" ++ "")))))).
  fill "documentId}" ["onshape://document/"] ("/" ++ ("{wvm}" ++ ("/" ++ ("{wvmid}" ++ "")))) d.
  fill "wvm}" ["onshape://document/"; d; "/"] ("/" ++ ("{wvmid}" ++ "")) w.
  fill "wvmid}" ["onshape://document/"; d; "/"; w; "/"] "" i.
  now rewrite append_nil_r.
Qed.

Lemma element_raw (d w i e : string) :
  all_chars id_char d = true -> all_chars id_char w = true ->
  all_chars id_char i = true -> all_chars id_char e = true ->
  String_replace
    (String_replace
       (String_replace (String_replace ELEMENT_URI_TEMPLATE "{documentId}" d) "{wvm}" w)
       "{wvmid}" i)
    "{elementId}" e
  = "onshape://document/" ++ (d ++ ("/" ++ (w ++ ("/" ++ (i ++ ("/element/" ++ e)))))).
Proof.
  intros Hd Hw Hi He.
  change ELEMENT_URI_TEMPLATE
    with ("onshape://document/"
          ++ ("{documentId}"
              ++ ("/" ++ ("{wvm}" ++ ("/" ++ ("{wvmid}"
                                              ++ ("/element/" ++ ("{elementId}" ++ "")))))))).
  fill "documentId}" ["onshape://document/"]
       ("/" ++ ("{wvm}" ++ ("/" ++ ("{wvmid}" ++ ("/element/" ++ ("{elementId}" ++ "")))))) d.
  fill "wvm}" ["onshape://document/"; d; "/"]
       ("/" ++ ("{wvmid}" ++ ("/element/" ++ ("{elementId}" ++ "")))) w.
  fill "wvmid}" ["onshape://document/"; d; "/"; w; "/"]
       ("/element/" ++ ("{elementId}" ++ "")) i.
  fill "elementId}" ["onshape://document/"; d; "/"; w; "/"; i; "/element/"] "" e.
  now rewrite append_nil_r.
Qed.

Lemma part_raw (d w i e p : string) :
  all_chars id_char d = true -> all_chars id_char w = true ->
  all_chars id_char i = true -> all_chars id_char e = true ->
  all_chars id_char p = true ->
  String_replace
    (String_replace
       (String_replace
          (String_replace (String_replace PART_URI_TEMPLATE "{documentId}" d) "{wvm}" w)
          "{wvmid}" i)
       "{elementId}" e)
    "{partId}" p
  = "onshape://document/"
    ++ (d ++ ("/" ++ (w ++ ("/" ++ (i ++ ("/element/" ++ (e ++ ("/part/" ++ p)))))))).
Proof.
  intros Hd Hw Hi He Hp.
  change PART_URI_TEMPLATE
    with ("onshape://document/"
          ++ ("{documentId}"
              ++ ("/" ++ ("{wvm}" ++ ("/" ++ ("{wvmid}"
                 ++ ("/element/" ++ ("{elementId}" ++ ("/part/" ++ ("{partId}" ++ "")))))))))).
  fill "documentId}" ["onshape://document/"]
       ("/" ++ ("{wvm}" ++ ("/" ++ ("{wvmid}"
          ++ ("/element/" ++ ("{elementId}" ++ ("/part/" ++ ("{partId}" ++ "")))))))) d.
  fill "wvm}" ["onshape://document/"; d; "/"]
       ("/" ++ ("{wvmid}" ++ ("/element/" ++ ("{elementId}" ++ ("/part/" ++ ("{partId}" ++ "")))))) w.
  fill "wvmid}" ["onshape://document/"; d; "/"; w; "/"]
       ("/element/" ++ ("{elementId}" ++ ("/part/" ++ ("{partId}" ++ "")))) i.
  fill "elementId}" ["onshape://document/"; d; "/"; w; "/"; i; "/element/"]
       ("/part/" ++ ("{partId}" ++ "")) e.
  fill "partId}" ["onshape://document/"; d; "/"; w; "/"; i; "/element/"; e; "/part/"] "" p.
  now rewrite append_nil_r.
Qed.

Lemma segments_last (d : string) : all_chars id_char d = true -> segments d = [d].
Proof.
  induction d as [| c d IH]; cbn; [reflexivity |].
  intros H. apply andb_true_iff in H as [Hc Hd].
  rewrite (id_char_not_slash c Hc). now rewrite (IH Hd).
Qed.

Lemma segments_cons (d rest : string) :
  all_chars id_char d = true -> segments (d ++ String "/" rest) = d :: segments rest.
Proof.
  induction d as [| c d IH]; cbn; [reflexivity |].
  intros H. apply andb_true_iff in H as [Hc Hd].
  rewrite (id_char_not_slash c Hc). now rewrite (IH Hd).
Qed.

Lemma plain_id_spec (s : string) :
  plain_id s = true -> present s = true /\ all_chars id_char s = true.
Proof. unfold plain_id. intros H. now apply andb_true_iff in H. Qed.

Lemma plain_path (s : string) :
  all_chars id_char s = true ->
  all_chars (fun c => (id_char c || Ascii.eqb c "/")%bool) s = true.
Proof. apply all_chars_weaken. intros c Hc. now rewrite Hc. Qed.

Lemma segments_slash (d rest : string) :
  all_chars id_char d = true -> segments (d ++ ("/" ++ rest)) = d :: segments rest.
Proof. apply segments_cons. Qed.

Lemma segments_element (d rest : string) :
  all_chars id_char d = true ->
  segments (d ++ ("/element/" ++ rest)) = d :: "element" :: segments rest.
Proof.
  intros Hd. change ("/element/" ++ rest) with (String "/" ("element" ++ String "/" rest)).
  rewrite (segments_cons d _ Hd). now rewrite (segments_cons "element" rest eq_refl).
Qed.

Lemma segments_part (d rest : string) :
  all_chars id_char d = true ->
  segments (d ++ ("/part/" ++ rest)) = d :: "part" :: segments rest.
Proof.
  intros Hd. change ("/part/" ++ rest) with (String "/" ("part" ++ String "/" rest)).
  rewrite (segments_cons d _ Hd). now rewrite (segments_cons "part" rest eq_refl).
Qed.

Ltac plain_path :=
  repeat rewrite all_chars_app;
  repeat (apply andb_true_intro; split);
  first [ reflexivity | apply plain_path; assumption ].

Ltac split_plain H :=
  repeat match type of H with
         | (_ && _)%bool = true => apply andb_true_iff in H; destruct H as [H ?]
         end;
  repeat match goal with
         | Hp : plain_id _ = true |- _ => apply plain_id_spec in Hp; destruct Hp
         end.

Ltac use_present :=
  repeat match goal with
         | Hp : present _ = true |- _ => rewrite Hp; clear Hp
         end.

(** C6, as the locator can have it.  For every address of each of the four
    shapes whose identifiers are plain (non-empty, made of letters, digits,
    [-] and [_]), on a platform whose [URL] leaves such URIs unchanged,
    parsing the URI built from the address gives the address back. *)
Theorem parse_build_roundtrip {RT : Runtime} (a : Address) :
  keeps_plain_uris RT -> plain_address a = true -> parse_build a = Some a.
Proof.
  intros Hurl Hplain. unfold parse_build.
  destruct a as [d | d sel | d sel e | d sel e p]; cbn [plain_address build_uri] in *;
    split_plain Hplain;
    try assert (Hw : all_chars id_char (selector_token sel) = true)
      by (destruct sel; reflexivity).
  - unfold doc_uri. rewrite doc_raw by assumption.
    rewrite Hurl by plain_path.
    unfold parse_uri. rewrite strip_prefix_app.
    rewrite segments_last by assumption.
    use_present. reflexivity.
  - unfold wvm_uri. rewrite wvm_raw by assumption.
    rewrite Hurl by plain_path.
    unfold parse_uri. rewrite strip_prefix_app.
    rewrite !segments_slash, segments_last by assumption.
    use_present. destruct sel; reflexivity.
  - unfold element_uri. rewrite element_raw by assumption.
    rewrite Hurl by plain_path.
    unfold parse_uri. rewrite strip_prefix_app.
    rewrite !segments_slash, segments_element, segments_last by assumption.
    use_present. destruct sel; reflexivity.
  - unfold part_uri. rewrite part_raw by assumption.
    rewrite Hurl by plain_path.
    unfold parse_uri. rewrite strip_prefix_app.
    rewrite !segments_slash, segments_element, segments_part, segments_last by assumption.
    use_present. destruct sel; reflexivity.
Qed.

Lemma parse_build_roundtrip_witness :
  @parse_build rt (AtPart "D1" (Version "V1") "E1" "P1")
  = Some (AtPart "D1" (Version "V1") "E1" "P1").
Proof.
  apply (@parse_build_roundtrip rt (AtPart "D1" (Version "V1") "E1" "P1")).
  - intros path _. reflexivity.
  - reflexivity.
Defined.

(** C6, as stated, fails: identifiers are arbitrary strings and are
    substituted as they are, so the document address with identifier
    [a/w/b] and the workspace address [a], [b] build the same URI, and the
    former does not parse back to itself. *)
Lemma roundtrip_fails_on_slash :
  @parse_build rt (AtDocument "a/w/b") <> Some (AtDocument "a/w/b")
  /\ @build_uri rt (AtDocument "a/w/b") = @build_uri rt (AtState "a" (Workspace "b")).
Proof. split; [vm_compute; discriminate | vm_compute; reflexivity]. Qed.

(** * Further properties of the handlers *)

(** ** How many requests a handler sends, and of which kind *)

Section SendsFacts.
Context {RT : Runtime} {BE : Backend} {L : Type}.

Lemma sends_keeps {A} (P : Request -> Prop) (n : nat) (c : M L A) :
  keeps_sent c -> sends P n c.
Proof.
  intros H s. exists []. rewrite H, app_nil_r. repeat split; [cbn; lia | constructor].
Qed.

Lemma sends_bind_pure {A B} (P : Request -> Prop) (n : nat) (c : M L A) (k : A -> M L B) :
  keeps_sent c -> (forall a, sends P n (k a)) -> sends P n (bind c k).
Proof.
  intros Hc Hk s. unfold bind. specialize (Hc s).
  destruct (c s) as [[e | a] s1]; cbn in *.
  - exists []. rewrite Hc, app_nil_r. repeat split; [cbn; lia | constructor].
  - destruct (Hk a s1) as (rest & H1 & H2 & H3). exists rest. now rewrite H1, Hc.
Qed.

Lemma sends_bind_request {B} (P : Request -> Prop) (n : nat) (method path : string)
    (body : jsval) (q : option (list (string * string))) (k : jsval -> M L B) :
  P (request_options method (request_url path q) body) ->
  (forall v, sends P n (k v)) ->
  sends P (S n) (bind (onshapeApiRequest method path body q) k).
Proof.
  intros HP Hk s. unfold bind.
  pose proof (sent_onshapeApiRequest method path body q s) as Hs.
  destruct (onshapeApiRequest method path body q s) as [[e | v] s1]; cbn in *.
  - eexists. split; [exact Hs |]. split; [cbn; lia | repeat constructor; exact HP].
  - destruct (Hk v s1) as (rest & H1 & H2 & H3).
    exists (request_options method (request_url path q) body :: rest).
    rewrite H1, Hs, <- app_assoc. repeat split; [cbn; lia | constructor; assumption].
Qed.

Lemma sends_try_catch {A} (P : Request -> Prop) (n : nat) (body : M L A)
    (handler : Error -> M L A) :
  sends P n body -> (forall e, keeps_sent (handler e)) -> sends P n (try_catch body handler).
Proof.
  intros Hb Hh s. destruct (Hb s) as (rest & H1 & H2 & H3). exists rest.
  rewrite sent_after_try by assumption. auto.
Qed.

Lemma keeps_find_by_name (items : list jsval) (name : string) :
  keeps_sent (@find_by_name RT L items name).
Proof. induction items as [| x items IH]; cbn; keeps. apply IH. Qed.

Lemma keeps_filter_with_entities (sketches : list jsval) :
  keeps_sent (@filter_with_entities RT L sketches).
Proof.
  induction sketches as [| x rest IH]; cbn; keeps; try apply keeps_nonempty. apply IH.
Qed.

Lemma sends_bind_tail_pure {A B} (P : Request -> Prop) (n : nat) (c : M L A) (k : A -> M L B) :
  sends P n c -> (forall a, keeps_sent (k a)) -> sends P n (bind c k).
Proof.
  intros Hc Hk s. destruct (Hc s) as (rest & H1 & H2 & H3). exists rest.
  rewrite sent_after_bind by assumption. auto.
Qed.

End SendsFacts.

Ltac unfold_helpers :=
  progress unfold for_each_text, nonempty, get, get_opt, destructurable, append_notices,
    append_bounding_box, length_or_zero, append_example_instances, append_example_parts,
    append_configuration_parameter, append_part_property, describe_first_entity,
    append_feature_state, feature_in_error, metadata_missing, build_featureDefinitionCall.

Ltac pure :=
  repeat first
    [ apply keeps_find_by_name | apply keeps_filter_with_entities
    | apply keeps_ret | apply keeps_throw | apply keeps_lift
    | apply keeps_console | apply keeps_get_local | apply keeps_set_local
    | apply keeps_fold_text; intros
    | apply keeps_bind; [| intros]
    | apply keeps_try_catch; [| intros]
    | match goal with
      | |- keeps_sent (if ?b then _ else _) => destruct b
      | |- keeps_sent (match ?x with _ => _ end) => destruct x
      | |- keeps_sent (let _ := _ in _) => cbv zeta
      end
    | unfold_helpers ].

Ltac method_ok :=
  unfold uses_method, request_options; cbn [req_method In];
  first [ left; reflexivity | right; left; reflexivity ].

Ltac sends_steps :=
  repeat first
    [ apply sends_try_catch; [| intros; solve [pure]]
    | apply sends_bind_request; [solve [method_ok] | intros]
    | apply sends_bind_pure; [solve [pure] | intros]
    | apply sends_bind_tail_pure; [| intros; solve [pure]]
    | match goal with
      | |- sends _ _ (if ?b then _ else _) => destruct b
      | |- sends _ _ (match ?x with _ => _ end) => destruct x
      | |- sends _ _ (let _ := _ in _) => cbv zeta
      end
    | apply sends_keeps; solve [pure] ].

Ltac head_of t := lazymatch t with ?f _ => head_of f | _ => t end.

Lemma handler_profile {RT : Runtime} {BE : Backend} (h : Handler) :
  In h registry ->
  forall args, sends (uses_method (methods_of (h_name h))) (requests_of (h_name h))
                 (h_run h args).
Proof.
  intros Hin. unfold registry in Hin.
  repeat (destruct Hin as [<- | Hin];
          [ intros args; unfold h_run;
            cbn [h_name h_try h_catch h_locals h_args resource_handler tool_handler];
            unfold methods_of, requests_of; cbn [String.eqb Ascii.eqb Bool.eqb]
          | ]); [.. | destruct Hin].
  all: apply sends_try_catch; [| intros; solve [pure]].
  all: match goal with |- sends _ _ ?c => let f := head_of c in unfold f end.
  all: solve [sends_steps].
Qed.

(** X1.  No registered handler sends more than two requests in one
    invocation: nothing is retried and nothing is polled. *)
Theorem handlers_send_at_most_two_requests {RT : Runtime} {BE : Backend} (h : Handler) :
  In h registry ->
  forall (args : h_args h) (s : State (h_locals h)),
    exists rest,
      sent (snd (h_run h args s)) = (sent s ++ rest)%list /\ (List.length rest <= 2)%nat.
Proof.
  intros Hin args s. destruct (handler_profile h Hin args s) as (rest & H1 & H2 & _).
  exists rest. split; [assumption |].
  assert (Hle : (requests_of (h_name h) <= 2)%nat).
  { unfold requests_of. repeat match goal with |- context [if ?b then _ else _] => destruct b end; lia. }
  lia.
Qed.

Lemma handlers_send_at_most_two_requests_witness :
  exists rest,
    sent (snd (@add_part_studio_feature rt be_skew sample_add (start None [] [])))
    = ([] ++ rest)%list /\ (List.length rest <= 2)%nat.
Proof.
  apply (@handlers_send_at_most_two_requests rt be_skew
           (mkHandler "add_part_studio_feature" Tool AddPartStudioFeatureParams
              (option jsval) None
              (@add_part_studio_feature_try rt be_skew)
              (@add_part_studio_feature_catch rt))
           ltac:(unfold registry; cbn; do 11 right; left; reflexivity)
           sample_add (start None [] [])).
Defined.

(** X2.  The four resource handlers and the ten listing and reading tools
    (every handler but the eight tools of [write_tools]) only ever send [GET]
    requests: reading never writes to the backend. *)
Theorem read_handlers_only_send_get {RT : Runtime} {BE : Backend} (h : Handler) :
  In h registry ->
  ~ In (h_name h) write_tools ->
  forall (args : h_args h) (s : State (h_locals h)),
    exists rest,
      sent (snd (h_run h args s)) = (sent s ++ rest)%list
      /\ Forall (fun r => req_method r = "GET") rest.
Proof.
  intros Hin Hread args s.
  destruct (handler_profile h Hin args s) as (rest & H1 & _ & H3).
  exists rest. split; [assumption |].
  assert (Hm : methods_of (h_name h) = ["GET"]).
  { unfold registry in Hin.
    repeat (destruct Hin as [<- | Hin];
            [ first [ reflexivity
                    | exfalso; apply Hread; unfold write_tools; cbn [h_name tool_handler In];
                      tauto ]
            | ]).
    destruct Hin. }
  rewrite Hm in H3. revert H3. apply Forall_impl.
  intros r [Hr | []]. now symmetry.
Qed.

Lemma read_handlers_only_send_get_witness :
  exists rest,
    sent (snd (@list_elements rt be_down unit
                 {| le_documentId := "D1"; le_wvm := V; le_wvmid := "V1";
                    le_elementType := None |} (start tt [] [])))
    = ([] ++ rest)%list
    /\ Forall (fun r => req_method r = "GET") rest.
Proof.
  apply (@read_handlers_only_send_get rt be_down
           (tool_handler "list_elements" ListElementsParams
              (@list_elements_try rt be_down unit) (@list_elements_catch unit))
           ltac:(unfold registry; cbn; do 5 right; left; reflexivity)).
  unfold write_tools. cbn. intros H.
  repeat (destruct H as [H | H]; [discriminate H |]). exact H.
Defined.

(** ** The mutation handlers, request by request *)

Section MutationPattern.
Context {RT : Runtime} {BE : Backend}.

Lemma read_throws {L} (d w e : string) (l : L) (reqs : list Request) (out : list string)
    (err : Error) :
  outcome_value (fetch_outcome reqs (read_request d w e)) = inl err ->
  onshapeApiRequest "GET" (features_path d w e) JUndefined None (mkState l reqs out)
  = (inl err,
     mkState l (reqs ++ [read_request d w e])
       (out ++ ["Error during Onshape API request to "
                ++ request_url (features_path d w e) None ++ ": " ++ Error_toString err])).
Proof.
  intros H.
  exact (onshapeApiRequest_throws "GET" (features_path d w e) JUndefined None
           (mkState l reqs out) err H).
Qed.

Lemma add_write_throws {L} (pa : AddPartStudioFeatureParams) (payload : jsval) (l : L)
    (reqs : list Request) (out : list string) (err : Error) :
  outcome_value (fetch_outcome reqs (add_write_request pa payload)) = inl err ->
  onshapeApiRequest "POST"
    (features_path (apf_documentId pa) (apf_workspaceId pa) (apf_elementId pa))
    payload None (mkState l reqs out)
  = (inl err,
     mkState l (reqs ++ [add_write_request pa payload])
       (out ++ ["Error during Onshape API request to "
                ++ request_url (features_path (apf_documentId pa) (apf_workspaceId pa)
                                  (apf_elementId pa)) None
                ++ ": " ++ Error_toString err])).
Proof.
  intros H.
  exact (onshapeApiRequest_throws "POST" _ payload None (mkState l reqs out) err H).
Qed.

Lemma update_write_throws {L} (pu : UpdatePartStudioFeatureParams) (payload : jsval) (l : L)
    (reqs : list Request) (out : list string) (err : Error) :
  outcome_value (fetch_outcome reqs (update_write_request pu payload)) = inl err ->
  onshapeApiRequest "POST"
    (feature_path (upf_documentId pu) (upf_workspaceId pu) (upf_elementId pu)
       (upf_featureId pu))
    payload None (mkState l reqs out)
  = (inl err,
     mkState l (reqs ++ [update_write_request pu payload])
       (out ++ ["Error during Onshape API request to "
                ++ request_url (feature_path (upf_documentId pu) (upf_workspaceId pu)
                                  (upf_elementId pu) (upf_featureId pu)) None
                ++ ": " ++ Error_toString err])).
Proof.
  intros H.
  exact (onshapeApiRequest_throws "POST" _ payload None (mkState l reqs out) err H).
Qed.

End MutationPattern.

Ltac run_read Hread :=
  first [ rewrite (bind_inr _ _ _ _ _ (read_returns _ _ _ _ _ _ _ Hread))
        | rewrite (bind_inl _ _ _ _ _ (read_throws _ _ _ _ _ _ _ Hread)) ].

Ltac run_stamped Hst :=
  rewrite (bind_inr _ _ _ _ _ (metadata_missing_run _ _));
  rewrite Hst; cbn [negb];
  rewrite (bind_inr _ _ _ _ _ (eq_refl : ret tt _ = (inr tt, _)));
  rewrite (bind_inr _ _ _ _ _
             (build_featureDefinitionCall_run _ _ _ (stamps_present_truthy _ Hst))).

(** X3.  The requests of one add or update are fully determined: the read of
    the feature list always goes out first; exactly one write follows it when
    that read returned a snapshot with all three stamps, and nothing follows
    it otherwise.  A write is never sent without the read having succeeded,
    and no request is repeated. *)
Theorem mutation_sends_read_then_at_most_one_write {RT : Runtime} {BE : Backend} {L : Type}
    (pa : AddPartStudioFeatureParams) (pu : UpdatePartStudioFeatureParams) (l : L)
    (reqs : list Request) (out : list string) :
  (let rd := read_request (apf_documentId pa) (apf_workspaceId pa) (apf_elementId pa) in
   sent (snd (add_part_studio_feature pa (start None reqs out)))
   = (reqs ++ rd ::
        match outcome_value (fetch_outcome reqs rd) with
        | inr cf =>
            if stamps_present cf
            then [add_write_request pa (stamped_payload (apf_feature pa) cf)]
            else []
        | inl _ => []
        end)%list)
  /\ (let rd := read_request (upf_documentId pu) (upf_workspaceId pu) (upf_elementId pu) in
      sent (snd (update_part_studio_feature pu (start l reqs out)))
      = (reqs ++ rd ::
           match outcome_value (fetch_outcome reqs rd) with
           | inr cf =>
               if stamps_present cf
               then [update_write_request pu (stamped_payload (upf_feature pu) cf)]
               else []
           | inl _ => []
           end)%list).
Proof.
  split; cbv zeta.
  - destruct (outcome_value (fetch_outcome reqs (read_request _ _ _))) as [err | cf] eqn:Hread.
    + unfold add_part_studio_feature, add_part_studio_feature_try,
        add_part_studio_feature_catch, try_catch, start.
      run_read Hread. reflexivity.
    + destruct (stamps_present cf) eqn:Hst.
      * now apply add_sent_after_read.
      * unfold add_part_studio_feature, add_part_studio_feature_try,
          add_part_studio_feature_catch, try_catch, start.
        run_read Hread.
        rewrite (bind_inr _ _ _ _ _ (metadata_missing_run _ _)). rewrite Hst. reflexivity.
  - destruct (outcome_value (fetch_outcome reqs (read_request _ _ _))) as [err | cf] eqn:Hread.
    + unfold update_part_studio_feature, update_part_studio_feature_try,
        update_part_studio_feature_catch, try_catch, start.
      run_read Hread. reflexivity.
    + destruct (stamps_present cf) eqn:Hst.
      * now apply update_sent_after_read.
      * unfold update_part_studio_feature, update_part_studio_feature_try,
          update_part_studio_feature_catch, try_catch, start.
        run_read Hread.
        rewrite (bind_inr _ _ _ _ _ (metadata_missing_run _ _)). rewrite Hst. reflexivity.
Qed.

Ltac open_add :=
  unfold add_part_studio_feature, add_part_studio_feature_try,
    add_part_studio_feature_catch, try_catch, start.

Ltac open_update :=
  unfold update_part_studio_feature, update_part_studio_feature_try,
    update_part_studio_feature_catch, try_catch, start.

(** X4.  When the read that opens an add or an update fails (the request is
    rejected, the status is not a success, or the body is not JSON), the
    handler answers in band with that failure's message, has sent the read
    and nothing else, and has logged two lines: the transport's and its own.
    The add handler's text ends in [undefined], the payload not having been
    built yet. *)
Theorem read_failure_is_reported_without_write {RT : Runtime} {BE : Backend} {L : Type}
    (pa : AddPartStudioFeatureParams) (pu : UpdatePartStudioFeatureParams) (l : L)
    (reqs : list Request) (out : list string) (e : Error) :
  (let rd := read_request (apf_documentId pa) (apf_workspaceId pa) (apf_elementId pa) in
   outcome_value (fetch_outcome reqs rd) = inl e ->
   add_part_studio_feature pa (start None reqs out)
   = (inr (tool_error ("Error adding feature: " ++ err_message e ++ "  + " ++ "undefined")),
      mkState None (reqs ++ [rd])
        (out ++ ["Error during Onshape API request to " ++ req_url rd ++ ": "
                 ++ Error_toString e;
                 "Error adding feature: " ++ err_message e])))
  /\ (let rd := read_request (upf_documentId pu) (upf_workspaceId pu) (upf_elementId pu) in
      outcome_value (fetch_outcome reqs rd) = inl e ->
      update_part_studio_feature pu (start l reqs out)
      = (inr (tool_error ("Error updating feature " ++ upf_featureId pu ++ ": "
                          ++ err_message e)),
         mkState l (reqs ++ [rd])
           (out ++ ["Error during Onshape API request to " ++ req_url rd ++ ": "
                    ++ Error_toString e;
                    "Error updating feature " ++ upf_featureId pu ++ ": "
                    ++ err_message e]))).
Proof.
  split; cbv zeta; intros Hread.
  - open_add. run_read Hread.
    unfold bind, console_error, get_local, ret. cbn. now rewrite <- app_assoc.
  - open_update. run_read Hread.
    unfold bind, console_error, ret. cbn. now rewrite <- app_assoc.
Qed.

Lemma read_failure_is_reported_without_write_witness :
  @add_part_studio_feature rt be_down sample_add (start None [] [])
  = (inr (tool_error ("Error adding feature: " ++ "network unreachable" ++ "  + "
                      ++ "undefined")),
     mkState None
       ([] ++ [@read_request rt "D1" "W1" "E1"])
       ([] ++ ["Error during Onshape API request to "
               ++ req_url (@read_request rt "D1" "W1" "E1") ++ ": "
               ++ "FetchError: network unreachable";
               "Error adding feature: " ++ "network unreachable"]))
  /\ @update_part_studio_feature rt be_down unit sample_update (start tt [] [])
     = (inr (tool_error ("Error updating feature " ++ "F1" ++ ": " ++ "network unreachable")),
        mkState tt
          ([] ++ [@read_request rt "D1" "W1" "E1"])
          ([] ++ ["Error during Onshape API request to "
                  ++ req_url (@read_request rt "D1" "W1" "E1") ++ ": "
                  ++ "FetchError: network unreachable";
                  "Error updating feature " ++ "F1" ++ ": " ++ "network unreachable"])).
Proof.
  destruct (@read_failure_is_reported_without_write rt be_down unit sample_add sample_update
              tt [] [] (mkError "FetchError" "network unreachable")) as [Ha Hu].
  split; [exact (Ha eq_refl) | exact (Hu eq_refl)].
Defined.

(** X5.  When the read succeeded with a stamped snapshot and the write fails,
    the handler answers in band with the write's failure message and has sent
    exactly the read and that one write: the write is not retried.  The add
    handler appends the indented JSON text of the payload it tried to send;
    the update handler reports the message only. *)
Theorem write_failure_is_reported_once {RT : Runtime} {BE : Backend} {L : Type}
    (pa : AddPartStudioFeatureParams) (pu : UpdatePartStudioFeatureParams) (l : L)
    (reqs : list Request) (out : list string) (cf : jsval) (e : Error) :
  stamps_present cf = true ->
  (let rd := read_request (apf_documentId pa) (apf_workspaceId pa) (apf_elementId pa) in
   let payload := stamped_payload (apf_feature pa) cf in
   let wr := add_write_request pa payload in
   outcome_value (fetch_outcome reqs rd) = inr cf ->
   outcome_value (fetch_outcome (reqs ++ [rd]) wr) = inl e ->
   add_part_studio_feature pa (start None reqs out)
   = (inr (tool_error ("Error adding feature: " ++ err_message e ++ "  + "
                       ++ JSON_stringify_indent2 payload)),
      mkState (Some payload) (reqs ++ [rd; wr])
        (out ++ ["Error during Onshape API request to " ++ req_url wr ++ ": "
                 ++ Error_toString e;
                 "Error adding feature: " ++ err_message e])))
  /\ (let rd := read_request (upf_documentId pu) (upf_workspaceId pu) (upf_elementId pu) in
      let payload := stamped_payload (upf_feature pu) cf in
      let wr := update_write_request pu payload in
      outcome_value (fetch_outcome reqs rd) = inr cf ->
      outcome_value (fetch_outcome (reqs ++ [rd]) wr) = inl e ->
      update_part_studio_feature pu (start l reqs out)
      = (inr (tool_error ("Error updating feature " ++ upf_featureId pu ++ ": "
                          ++ err_message e)),
         mkState l (reqs ++ [rd; wr])
           (out ++ ["Error during Onshape API request to " ++ req_url wr ++ ": "
                    ++ Error_toString e;
                    "Error updating feature " ++ upf_featureId pu ++ ": "
                    ++ err_message e]))).
Proof.
  intros Hst. split; cbv zeta; intros Hread Hwrite.
  - open_add. run_read Hread. run_stamped Hst.
    rewrite (bind_inr _ _ _ _ _ (eq_refl : set_local _ _ = (inr tt, _))).
    cbn [locals sent console].
    rewrite (bind_inl _ _ _ _ _ (add_write_throws _ _ _ _ _ _ Hwrite)).
    unfold bind, console_error, get_local, ret. cbn. now rewrite <- !app_assoc.
  - open_update. run_read Hread. run_stamped Hst.
    rewrite (bind_inl _ _ _ _ _ (update_write_throws _ _ _ _ _ _ Hwrite)).
    unfold bind, console_error, ret. cbn. now rewrite <- !app_assoc.
Qed.

Lemma write_failure_is_reported_once_witness :
  @add_part_studio_feature rt be_write_down sample_add (start None [] [])
  = (inr (tool_error ("Error adding feature: " ++ "network unreachable" ++ "  + "
                      ++ ref_stringify (@stamped_payload rt sample_feature snapshot_full))),
     mkState (Some (@stamped_payload rt sample_feature snapshot_full))
       ([] ++ [@read_request rt "D1" "W1" "E1";
               @add_write_request rt sample_add
                 (@stamped_payload rt sample_feature snapshot_full)])
       ([] ++ ["Error during Onshape API request to "
               ++ req_url (@add_write_request rt sample_add
                             (@stamped_payload rt sample_feature snapshot_full)) ++ ": "
               ++ "FetchError: network unreachable";
               "Error adding feature: " ++ "network unreachable"]))
  /\ @update_part_studio_feature rt be_write_down unit sample_update (start tt [] [])
     = (inr (tool_error ("Error updating feature " ++ "F1" ++ ": " ++ "network unreachable")),
        mkState tt
          ([] ++ [@read_request rt "D1" "W1" "E1";
                  @update_write_request rt sample_update
                    (@stamped_payload rt sample_feature snapshot_full)])
          ([] ++ ["Error during Onshape API request to "
                  ++ req_url (@update_write_request rt sample_update
                                (@stamped_payload rt sample_feature snapshot_full)) ++ ": "
                  ++ "FetchError: network unreachable";
                  "Error updating feature " ++ "F1" ++ ": " ++ "network unreachable"])).
Proof.
  destruct (@write_failure_is_reported_once rt be_write_down unit sample_add sample_update
              tt [] [] snapshot_full (mkError "FetchError" "network unreachable") eq_refl)
    as [Ha Hu].
  split; [exact (Ha eq_refl eq_refl) | exact (Hu eq_refl eq_refl)].
Defined.

(** ** What the answers depend on *)

Section StatelessFacts.
Context {RT : Runtime} {L : Type}.

Lemma stateless_ret {A} (a : A) : stateless (@ret L A a).
Proof. exists (inr a). reflexivity. Qed.

Lemma stateless_throw {A} (e : Error) : stateless (@throw L A e).
Proof. exists (inl e). reflexivity. Qed.

Lemma stateless_lift {A} (r : Error + A) : stateless (@lift L A r).
Proof. destruct r; [apply stateless_throw | apply stateless_ret]. Qed.

Lemma stateless_bind {A B} (c : M L A) (k : A -> M L B) :
  stateless c -> (forall a, stateless (k a)) -> stateless (bind c k).
Proof.
  intros [[e | a] Hc] Hk.
  - exists (inl e). intro s. unfold bind. now rewrite Hc.
  - destruct (Hk a) as [r Hr]. exists r. intro s. unfold bind. now rewrite Hc.
Qed.

Lemma stateless_fold_text {A} (l : list A) (f : A -> string -> M L string) :
  (forall x acc, stateless (f x acc)) -> forall acc, stateless (fold_text l f acc).
Proof.
  intros Hf. induction l as [| x rest IH]; intro acc; cbn.
  - apply stateless_ret.
  - apply stateless_bind; auto.
Qed.

End StatelessFacts.

Ltac stateless_steps :=
  repeat first
    [ apply stateless_ret | apply stateless_throw | apply stateless_lift
    | apply stateless_fold_text; intros
    | apply stateless_bind; [| intros]
    | match goal with
      | |- stateless (if ?b then _ else _) => destruct b
      | |- stateless (match ?x with _ => _ end) => destruct x
      | |- stateless (let _ := _ in _) => cbv zeta
      end
    | unfold_helpers ].

Section ReportFacts.
Context {RT : Runtime} {BE : Backend} {L : Type}.

Lemma stateless_append_feature_state (response : jsval) (warning acc : string) :
  stateless (@append_feature_state RT L response warning acc).
Proof. stateless_steps. Qed.

(** The report reads [featureState] and [notices] of the response and
    nothing else. *)
Lemma append_feature_state_agree (r1 r2 : jsval) (warning acc : string) (s : State L) :
  nullish r1 = false -> nullish r2 = false ->
  prop r1 "featureState" = prop r2 "featureState" ->
  prop r1 "notices" = prop r2 "notices" ->
  append_feature_state r1 warning acc s = append_feature_state r2 warning acc s.
Proof.
  intros H1 H2 Hfs Hn. unfold append_feature_state, feature_in_error, get.
  rewrite !(get_prop_defined r1) by assumption.
  rewrite !(get_prop_defined r2) by assumption.
  rewrite Hfs, Hn. reflexivity.
Qed.

End ReportFacts.

(** X6.  What an update answers after a successful write depends on three
    fields of the write response only: [sourceMicroversion], [featureState]
    and [notices].  Two runs whose write responses agree on these three
    answer the same, whatever else the responses, the snapshots read and the
    earlier requests were; in particular a [microversionSkew] flag in the
    response cannot change the answer. *)
Theorem update_answer_reads_three_fields {RT : Runtime} (BE1 BE2 : Backend) {L : Type}
    (pu : UpdatePartStudioFeatureParams) (l : L)
    (reqs1 reqs2 : list Request) (out1 out2 : list string) (cf1 cf2 r1 r2 : jsval) :
  let rd := read_request (upf_documentId pu) (upf_workspaceId pu) (upf_elementId pu) in
  stamps_present cf1 = true ->
  stamps_present cf2 = true ->
  outcome_value (@fetch_outcome BE1 reqs1 rd) = inr cf1 ->
  outcome_value (@fetch_outcome BE2 reqs2 rd) = inr cf2 ->
  outcome_value (@fetch_outcome BE1 (reqs1 ++ [rd])
                   (update_write_request pu (stamped_payload (upf_feature pu) cf1))) = inr r1 ->
  outcome_value (@fetch_outcome BE2 (reqs2 ++ [rd])
                   (update_write_request pu (stamped_payload (upf_feature pu) cf2))) = inr r2 ->
  nullish r1 = false ->
  nullish r2 = false ->
  prop r1 "sourceMicroversion" = prop r2 "sourceMicroversion" ->
  prop r1 "featureState" = prop r2 "featureState" ->
  prop r1 "notices" = prop r2 "notices" ->
  fst (@update_part_studio_feature RT BE1 L pu (start l reqs1 out1))
  = fst (@update_part_studio_feature RT BE2 L pu (start l reqs2 out2)).
Proof.
  cbv zeta. intros Hst1 Hst2 Hrd1 Hrd2 Hwr1 Hwr2 Hn1 Hn2 Hmv Hfs Hno.
  open_update.
  rewrite (bind_inr _ _ _ _ _ (@read_returns RT BE1 _ _ _ _ _ _ _ _ Hrd1)).
  rewrite (bind_inr _ _ _ _ _ (@read_returns RT BE2 _ _ _ _ _ _ _ _ Hrd2)).
  rewrite !(bind_inr _ _ _ _ _ (metadata_missing_run _ _)).
  rewrite Hst1, Hst2. cbn [negb].
  rewrite !(bind_inr _ _ _ _ _ (eq_refl : ret tt _ = (inr tt, _))).
  rewrite (bind_inr _ _ _ _ _
             (build_featureDefinitionCall_run _ cf1 _ (stamps_present_truthy _ Hst1))).
  rewrite (bind_inr _ _ _ _ _
             (build_featureDefinitionCall_run _ cf2 _ (stamps_present_truthy _ Hst2))).
  rewrite (bind_inr _ _ _ _ _ (@update_write_returns RT BE1 _ _ _ _ _ _ _ Hwr1)).
  rewrite (bind_inr _ _ _ _ _ (@update_write_returns RT BE2 _ _ _ _ _ _ _ Hwr2)).
  rewrite (bind_inr _ _ _ _ _ (get_defined r1 "sourceMicroversion" _ Hn1)).
  rewrite (bind_inr _ _ _ _ _ (get_defined r2 "sourceMicroversion" _ Hn2)).
  rewrite Hmv. unfold bind at 1 3.
  rewrite (append_feature_state_agree r1 r2) by assumption.
  match goal with
  | |- context [append_feature_state r2 ?w ?acc _] =>
      destruct (@stateless_append_feature_state RT L r2 w acc) as [[e | t] Hr]
  end; rewrite !Hr; reflexivity.
Qed.

Lemma update_answer_reads_three_fields_witness :
  fst (@update_part_studio_feature rt_plain be_skew unit sample_update (start tt [] []))
  = fst (@update_part_studio_feature rt_plain be_plain unit sample_update (start tt [] [])).
Proof.
  apply (@update_answer_reads_three_fields rt_plain be_skew be_plain unit sample_update tt
           [] [] [] [] snapshot_full snapshot_full response_skew response_plain);
    reflexivity.
Defined.

(** ** The delete handler *)

Section NoticeFacts.
Context {RT : Runtime} {L : Type}.

Lemma concat_nil_sep_cons (x : string) (l : list string) :
  String.concat "" (x :: l) = x ++ String.concat "" l.
Proof. destruct l; cbn; [now rewrite append_nil_r | reflexivity]. Qed.

(** Reading a property of [undefined] or [null] throws. *)
Lemma get_prop_nullish (v : jsval) (k : string) :
  nullish v = true -> get_prop v k = inl (TypeError_nullish v k).
Proof. destruct v; cbn; intros H; try discriminate; reflexivity. Qed.






End NoticeFacts.



(** X8.  A delete sends exactly one request whatever the outcome: a [DELETE]
    without a body to the feature's path, the feature identifier
    URI-encoded.  It does not read the feature list first and sends no
    version stamps. *)
Theorem delete_sends_one_request_without_body {RT : Runtime} {BE : Backend} {L : Type}
    (pd : DeletePartStudioFeatureParams) (s : State L) :
  sent (snd (delete_part_studio_feature pd s)) = (sent s ++ [delete_request pd])%list
  /\ req_method (delete_request pd) = "DELETE"
  /\ req_body (delete_request pd) = None
  /\ req_url (delete_request pd)
     = ONSHAPE_API_URL ++ "/partstudios/d/" ++ dpf_documentId pd ++ "/w/"
       ++ dpf_workspaceId pd ++ "/e/" ++ dpf_elementId pd ++ "/features/featureid/"
       ++ encodeURIComponent (dpf_featureId pd).
Proof.
  split; [| split; [reflexivity | split; [reflexivity |]]].
  - unfold delete_part_studio_feature, delete_part_studio_feature_try.
    rewrite sent_after_try by (intros; solve [pure]).
    rewrite sent_after_bind by (intros; solve [pure]).
    apply sent_onshapeApiRequest.
  - unfold delete_request, request_options, request_url, feature_path. cbn [req_url].
    now rewrite append_nil_r.
Qed.

(** ** Bounding boxes *)



(** ** The resource handlers *)

Section ResourceRuns.
Context {RT : Runtime} {BE : Backend} {L : Type}.

Lemma destructurable_run (v : jsval) (s : State L) :
  nullish v = false -> destructurable v s = (inr tt, s).
Proof. intros H. unfold destructurable. now rewrite H. Qed.

End ResourceRuns.

(** X10.  The WVM resource sends one request chosen by the selector token of
    the address: [w] reads [/workspaces/<id>], [v] reads [/versions/<id>],
    [m] reads [/m/<id>/currentmicroversion].  For any other token it sends
    nothing and answers in band with [Invalid WVM type: <token>]. *)
Theorem wvm_resource_requests_by_selector {RT : Runtime} {BE : Backend} {L : Type}
    (uri : string) (context params : jsval) (t : string) (l : L) (reqs : list Request)
    (out : list string) :
  nullish context = false ->
  prop context "params" = params ->
  nullish params = false ->
  prop params "wvm" = JStr t ->
  let d := to_string (prop params "documentId") in
  let i := to_string (prop params "wvmid") in
  sent (snd (wvm_resource uri context (start l reqs out)))
  = (reqs ++
     (if String.eqb t "w" then [get_request ("/documents/d/" ++ d ++ "/workspaces/" ++ i)]
      else if String.eqb t "v" then [get_request ("/documents/d/" ++ d ++ "/versions/" ++ i)]
      else if String.eqb t "m"
           then [get_request ("/documents/d/" ++ d ++ "/m/" ++ i ++ "/currentmicroversion")]
           else []))%list
  /\ (String.eqb t "w" = false -> String.eqb t "v" = false -> String.eqb t "m" = false ->
      wvm_resource uri context (start l reqs out)
      = (inr (resource_error uri ("Error reading WVM: " ++ "Invalid WVM type: " ++ t)),
         mkState l reqs
           (out ++ ["Failed to read WVM resource " ++ uri ++ ": " ++ "Invalid WVM type: "
                    ++ t]))).
Proof.
  intros Hc Hp Hn Ht. cbv zeta.
  split.
  - unfold wvm_resource, start.
    rewrite sent_after_try by (intros; solve [pure]).
    unfold wvm_resource_try.
    rewrite (bind_inr _ _ _ _ _ (get_defined context "params" _ Hc)). rewrite Hp.
    rewrite (bind_inr _ _ _ _ _ (destructurable_run params _ Hn)).
    rewrite (bind_inr _ _ _ _ _ (get_defined params "documentId" _ Hn)).
    rewrite (bind_inr _ _ _ _ _ (get_defined params "wvm" _ Hn)).
    rewrite (bind_inr _ _ _ _ _ (get_defined params "wvmid" _ Hn)).
    rewrite Ht. cbn [call_toUpperCase lift strict_eq_str to_string].
    rewrite (bind_inr _ _ _ _ _ (eq_refl : ret _ _ = (inr _, _))).
    cbv zeta.
    rewrite sent_after_bind by (intros; solve [pure]).
    destruct (String.eqb t "w");
      [| destruct (String.eqb t "v"); [| destruct (String.eqb t "m") eqn:Hm]].
    + rewrite sent_after_bind by (intros; solve [pure]).
      apply sent_onshapeApiRequest.
    + rewrite sent_after_bind by (intros; solve [pure]).
      apply sent_onshapeApiRequest.
    + apply String.eqb_eq in Hm. subst t.
      rewrite sent_after_bind by (intros; solve [pure]).
      apply sent_onshapeApiRequest.
    + cbn. now rewrite app_nil_r.
  - intros Hw Hv Hm.
    unfold wvm_resource, try_catch, start, wvm_resource_try.
    rewrite (bind_inr _ _ _ _ _ (get_defined context "params" _ Hc)). rewrite Hp.
    rewrite (bind_inr _ _ _ _ _ (destructurable_run params _ Hn)).
    rewrite (bind_inr _ _ _ _ _ (get_defined params "documentId" _ Hn)).
    rewrite (bind_inr _ _ _ _ _ (get_defined params "wvm" _ Hn)).
    rewrite (bind_inr _ _ _ _ _ (get_defined params "wvmid" _ Hn)).
    rewrite Ht. cbn [call_toUpperCase lift strict_eq_str to_string].
    rewrite (bind_inr _ _ _ _ _ (eq_refl : ret _ _ = (inr _, _))).
    cbv zeta. rewrite Hw, Hv, Hm.
    reflexivity.
Qed.

Lemma wvm_resource_requests_by_selector_witness :
  sent (snd (@wvm_resource rt be_down unit "onshape://document/D1/x/W1" context_bad_selector
               (start tt [] [])))
  = ([] ++ [])%list
  /\ @wvm_resource rt be_down unit "onshape://document/D1/x/W1" context_bad_selector
       (start tt [] [])
     = (inr (resource_error "onshape://document/D1/x/W1"
               ("Error reading WVM: " ++ "Invalid WVM type: " ++ "x")),
        mkState tt []
          ([] ++ ["Failed to read WVM resource " ++ "onshape://document/D1/x/W1" ++ ": "
                  ++ "Invalid WVM type: " ++ "x"])).
Proof.
  destruct (@wvm_resource_requests_by_selector rt be_down unit "onshape://document/D1/x/W1"
              context_bad_selector
              (JObj [("documentId", JStr "D1"); ("wvm", JStr "x"); ("wvmid", JStr "W1")])
              "x" tt [] [] eq_refl eq_refl eq_refl eq_refl) as [Hs Ha].
  split; [exact Hs | exact (Ha eq_refl eq_refl eq_refl)].
Defined.

(** X11.  The resource handlers read the template variables from
    [context.params].  Called with a context that has no [params], each of
    the four answers in band with the [TypeError] of that read, logs one
    line, and sends no request. *)
Theorem resources_fail_without_params {RT : Runtime} {BE : Backend} {L : Type}
    (uri : string) (context : jsval) (s : State L) :
  nullish context = false ->
  nullish (prop context "params") = true ->
  let missing := prop context "params" in
  let answer (label : string) (e : Error) (what : string) :=
    (inr (resource_error uri ("Error reading " ++ label ++ ": " ++ err_message e)),
     mkState (locals s) (sent s)
       (console s ++ ["Failed to read " ++ what ++ " resource " ++ uri ++ ": "
                      ++ err_message e])) in
  document_resource uri context s
  = answer "document" (TypeError_nullish missing "documentId") "document"
  /\ wvm_resource uri context s = answer "WVM" (TypeError_destructure missing) "WVM"
  /\ element_resource uri context s
     = answer "element" (TypeError_destructure missing) "element"
  /\ part_resource uri context s = answer "part" (TypeError_destructure missing) "part".
Proof.
  intros Hc Hp. cbv zeta.
  assert (Hget : get_prop (prop context "params") "documentId"
                 = inl (TypeError_nullish (prop context "params") "documentId")).
  { destruct (prop context "params"); try discriminate Hp; reflexivity. }
  repeat split.
  - unfold document_resource, try_catch, document_resource_try.
    rewrite (bind_inr _ _ _ _ _ (get_defined context "params" s Hc)).
    unfold get at 1. rewrite Hget. reflexivity.
  - unfold wvm_resource, try_catch, wvm_resource_try.
    rewrite (bind_inr _ _ _ _ _ (get_defined context "params" s Hc)).
    unfold destructurable. rewrite Hp. reflexivity.
  - unfold element_resource, try_catch, element_resource_try.
    rewrite (bind_inr _ _ _ _ _ (get_defined context "params" s Hc)).
    unfold destructurable. rewrite Hp. reflexivity.
  - unfold part_resource, try_catch, part_resource_try.
    rewrite (bind_inr _ _ _ _ _ (get_defined context "params" s Hc)).
    unfold destructurable. rewrite Hp. reflexivity.
Qed.

Lemma resources_fail_without_params_witness :
  sent (snd (@wvm_resource rt be_down unit "onshape://document/D1/w/W1"
               context_without_params (start tt [] []))) = []
  /\ isError (match fst (@wvm_resource rt be_down unit "onshape://document/D1/w/W1"
                           context_without_params (start tt [] [])) with
              | inr r => r
              | inl _ => resource_ok "" ""
              end) = Some true.
Proof.
  destruct (@resources_fail_without_params rt be_down unit "onshape://document/D1/w/W1"
              context_without_params (start tt [] []) eq_refl eq_refl) as (_ & Hw & _).
  rewrite Hw. split; reflexivity.
Defined.

(** ** A success with an empty body *)

Section EmptyBody.
Context {RT : Runtime} {BE : Backend} {L : Type}.

Lemma empty_body_returns (method path : string) (body : jsval)
    (q : option (list (string * string))) (s : State L) :
  answers_empty (sent s) ->
  onshapeApiRequest method path body q s
  = (inr (JObj []),
     mkState (locals s) (sent s ++ [request_options method (request_url path q) body])
       (console s)).
Proof.
  intros H. apply onshapeApiRequest_returns.
  destruct (H (request_options method (request_url path q) body)) as (r & -> & Hok & Ht).
  cbn. now rewrite Hok, Ht.
Qed.

End EmptyBody.

Ltac run_empty H :=
  unfold try_catch;
  rewrite (bind_inr _ _ _ _ _ (empty_body_returns _ _ _ _ _ H));
  eexists; reflexivity.

(** X12.  The transport turns a success with an empty body into the empty
    object, and the reading tools take that as an empty result rather than a
    failure: each of the eight below answers success, its text ending in its
    nothing-found line (for the tessellation, a count of zero entities). *)
Theorem empty_body_reads_as_nothing_found {RT : Runtime} {BE : Backend} {L : Type}
    (s : State L) (le : ListElementsParams) (fs : FeatureSpecsParams)
    (eq : ElementQueryParams) (cd : ConfigurationDefinitionParams)
    (pbb : PartBoundingBoxParams) (st : SketchTessellationParams) :
  answers_empty (sent s) ->
  answers_ending (fst (list_documents s)) ("No documents found." ++ LF)
  /\ answers_ending (fst (list_elements le s))
       ("No elements found matching the criteria in this state." ++ LF)
  /\ answers_ending (fst (list_part_studio_feature_specs fs s))
       ("No feature specs found for this Part Studio." ++ LF)
  /\ answers_ending (fst (get_part_studio_features eq s))
       ("No features found in this Part Studio." ++ LF)
  /\ answers_ending (fst (get_element_configuration_definition cd s))
       ("This element has no configuration parameters." ++ LF)
  /\ answers_ending (fst (list_part_studio_sketches eq s))
       ("No sketches found in this Part Studio." ++ LF)
  /\ answers_ending (fst (get_part_bounding_box pbb s))
       ("Could not retrieve bounding box." ++ LF)
  /\ answers_ending (fst (get_sketch_tessellation st s))
       ("  Contains data for 0 entities." ++ LF).
Proof.
  intros H. repeat split.
  - unfold list_documents, list_documents_try. run_empty H.
  - unfold list_elements, list_elements_try. cbv zeta. run_empty H.
  - unfold list_part_studio_feature_specs, list_part_studio_feature_specs_try. run_empty H.
  - unfold get_part_studio_features, get_part_studio_features_try. cbv zeta. run_empty H.
  - unfold get_element_configuration_definition, get_element_configuration_definition_try.
    cbv zeta. run_empty H.
  - unfold list_part_studio_sketches, list_part_studio_sketches_try. cbv zeta. run_empty H.
  - unfold get_part_bounding_box, get_part_bounding_box_try. cbv zeta. run_empty H.
  - unfold get_sketch_tessellation, get_sketch_tessellation_try. cbv zeta. run_empty H.
Qed.

Lemma empty_body_reads_as_nothing_found_witness :
  answers_ending (fst (@list_documents rt be_empty unit (start tt [] [])))
    ("No documents found." ++ LF)
  /\ answers_ending (fst (@get_part_studio_features rt be_empty unit sample_element_query
                            (start tt [] [])))
       ("No features found in this Part Studio." ++ LF).
Proof.
  destruct (@empty_body_reads_as_nothing_found rt be_empty unit (start tt [] [])
              {| le_documentId := "D1"; le_wvm := W; le_wvmid := "W1";
                 le_elementType := None |}
              sample_feature_specs sample_element_query
              {| cd_documentId := "D1"; cd_wvm := W; cd_wvmid := "W1"; cd_elementId := "E1";
                 cd_linkDocumentId := None |}
              {| pbb_documentId := "D1"; pbb_wvm := W; pbb_wvmid := "W1";
                 pbb_elementId := "E1"; pbb_partId := "P1"; pbb_configuration := None;
                 pbb_linkDocumentId := None |}
              {| st_documentId := "D1"; st_wvm := W; st_wvmid := "W1";
                 st_partStudioElementId := "E1"; st_sketchFeatureId := "F1";
                 st_entityId := None; st_configuration := None; st_linkDocumentId := None;
                 st_angleTolerance := None; st_chordTolerance := None |})
    as (Hd & _ & _ & Hf & _).
  - intros rq. eexists. repeat split; reflexivity.
  - split; assumption.
Defined.

(** ** The helpers of [onshapeApi.ts] on a successful response *)

Section FinderFacts.
Context {RT : Runtime} {BE : Backend} {L : Type}.

Lemma find_by_name_run (items : list jsval) (name : string) (s : State L) :
  Forall (fun e => nullish e = false) items ->
  find_by_name items name s = (inr (first_named name items), s).
Proof.
  intros H. induction H as [| e items He _ IH]; [reflexivity |].
  cbn [find_by_name]. unfold first_named. cbn [find]. unfold named at 1.
  rewrite (get_prop_defined e "name" He).
  rewrite (bind_inr _ _ _ _ _
             (eq_refl : lift (inr (prop e "name")) s = (inr (prop e "name"), s))).
  destruct (strict_eq_str (prop e "name") name); [reflexivity | exact IH].
Qed.

(** The search stops at the first element that is [undefined] or [null],
    when it reads its [name], unless it found a match before. *)
Lemma find_by_name_stops (good rest : list jsval) (bad : jsval) (name : string)
    (s : State L) :
  Forall (fun e => nullish e = false) good ->
  nullish bad = true ->
  find_by_name (good ++ bad :: rest) name s
  = if existsb (named name) good then (inr (first_named name good), s)
    else (inl (TypeError_nullish bad "name"), s).
Proof.
  intros H Hbad. induction H as [| e good He _ IH].
  - cbn [app find_by_name existsb]. rewrite (get_prop_nullish bad "name" Hbad). reflexivity.
  - cbn [app find_by_name existsb]. unfold first_named. cbn [find]. unfold named at 1 3.
    rewrite (get_prop_defined e "name" He).
    rewrite (bind_inr _ _ _ _ _
               (eq_refl : lift (inr (prop e "name")) s = (inr (prop e "name"), s))).
    destruct (strict_eq_str (prop e "name") name); [reflexivity | exact IH].
Qed.

Lemma array_receiver_not_array (v : jsval) (k : string) :
  Array_isArray v = false ->
  array_receiver v k
  = inl (if nullish v then TypeError_nullish v k else TypeError_not_a_function k).
Proof. destruct v; cbn; intros H; try discriminate; reflexivity. Qed.

End FinderFacts.

(** X13.  [findPartStudioByName] and [findAssemblyByName] send one request
    for the elements of the workspace filtered by their type, and on a
    successful response:
    - given an array none of whose elements is [undefined] or [null], they
      return its first element whose [name] is exactly the string searched
      for, [undefined] when there is none, and log nothing;
    - given an array with an element that is [undefined] or [null], the
      elements before the first such one being none of them, they return the
      first match among those earlier elements when there is one, and
      otherwise [undefined], logging one failure line with the [TypeError]
      for reading [name] of that element: a match behind it is not found;
    - given a response that is not an array they return [undefined] and log
      one failure line with the [TypeError] for calling [find]. *)
Theorem finders_return_first_match {RT : Runtime} {BE : Backend} {L : Type}
    (f : Finder) (documentId workspaceId name : string) (s : State L) (response : jsval) :
  let request := elements_request documentId workspaceId (finder_kind f) in
  let found elem :=
    (inr elem, mkState (locals s) (sent s ++ [request]) (console s)) in
  let failed error :=
    (inr JUndefined,
     mkState (locals s) (sent s ++ [request])
       (console s ++ ["Failed to find " ++ finder_label f ++ " by name " ++ DQ ++ name ++ DQ
                      ++ ": " ++ Error_toString error])) in
  outcome_value (fetch_outcome (sent s) request) = inr response ->
  (forall items,
      response = JArr items -> Forall (fun e => nullish e = false) items ->
      finder_run f documentId workspaceId name s = found (first_named name items))
  /\ (forall good bad rest,
         response = JArr (good ++ bad :: rest) ->
         Forall (fun e => nullish e = false) good -> nullish bad = true ->
         finder_run f documentId workspaceId name s
         = if existsb (named name) good then found (first_named name good)
           else failed (TypeError_nullish bad "name"))
  /\ (Array_isArray response = false ->
      finder_run f documentId workspaceId name s
      = failed (if nullish response then TypeError_nullish response "find"
                else TypeError_not_a_function "find")).
Proof.
  cbv zeta. intros Hout.
  assert (Hrun : forall (k : jsval -> M L jsval) (h : Error -> M L jsval),
             try_catch (bind (onshapeApiRequest "GET"
                                ("/documents/d/" ++ documentId ++ "/w/" ++ workspaceId
                                 ++ "/elements") JUndefined
                                (Some [("elementType", finder_kind f)])) k) h s
             = try_catch (k response) h
                 (mkState (locals s)
                    (sent s ++ [elements_request documentId workspaceId (finder_kind f)])
                    (console s))).
  { intros k h. unfold try_catch.
    now rewrite (bind_inr _ _ _ _ _
                   (onshapeApiRequest_returns "GET" _ JUndefined _ s _ Hout)). }
  repeat split.
  - intros items -> Hall.
    destruct f; cbn [finder_run finder_label finder_kind] in *;
      [unfold findPartStudioByName | unfold findAssemblyByName]; cbv zeta;
      rewrite Hrun; unfold try_catch;
      rewrite (bind_inr _ _ _ _ _
               (eq_refl : lift (array_receiver (JArr items) "find") _ = (inr items, _)));
      now rewrite find_by_name_run.
  - intros good bad rest -> Hall Hbad.
    destruct f; cbn [finder_run finder_label finder_kind] in *;
      [unfold findPartStudioByName | unfold findAssemblyByName]; cbv zeta;
      rewrite Hrun; unfold try_catch;
      rewrite (bind_inr _ _ _ _ _
               (eq_refl : lift (array_receiver (JArr (good ++ bad :: rest)%list) "find") _
                          = (inr (good ++ bad :: rest)%list, _)));
      rewrite (find_by_name_stops good rest bad name _ Hall Hbad);
      destruct (existsb (named name) good); reflexivity.
  - intros Hv.
    destruct f; cbn [finder_run finder_label finder_kind] in *;
      [unfold findPartStudioByName | unfold findAssemblyByName]; cbv zeta;
      rewrite Hrun; unfold try_catch;
      rewrite (array_receiver_not_array response "find" Hv); reflexivity.
Qed.

Lemma finders_return_first_match_witness :
  @findPartStudioByName rt_elements be_elements unit "D1" "W1" "Bracket" (start tt [] [])
  = (inr (JObj [("id", JStr "E1"); ("name", JStr "Bracket")]),
     mkState tt ([] ++ [@elements_request rt_elements "D1" "W1" "PARTSTUDIO"]) [])
  /\ @findPartStudioByName rt_elements_null be_elements_null unit "D1" "W1" "Bracket"
       (start tt [] [])
     = (inr JUndefined,
        mkState tt ([] ++ [@elements_request rt_elements_null "D1" "W1" "PARTSTUDIO"])
          ([] ++ ["Failed to find Part Studio by name " ++ DQ ++ "Bracket" ++ DQ ++ ": "
                  ++ Error_toString (@TypeError_nullish rt_elements_null JNull "name")])).
Proof.
  split.
  - refine (proj1 (@finders_return_first_match rt_elements be_elements unit
                     PartStudioFinder "D1" "W1" "Bracket" (start tt [] []) sample_elements
                     eq_refl)
              _ eq_refl _).
    repeat constructor.
  - exact (proj1 (proj2 (@finders_return_first_match rt_elements_null be_elements_null unit
                           PartStudioFinder "D1" "W1" "Bracket" (start tt [] [])
                           sample_elements_null eq_refl))
             [] JNull [JObj [("id", JStr "E1"); ("name", JStr "Bracket")]]
             eq_refl (Forall_nil _) eq_refl).
Defined.

(** X14.  Given the document, [getDefaultWorkspace] returns the [id] of its
    [defaultWorkspace], and [undefined] without logging anything when the
    document has no default workspace. *)
Theorem getDefaultWorkspace_returns_id_or_undefined {RT : Runtime} {BE : Backend} {L : Type}
    (documentId : string) (s : State L) (docInfo : jsval) :
  let rq := request_options "GET" (request_url ("/documents/" ++ documentId) None)
              JUndefined in
  outcome_value (fetch_outcome (sent s) rq) = inr docInfo ->
  nullish docInfo = false ->
  getDefaultWorkspace documentId s
  = (inr (if nullish (prop docInfo "defaultWorkspace") then JUndefined
          else prop (prop docInfo "defaultWorkspace") "id"),
     mkState (locals s) (sent s ++ [rq]) (console s)).
Proof.
  cbv zeta. intros Hout Hn. unfold getDefaultWorkspace, try_catch.
  rewrite (bind_inr _ _ _ _ _ (onshapeApiRequest_returns "GET" _ JUndefined None s _ Hout)).
  rewrite (get_prop_defined docInfo "defaultWorkspace" Hn).
  rewrite (bind_inr _ _ _ _ _ (eq_refl : lift (inr _) _ = (inr _, _))).
  unfold get_prop_opt.
  destruct (nullish (prop docInfo "defaultWorkspace")) eqn:Hw; [reflexivity |].
  now rewrite (get_prop_defined _ "id" Hw).
Qed.

Lemma getDefaultWorkspace_returns_id_or_undefined_witness :
  fst (@getDefaultWorkspace rt_document be_document unit "D1" (start tt [] []))
  = inr (JStr "W1").
Proof.
  rewrite (@getDefaultWorkspace_returns_id_or_undefined rt_document be_document unit "D1"
             (start tt [] []) sample_document eq_refl eq_refl).
  reflexivity.
Defined.

(** ** Where requests go, and with which credentials *)

(** What the transport builds for a path that starts with [/], as every path
    in the handlers does. *)
Lemma request_from_transport {RT : Runtime} (method path : string) (body : jsval)
    (q : option (list (string * string))) :
  from_transport (request_options method (request_url ("/" ++ path) q) body).
Proof.
  split; [| reflexivity].
  exists (path ++ match q with
                  | Some q => "?" ++ URLSearchParams_toString q
                  | None => ""
                  end).
  reflexivity.
Qed.

Ltac transport_steps :=
  repeat first
    [ apply sends_try_catch; [| intros; solve [pure]]
    | apply sends_bind_request; [apply request_from_transport | intros]
    | apply sends_bind_pure; [solve [pure] | intros]
    | apply sends_bind_tail_pure; [| intros; solve [pure]]
    | match goal with
      | |- sends _ _ (if ?b then _ else _) => destruct b
      | |- sends _ _ (match ?x with _ => _ end) => destruct x
      | |- sends _ _ (let _ := _ in _) => cbv zeta
      end
    | apply sends_keeps; solve [pure] ].

(** X15.  Every request that any registered handler sends is built by the
    transport: its URL is the configured base URL, then a [/], then the rest
    of the path and the query, and it carries the three fixed headers with
    the Basic credentials of the two API keys.  Every path in the handlers
    starts with [/], so text that a caller supplies only ever lands after
    that [/] and cannot continue the last segment of the base URL (its host
    name, when the base URL ends with one); no handler sends other
    credentials. *)
Theorem every_request_goes_through_the_transport {RT : Runtime} {BE : Backend}
    (h : Handler) :
  In h registry ->
  forall (args : h_args h) (s : State (h_locals h)),
    exists rest,
      sent (snd (h_run h args s)) = (sent s ++ rest)%list /\ Forall from_transport rest.
Proof.
  intros Hin args s.
  assert (H : sends from_transport (requests_of (h_name h)) (h_run h args)).
  { clear s. revert args. unfold registry in Hin.
    repeat (destruct Hin as [<- | Hin];
            [ intros args; unfold h_run;
              cbn [h_name h_try h_catch h_locals h_args resource_handler tool_handler];
              unfold requests_of; cbn [String.eqb Ascii.eqb Bool.eqb]
            | ]); [.. | destruct Hin].
    all: apply sends_try_catch; [| intros; solve [pure]].
    all: match goal with |- sends _ _ ?c => let f := head_of c in unfold f end.
    all: solve [transport_steps]. }
  destruct (H s) as (rest & H1 & _ & H3). exists rest. auto.
Qed.

Lemma every_request_goes_through_the_transport_witness :
  exists rest,
    sent (snd (@list_elements rt_no_keys be_down unit
                 {| le_documentId := "D1"; le_wvm := V; le_wvmid := "V1";
                    le_elementType := None |} (start tt [] [])))
    = ([] ++ rest)%list
    /\ Forall (@from_transport rt_no_keys) rest.
Proof.
  apply (@every_request_goes_through_the_transport rt_no_keys be_down
           (tool_handler "list_elements" ListElementsParams
              (@list_elements_try rt_no_keys be_down unit) (@list_elements_catch unit))
           ltac:(unfold registry; cbn; do 5 right; left; reflexivity)).
Defined.

(** X16.  Unset API keys do not stop anything: loading the module logs the
    one warning, and every later call of the transport still sends its
    request, its credentials built from the text [undefined:undefined]. *)
Theorem missing_keys_only_warn {RT : Runtime} {BE : Backend} {L : Type} :
  env_ONSHAPE_ACCESS_KEY = None ->
  env_ONSHAPE_SECRET_KEY = None ->
  startup_console
  = ["Onshape API keys not set. Please set ONSHAPE_ACCESS_KEY and ONSHAPE_SECRET_KEY environment variables."]
  /\ forall (method path : string) (body : jsval) (q : option (list (string * string)))
       (s : State L),
       exists r,
         sent (snd (onshapeApiRequest method path body q s)) = (sent s ++ [r])%list
         /\ In ("Authorization", "Basic " ++ base64 "undefined:undefined") (req_headers r).
Proof.
  intros Ha Hs. split.
  - unfold startup_console. rewrite Ha. reflexivity.
  - intros method path body q s. eexists. split; [apply sent_onshapeApiRequest |].
    unfold request_options, authHeader. cbn [req_headers]. rewrite Ha, Hs.
    right; left; reflexivity.
Qed.

Lemma missing_keys_only_warn_witness :
  @startup_console rt_no_keys
  = ["Onshape API keys not set. Please set ONSHAPE_ACCESS_KEY and ONSHAPE_SECRET_KEY environment variables."]
  /\ exists r,
       sent (snd (@onshapeApiRequest rt_no_keys be_down unit "GET" "/documents/D1" JUndefined
                    None (start tt [] [])))
       = ([] ++ [r])%list
       /\ In ("Authorization", "Basic undefined:undefined") (req_headers r).
Proof.
  destruct (@missing_keys_only_warn rt_no_keys be_down unit eq_refl eq_refl) as [Hw Hr].
  split; [exact Hw |].
  exact (Hr "GET" "/documents/D1" JUndefined None (start tt [] [])).
Defined.

(** ** Creating documents and elements *)



Section CreatedFacts.
Context {RT : Runtime}.




End CreatedFacts.



(** ** Assemblies and parts *)






(** ** The transport, call by call *)

(** X22.  One call of [onshapeApiRequest] sends exactly one request with the
    given method and leaves the caller's variables alone.  The request has a
    body, the JSON text of [body], exactly when [body] is truthy.  A
    rejection of [fetch] is rethrown unchanged after one console line that
    names the URL; every failure logs that one line, and a call that returns
    logs nothing. *)
Theorem transport_sends_once_and_rethrows {RT : Runtime} {BE : Backend} {L : Type}
    (method path : string) (body : jsval) (q : option (list (string * string)))
    (s : State L) :
  let rq := request_options method (request_url path q) body in
  let run := onshapeApiRequest method path body q s in
  sent (snd run) = (sent s ++ [rq])%list
  /\ locals (snd run) = locals s
  /\ req_method rq = method
  /\ req_body rq = (if truthy body then Some (JSON_stringify body) else None)
  /\ (forall e,
        fetch_outcome (sent s) rq = Rejected e ->
        run = (inl e,
               mkState (locals s) (sent s ++ [rq])
                 (console s ++ ["Error during Onshape API request to " ++ req_url rq ++ ": "
                                ++ Error_toString e])))
  /\ (forall v, fst run = inr v -> console (snd run) = console s)
  /\ (forall e,
        fst run = inl e ->
        console (snd run)
        = (console s ++ [("Error during Onshape API request to " ++ req_url rq ++ ": "
                          ++ Error_toString e)%string])%list).
Proof.
  cbv zeta. rewrite onshapeApiRequest_run. cbv zeta. cbn [fst snd sent locals console].
  repeat split.
  - intros e He. rewrite He. reflexivity.
  - intros v Hv. unfold outcome_log. rewrite Hv. apply app_nil_r.
  - intros e He. unfold outcome_log. rewrite He. reflexivity.
Qed.

(** ** The listing of [list_elements] *)

Section ListingFacts.
Context {RT : Runtime} {BE : Backend} {L : Type}.




End ListingFacts.



(** ** What the handlers write to the console *)

Section QuietFacts.
Context {RT : Runtime} {BE : Backend} {L : Type}.

Lemma quiet_ret {A} (a : A) : quiet (@ret L A a).
Proof. intros s a' s' H. now inversion H. Qed.

Lemma quiet_throw {A} (e : Error) : quiet (@throw L A e).
Proof. intros s a s' H. discriminate H. Qed.

Lemma quiet_lift {A} (r : Error + A) : quiet (@lift L A r).
Proof. destruct r; [apply quiet_throw | apply quiet_ret]. Qed.

Lemma quiet_get_local : quiet (@get_local L).
Proof. intros s a s' H. now inversion H. Qed.

Lemma quiet_set_local (l : L) : quiet (set_local l).
Proof. intros s a s' H. now inversion H. Qed.

Lemma quiet_bind {A B} (c : M L A) (k : A -> M L B) :
  quiet c -> (forall a, quiet (k a)) -> quiet (bind c k).
Proof.
  intros Hc Hk s b s' H. unfold bind in H.
  destruct (c s) as [[e | a] s1] eqn:Hcs; [discriminate H |].
  rewrite (Hk a s1 b s' H). exact (Hc s a s1 Hcs).
Qed.

Lemma quiet_fold_text {A} (l : list A) (f : A -> string -> M L string) :
  (forall x acc, quiet (f x acc)) -> forall acc, quiet (fold_text l f acc).
Proof.
  intros Hf. induction l as [| x rest IH]; intro acc; cbn.
  - apply quiet_ret.
  - apply quiet_bind; auto.
Qed.

Lemma quiet_onshapeApiRequest (method path : string) (body : jsval)
    (q : option (list (string * string))) :
  quiet (@onshapeApiRequest RT BE L method path body q).
Proof.
  intros s a s' H. rewrite onshapeApiRequest_run in H. cbv zeta in H.
  inversion H as [[Hv Hs]]. cbn [console]. unfold outcome_log. rewrite Hv.
  apply app_nil_r.
Qed.

Lemma quiet_find_by_name (items : list jsval) (name : string) :
  quiet (@find_by_name RT L items name).
Proof.
  induction items as [| x items IH]; cbn.
  - apply quiet_ret.
  - apply quiet_bind; [apply quiet_lift |]. intros n.
    destruct (strict_eq_str n name); [apply quiet_ret | apply IH].
Qed.

Lemma quiet_filter_with_entities (sketches : list jsval) :
  quiet (@filter_with_entities RT L sketches).
Proof.
  induction sketches as [| x rest IH]; cbn.
  - apply quiet_ret.
  - apply quiet_bind; [apply quiet_lift |]. intros entities.
    apply quiet_bind.
    + unfold nonempty. destruct (truthy entities); [| apply quiet_ret].
      apply quiet_bind; [apply quiet_lift | intros; apply quiet_ret].
    + intros keep. apply quiet_bind; [apply IH | intros; apply quiet_ret].
Qed.

End QuietFacts.

Ltac quiet_steps :=
  repeat first
    [ apply quiet_find_by_name | apply quiet_filter_with_entities
    | apply quiet_onshapeApiRequest
    | apply quiet_ret | apply quiet_throw | apply quiet_lift
    | apply quiet_get_local | apply quiet_set_local
    | apply quiet_fold_text; intros
    | apply quiet_bind; [| intros]
    | match goal with
      | |- quiet (if ?b then _ else _) => destruct b
      | |- quiet (match ?x with _ => _ end) => destruct x
      | |- quiet (let _ := _ in _) => cbv zeta
      end
    | unfold_helpers ].

Lemma handler_try_quiet {RT : Runtime} {BE : Backend} (h : Handler) :
  In h registry -> forall args, quiet (h_try h args).
Proof.
  intros Hin. unfold registry in Hin.
  repeat (destruct Hin as [<- | Hin];
          [ intros args;
            cbn [h_name h_try h_catch h_locals h_args resource_handler tool_handler]
          | ]); [.. | destruct Hin].
  all: match goal with |- quiet ?c => let f := head_of c in unfold f end.
  all: solve [quiet_steps].
Qed.

Lemma handler_catch_is_error {RT : Runtime} {BE : Backend} (h : Handler) :
  In h registry ->
  forall args e s r s', h_catch h args e s = (inr r, s') -> isError r = Some true.
Proof.
  intros Hin. unfold registry in Hin.
  repeat (destruct Hin as [<- | Hin];
          [ intros args e s r s' H;
            cbn [h_name h_try h_catch h_locals h_args resource_handler tool_handler] in H;
            inversion H; reflexivity
          | ]).
  destruct Hin.
Qed.

Lemma handler_catch_logs {RT : Runtime} {BE : Backend} (h : Handler) :
  In h registry ->
  forall args e s,
    exists line,
      console (snd (h_catch h args e s)) = (console s ++ [line])%list
      /\ mentions line (err_message e).
Proof.
  intros Hin. unfold registry in Hin.
  repeat (destruct Hin as [<- | Hin];
          [ intros args e s;
            cbn [h_name h_try h_catch h_locals h_args resource_handler tool_handler];
            eexists; split; [reflexivity | mentions]
          | ]).
  destruct Hin.
Qed.

(** X24.  The console tells success from failure for every registered
    handler: an answer without [isError] is never accompanied by a console
    line, and whenever the [try] block throws, the handler's last console
    line is one of its own that contains the error's message. *)
Theorem console_tells_success_from_failure {RT : Runtime} {BE : Backend} (h : Handler) :
  In h registry ->
  forall (args : h_args h) (s : State (h_locals h)),
    (forall r s',
       h_run h args s = (inr r, s') -> isError r = None -> console s' = console s)
    /\ (forall e s1,
          h_try h args s = (inl e, s1) ->
          exists line,
            console (snd (h_run h args s)) = (console s1 ++ [line])%list
            /\ mentions line (err_message e)).
Proof.
  intros Hin args s. split.
  - intros r s' Hrun Hok. unfold h_run, try_catch in Hrun.
    destruct (h_try h args s) as [[e | a] s1] eqn:Htry.
    + rewrite (handler_catch_is_error h Hin args e s1 r s' Hrun) in Hok. discriminate Hok.
    + inversion Hrun; subst. exact (handler_try_quiet h Hin args s r s' Htry).
  - intros e s1 Htry. rewrite (h_run_after_throw h args s s1 e Htry).
    apply handler_catch_logs. exact Hin.
Qed.

Lemma console_tells_success_from_failure_witness :
  console (snd (@delete_part_studio_feature rt be_delete_skew unit sample_delete
                  (start tt [] []))) = []
  /\ exists line,
       console (snd (@delete_part_studio_feature rt be_down unit sample_delete
                       (start tt [] [])))
       = ([("Error during Onshape API request to "
            ++ req_url (@delete_request rt sample_delete) ++ ": "
            ++ "FetchError: network unreachable")%string] ++ [line])%list
       /\ mentions line "network unreachable".
Proof.
  split.
  - eapply (proj1 (@console_tells_success_from_failure rt be_delete_skew
                     (tool_handler "delete_part_studio_feature" DeletePartStudioFeatureParams
                        (@delete_part_studio_feature_try rt be_delete_skew unit)
                        (@delete_part_studio_feature_catch unit))
                     ltac:(unfold registry; cbn; do 13 right; left; reflexivity)
                     sample_delete (start tt [] []))).
    + vm_compute. reflexivity.
    + reflexivity.
  - exact (proj2 (@console_tells_success_from_failure rt be_down
                    (tool_handler "delete_part_studio_feature" DeletePartStudioFeatureParams
                       (@delete_part_studio_feature_try rt be_down unit)
                       (@delete_part_studio_feature_catch unit))
                    ltac:(unfold registry; cbn; do 13 right; left; reflexivity)
                    sample_delete (start tt [] []))
             (mkError "FetchError" "network unreachable") _ eq_refl).
Defined.

(** ** The document, element and part resources *)

(** X25.  The document, element and part resources send one [GET] whose path
    is built from the template variables as text, without looking at them:
    unlike the WVM resource they accept any selector token, and a variable
    that is missing goes out as the text [undefined]. *)
Theorem resources_send_the_variables_as_text {RT : Runtime} {BE : Backend} {L : Type}
    (uri : string) (context params : jsval) (s : State L) :
  nullish context = false ->
  prop context "params" = params ->
  nullish params = false ->
  sent (snd (document_resource uri context s))
  = (sent s ++ [get_request ("/documents/" ++ variable params "documentId")])%list
  /\ sent (snd (element_resource uri context s))
     = (sent s ++ [get_request ("/documents/d/" ++ variable params "documentId" ++ "/"
                                ++ variable params "wvm" ++ "/" ++ variable params "wvmid"
                                ++ "/elements/" ++ variable params "elementId")])%list
  /\ sent (snd (part_resource uri context s)) = (sent s ++ [part_request params])%list.
Proof.
  intros Hc Hp Hn. repeat split.
  - unfold document_resource, document_resource_try.
    rewrite sent_after_try by (intros; solve [pure]).
    rewrite (bind_inr _ _ _ _ _ (get_defined context "params" _ Hc)). rewrite Hp.
    rewrite (bind_inr _ _ _ _ _ (get_defined params "documentId" _ Hn)).
    rewrite sent_after_bind by (intros; solve [pure]).
    apply sent_onshapeApiRequest.
  - unfold element_resource, element_resource_try.
    rewrite sent_after_try by (intros; solve [pure]).
    rewrite (bind_inr _ _ _ _ _ (get_defined context "params" _ Hc)). rewrite Hp.
    rewrite (bind_inr _ _ _ _ _ (destructurable_run params _ Hn)).
    rewrite (bind_inr _ _ _ _ _ (get_defined params "documentId" _ Hn)).
    rewrite (bind_inr _ _ _ _ _ (get_defined params "wvm" _ Hn)).
    rewrite (bind_inr _ _ _ _ _ (get_defined params "wvmid" _ Hn)).
    rewrite (bind_inr _ _ _ _ _ (get_defined params "elementId" _ Hn)).
    rewrite sent_after_bind by (intros; solve [pure]).
    apply sent_onshapeApiRequest.
  - unfold part_resource, part_resource_try.
    rewrite sent_after_try by (intros; solve [pure]).
    rewrite (bind_inr _ _ _ _ _ (get_defined context "params" _ Hc)). rewrite Hp.
    rewrite (bind_inr _ _ _ _ _ (destructurable_run params _ Hn)).
    rewrite (bind_inr _ _ _ _ _ (get_defined params "documentId" _ Hn)).
    rewrite (bind_inr _ _ _ _ _ (get_defined params "wvm" _ Hn)).
    rewrite (bind_inr _ _ _ _ _ (get_defined params "wvmid" _ Hn)).
    rewrite (bind_inr _ _ _ _ _ (get_defined params "elementId" _ Hn)).
    rewrite (bind_inr _ _ _ _ _ (get_defined params "partId" _ Hn)).
    rewrite sent_after_bind by (intros; solve [pure]).
    apply sent_onshapeApiRequest.
Qed.

Lemma resources_send_the_variables_as_text_witness :
  sent (snd (@element_resource rt be_down unit "onshape://document/D1" sample_context
               (start tt [] [])))
  = ([] ++ [@get_request rt ("/documents/d/" ++ "D1" ++ "/" ++ "undefined" ++ "/"
                             ++ "undefined" ++ "/elements/" ++ "undefined")])%list.
Proof.
  exact (proj1 (proj2 (@resources_send_the_variables_as_text rt be_down unit
                         "onshape://document/D1" sample_context
                         (JObj [("documentId", JStr "D1")]) (start tt [] [])
                         eq_refl eq_refl eq_refl))).
Defined.

Section PartFacts.
Context {RT : Runtime} {BE : Backend} {L : Type}.

Lemma append_part_property_run (items : list jsval) (propName acc : string) (s : State L) :
  Forall (fun e => nullish e = false) items ->
  append_part_property (JArr items) propName acc s
  = (inr (acc ++ property_line items propName), s).
Proof.
  intros Hall. unfold append_part_property, property_line. cbv zeta.
  rewrite (bind_inr _ _ _ _ _
             (eq_refl : lift (array_receiver (JArr items) "find") s = (inr items, s))).
  rewrite (bind_inr _ _ _ _ _ (find_by_name_run items propName s Hall)).
  destruct (truthy (first_named propName items)) eqn:Ht.
  - rewrite (bind_inr _ _ _ _ _ (get_truthy _ "value" s Ht)).
    reflexivity.
  - unfold ret. now rewrite append_nil_r.
Qed.

Lemma fold_properties (items : list jsval) (names : list string) (acc : string)
    (s : State L) :
  Forall (fun e => nullish e = false) items ->
  fold_text names (append_part_property (JArr items)) acc s
  = (inr (acc ++ String.concat "" (map (property_line items) names)), s).
Proof.
  intros Hall. revert acc. induction names as [| n names IH]; intro acc.
  - cbn. unfold ret. now rewrite append_nil_r.
  - cbn [fold_text map].
    rewrite (bind_inr _ _ _ _ _ (append_part_property_run items n acc s Hall)).
    rewrite IH, concat_nil_sep_cons. now rewrite append_assoc.
Qed.

Lemma append_part_property_stops (good rest : list jsval) (bad : jsval)
    (propName acc : string) (s : State L) :
  Forall (fun e => nullish e = false) good ->
  nullish bad = true ->
  append_part_property (JArr (good ++ bad :: rest)) propName acc s
  = if existsb (named propName) good then (inr (acc ++ property_line good propName), s)
    else (inl (TypeError_nullish bad "name"), s).
Proof.
  intros Hall Hbad. unfold append_part_property, property_line. cbv zeta.
  rewrite (bind_inr _ _ _ _ _
             (eq_refl : lift (array_receiver (JArr (good ++ bad :: rest)%list) "find") s
                        = (inr (good ++ bad :: rest)%list, s))).
  unfold bind at 1. rewrite (find_by_name_stops good rest bad propName s Hall Hbad).
  destruct (existsb (named propName) good); [| reflexivity].
  destruct (truthy (first_named propName good)) eqn:Ht.
  - rewrite (bind_inr _ _ _ _ _ (get_truthy _ "value" s Ht)). reflexivity.
  - unfold ret. now rewrite append_nil_r.
Qed.

Lemma fold_properties_stops (good rest : list jsval) (bad : jsval) (names : list string)
    (acc : string) (s : State L) :
  Forall (fun e => nullish e = false) good ->
  nullish bad = true ->
  fold_text names (append_part_property (JArr (good ++ bad :: rest))) acc s
  = if all_named names good
    then (inr (acc ++ String.concat "" (map (property_line good) names)), s)
    else (inl (TypeError_nullish bad "name"), s).
Proof.
  intros Hall Hbad. revert acc. induction names as [| n names IH]; intro acc.
  - cbn. unfold ret. now rewrite append_nil_r.
  - cbn [fold_text map all_named forallb]. unfold bind.
    rewrite (append_part_property_stops good rest bad n acc s Hall Hbad).
    destruct (existsb (named n) good); cbn [andb]; [| reflexivity].
    rewrite IH. fold (all_named names good). destruct (all_named names good); [| reflexivity].
    rewrite concat_nil_sep_cons. now rewrite append_assoc.
Qed.

End PartFacts.

(** X26.  The part resource, read with a context whose [params] is an object
    with a string for the selector token [wvm], after its request succeeded
    with metadata that is an object.  Its text opens with four lines naming
    the part, the element, the document and the selector.  With
    [properties] the field of that name of the metadata:
    - when [properties] is an array none of whose entries is [undefined] or
      [null], the answer is a success with at most five property lines,
      always in the order Name, Part Number, Revision, Material, State
      whatever the order of the metadata: each line comes from the first
      property of that name, an object value as JSON text, and a name that
      is absent gives no line;
    - when [properties] is an array with an entry that is [undefined] or
      [null], the entries before the first such one being none of them, the
      answer is that success, from the earlier entries, only if all five
      names occur among them; otherwise it is an error with the message of
      the [TypeError] for reading [name] of that entry, which is logged;
    - when [properties] is falsy or not an array, the answer is a success
      saying that the detailed properties could not be retrieved.
    In every case exactly the one request has been sent. *)
Theorem part_resource_lists_known_properties {RT : Runtime} {BE : Backend} {L : Type}
    (uri : string) (context params metadata : jsval) (selector : string) (s : State L) :
  let properties := prop metadata "properties" in
  let lines items := String.concat "" (map (property_line items) listed_properties) in
  let succeeds text :=
    part_resource uri context s
    = (inr (resource_ok uri (part_heading params selector ++ text)),
       mkState (locals s) (sent s ++ [part_request params]) (console s)) in
  let fails error :=
    part_resource uri context s
    = (inr (resource_error uri ("Error reading part: " ++ err_message error)),
       mkState (locals s) (sent s ++ [part_request params])
         (console s ++ ["Failed to read part resource " ++ uri ++ ": "
                        ++ err_message error])) in
  nullish context = false ->
  prop context "params" = params ->
  nullish params = false ->
  prop params "wvm" = JStr selector ->
  outcome_value (fetch_outcome (sent s) (part_request params)) = inr metadata ->
  nullish metadata = false ->
  (forall items,
      properties = JArr items -> Forall (fun e => nullish e = false) items ->
      succeeds (lines items))
  /\ (forall good bad rest,
         properties = JArr (good ++ bad :: rest) ->
         Forall (fun e => nullish e = false) good -> nullish bad = true ->
         if all_named listed_properties good then succeeds (lines good)
         else fails (TypeError_nullish bad "name"))
  /\ ((truthy properties && Array_isArray properties)%bool = false ->
      succeeds ("Could not retrieve detailed properties." ++ LF)).
Proof.
  cbv zeta. intros Hc Hp Hn Ht Hout Hm.
  assert (Hrun : part_resource uri context s
                 = try_catch
                     (bind (if (truthy (prop metadata "properties")
                                && Array_isArray (prop metadata "properties"))%bool
                            then fold_text listed_properties
                                   (append_part_property (prop metadata "properties"))
                                   (part_heading params selector)
                            else ret (part_heading params selector
                                      ++ "Could not retrieve detailed properties." ++ LF))
                        (fun contentText => ret (resource_ok uri contentText)))
                     (part_resource_catch uri context)
                     (mkState (locals s) (sent s ++ [part_request params]) (console s))).
  { unfold part_resource, part_resource_try, try_catch.
    rewrite (bind_inr _ _ _ _ _ (get_defined context "params" _ Hc)). rewrite Hp.
    rewrite (bind_inr _ _ _ _ _ (destructurable_run params _ Hn)).
    rewrite (bind_inr _ _ _ _ _ (get_defined params "documentId" _ Hn)).
    rewrite (bind_inr _ _ _ _ _ (get_defined params "wvm" _ Hn)).
    rewrite (bind_inr _ _ _ _ _ (get_defined params "wvmid" _ Hn)).
    rewrite (bind_inr _ _ _ _ _ (get_defined params "elementId" _ Hn)).
    rewrite (bind_inr _ _ _ _ _ (get_defined params "partId" _ Hn)).
    rewrite (bind_inr _ _ _ _ _ (onshapeApiRequest_returns "GET" _ JUndefined None s _ Hout)).
    cbv zeta. rewrite Ht. cbn [call_toUpperCase].
    rewrite (bind_inr _ _ _ _ _ (eq_refl : lift (inr _) _ = (inr _, _))).
    rewrite (bind_inr _ _ _ _ _ (get_defined metadata "properties" _ Hm)).
    unfold part_heading, part_request, get_request, variable, listed_properties.
    rewrite Ht. cbn [to_string].
    repeat rewrite append_assoc. reflexivity. }
  rewrite Hrun. clear Hrun. unfold try_catch.
  repeat split.
  - intros items -> Hall. cbn [truthy Array_isArray andb].
    rewrite (bind_inr _ _ _ _ _ (fold_properties items _ _ _ Hall)). reflexivity.
  - intros good bad rest -> Hall Hbad. cbn [truthy Array_isArray andb].
    unfold bind. rewrite (fold_properties_stops good rest bad _ _ _ Hall Hbad).
    destruct (all_named listed_properties good); reflexivity.
  - intros ->. unfold bind, ret. do 4 f_equal.
Qed.

Lemma part_resource_lists_known_properties_witness :
  @part_resource rt_metadata be_metadata unit "onshape://part" context_part (start tt [] [])
  = (inr (resource_ok "onshape://part"
            ("Onshape Part (Identity: P1)" ++ LF ++ "From Element ID: E1" ++ LF
             ++ "From Document ID: D1" ++ LF ++ "From W ID: W1" ++ LF
             ++ "Name: Bracket" ++ LF
             ++ "Material: " ++ ref_stringify (JObj [("id", JStr "steel")]) ++ LF)),
     mkState tt ([] ++ [@part_request rt_metadata
                          (JObj [("documentId", JStr "D1"); ("wvm", JStr "w");
                                 ("wvmid", JStr "W1"); ("elementId", JStr "E1");
                                 ("partId", JStr "P1")])]) [])
  /\ @part_resource rt_metadata_null be_metadata_null unit "onshape://part" context_part
       (start tt [] [])
     = (inr (resource_error "onshape://part"
               ("Error reading part: "
                ++ err_message (@TypeError_nullish rt_metadata_null JNull "name"))),
        mkState tt ([] ++ [@part_request rt_metadata_null
                             (JObj [("documentId", JStr "D1"); ("wvm", JStr "w");
                                    ("wvmid", JStr "W1"); ("elementId", JStr "E1");
                                    ("partId", JStr "P1")])])
          ([] ++ ["Failed to read part resource onshape://part: "
                  ++ err_message (@TypeError_nullish rt_metadata_null JNull "name")])).
Proof.
  split.
  - refine (proj1 (@part_resource_lists_known_properties rt_metadata be_metadata unit
                     "onshape://part" context_part
                     (JObj [("documentId", JStr "D1"); ("wvm", JStr "w");
                            ("wvmid", JStr "W1"); ("elementId", JStr "E1");
                            ("partId", JStr "P1")])
                     sample_metadata "w" (start tt [] [])
                     eq_refl eq_refl eq_refl eq_refl eq_refl eq_refl)
              _ eq_refl _).
    repeat constructor.
  - refine (proj1 (proj2 (@part_resource_lists_known_properties rt_metadata_null
                            be_metadata_null unit "onshape://part" context_part
                            (JObj [("documentId", JStr "D1"); ("wvm", JStr "w");
                                   ("wvmid", JStr "W1"); ("elementId", JStr "E1");
                                   ("partId", JStr "P1")])
                            sample_metadata_null "w" (start tt [] [])
                            eq_refl eq_refl eq_refl eq_refl eq_refl eq_refl))
              [JObj [("name", JStr "Name"); ("value", JStr "Bracket")]] JNull []
              eq_refl _ eq_refl).
    repeat constructor.
Defined.
